(** * Superbot risk core: a shallow embedding of the Python sources

    The development embeds four components of the repository and states
    their documented properties over the embedding:

    - [BadBank]          src/core/bad_bank.py        (toxic-asset ledger)
    - [TickPressure]     src/ai_core/tick_pressure.py (order flow, VPIN)
    - [LiquidityMapper]  src/ai_core/liquidity_mapper.py (pivot clustering)
    - [RiskManager]      src/risk_manager.py          (zone recovery)

    The remaining functions of these files follow in [BadBankView]
    (ledger queries), [TickWindow] and [CombinedAnalysis] (tick window,
    pressure metrics, combined analysis), [LiquidityMap] (pivots, map,
    entry veto) and [RiskTools] (retry utility, status queries);
    [RiskView] holds the predicates the frame properties are stated
    with.

    Conventions of the embedding.
    - Python [float] values are idealised as exact rationals [Q]; the
      decimal literals of the source ([0.01], [2.5], [0.0005], ...) are
      the same literals here.  Comparisons are the boolean ones of [Q].
    - Python [int] values are [Z]; [len] is [length] (a [nat]).
    - A [dict] keyed by symbol or ticket is a [gmap]; [toxic_assets],
      whose iteration order matters, is an association list in
      insertion order.
    - A call into a collaborator that is not part of the sources (broker,
      coordinator, sizing module, clock) yields an [outcome]: a value or
      a raised exception.
    - [np.std], whose value is not rational, and [math.log] are
      parameters; what is proved holds whatever they return. *)

From Stdlib Require Import QArith Qabs Qround Lqa ZArith Lia Sorted.
From stdpp Require Import gmap strings list fin_maps.

Local Open Scope Q_scope.

(** ** Shared vocabulary *)

(** Result of a call that may raise. *)
Inductive outcome (A : Type) : Type :=
  | Ret (a : A)
  | Raise.
Arguments Ret {A} a.
Arguments Raise {A}.

(** Strict comparison [x < y] on floats. *)
Definition Qltb (x y : Q) : bool := negb (Qle_bool y x).

(** [needle in hay] on Python strings. *)
Fixpoint contains (needle hay : string) : bool :=
  if String.prefix needle hay then true
  else match hay with
       | EmptyString => false
       | String _ hay' => contains needle hay'
       end.

(** [sum(xs)] on a list of floats. *)
Definition sumQ (xs : list Q) : Q := fold_left Qplus xs 0.

(** A broker position, as the attributes the sources read:
    [type] is [0] for BUY and [1] for SELL. *)
Record Position : Type := mkPosition {
  ticket : Z;
  symbol : string;
  type : Z;
  volume : Q;
  price_open : Q;
  time : Q
}.

(** A tick as returned by the broker. [tick_age_s] is an optional key. *)
Record Tick : Type := mkTick {
  bid : Q;
  ask : Q;
  spread : Q;
  tick_time : Q;
  tick_age_s : option Q
}.

(** ** src/core/bad_bank.py *)

Module BadBank.

(** The value stored per bucket id in [toxic_assets]. *)
Record ToxicAsset : Type := mkToxicAsset {
  bucket_id : string;
  positions : list Position;
  frozen_time : Q;
  initial_volume : Q;
  status : string
}.

(** The instance attributes of [BadBank]. *)
Record t : Type := mkBadBank {
  toxic_assets : list (string * ToxicAsset);
  tithe_balance : Q;
  total_tithe_collected : Q;
  total_debt_repaid : Q
}.

(** [BadBank.__init__] *)
Definition init : t :=
  {| toxic_assets := []; tithe_balance := 0;
     total_tithe_collected := 0; total_debt_repaid := 0 |}.

(** [bucket_id in self.toxic_assets] *)
Definition registered (bid : string) (assets : list (string * ToxicAsset)) : bool :=
  existsb (fun kv => String.eqb bid (fst kv)) assets.

(** [register_toxic_asset]; [now] is the reading of [time.time()].
    The source stores the caller's list object; here every bucket owns
    its list, i.e. callers are taken not to mutate or share the lists
    they hand over. *)
Definition register_toxic_asset (self : t) (bid : string)
    (ps : list Position) (now : Q) : t :=
  if registered bid (toxic_assets self) then self
  else
    let total_volume := sumQ (map volume ps) in
    {| toxic_assets :=
         toxic_assets self ++
           [(bid, {| bucket_id := bid; positions := ps; frozen_time := now;
                     initial_volume := total_volume; status := "FROZEN" |})];
       tithe_balance := tithe_balance self;
       total_tithe_collected := total_tithe_collected self;
       total_debt_repaid := total_debt_repaid self |}.

(** [deposit_tithe]: the new ledger and the accepted amount. *)
Definition deposit_tithe (self : t) (amount : Q) (source_symbol : string) : t * Q :=
  if Qle_bool amount 0 then (self, 0)
  else
    ({| toxic_assets := toxic_assets self;
        tithe_balance := tithe_balance self + amount;
        total_tithe_collected := total_tithe_collected self + amount;
        total_debt_repaid := total_debt_repaid self |}, amount).

(** [get_stats()['assets_count']] *)
Definition assets_count (self : t) : nat := length (toxic_assets self).

(** The two broker methods the debt-reduction pass calls.  The broker
    is an object with hidden state; each call returns the broker after
    the call and what the call produced. *)
Class Broker (B : Type) : Type := {
  get_last_tick : B -> string -> B * outcome (option Tick);
  close_position : B -> Z -> Q -> string -> B * outcome bool
}.

Definition NIBBLE_SIZE : Q := 0.01.

(** The inner [for p in positions] search for the first position with
    [p.volume >= 0.01]. *)
Fixpoint find_loser (ps : list Position) : option Position :=
  match ps with
  | [] => None
  | p :: ps' => if Qle_bool 0.01 (volume p) then Some p else find_loser ps'
  end.

(** [round(x, 2)]: nearest hundredth, ties to the even hundredth. *)
Definition round2 (x : Q) : Q :=
  let n := x * 100 in
  let f := Qfloor n in
  let r := n - inject_Z f in
  let k := if Qltb r 0.5 then f
           else if Qltb 0.5 r then (f + 1)%Z
           else if Z.even f then f else (f + 1)%Z in
  inject_Z k / 100.

(** [required_tithe] for closing one nibble of [loser] at [tick]. *)
Definition required_tithe (loser : Position) (tick : Tick) : Q :=
  let price := if Z.eqb (type loser) 0 then bid tick else ask tick in
  let contract_size : Q := if contains "XAU" (symbol loser) then 100 else 100000 in
  let diff := if Z.eqb (type loser) 0 then price - price_open loser
              else price_open loser - price in
  let estimated_loss := diff * NIBBLE_SIZE * contract_size in
  if Qle_bool 0 estimated_loss then 0 else Qabs estimated_loss.

(** The in-place update of the position list after a successful
    nibble: the loser (the first position with volume [>= 0.01]) gets
    [round(volume - 0.01, 2)] and is removed once below [0.01]. *)
Fixpoint nibble_positions (ps : list Position) : list Position :=
  match ps with
  | [] => []
  | p :: ps' =>
      if Qle_bool 0.01 (volume p) then
        let v := round2 (volume p - NIBBLE_SIZE) in
        if Qltb v 0.01 then ps'
        else {| ticket := ticket p; symbol := symbol p; type := type p;
                volume := v; price_open := price_open p; time := time p |} :: ps'
      else p :: nibble_positions ps'
  end.

(** The bucket [bid] after the nibble: its position list is updated
    and the bucket is deleted when the list became empty. *)
Fixpoint settle_bucket (bid : string) (assets : list (string * ToxicAsset))
    : list (string * ToxicAsset) :=
  match assets with
  | [] => []
  | (k, a) :: rest =>
      if String.eqb bid k then
        match nibble_positions (positions a) with
        | [] => rest
        | ps' => (k, {| bucket_id := bucket_id a; positions := ps';
                        frozen_time := frozen_time a;
                        initial_volume := initial_volume a;
                        status := status a |}) :: rest
        end
      else (k, a) :: settle_bucket bid rest
  end.

(** What the pass did, for the record: broker calls issued and ledger
    deductions made, in program order. *)
Inductive event : Type :=
  | EvTick (sym : string)
  | EvClose (tk : Z) (vol : Q) (res : outcome bool)
  | EvDeduct (cost : Q).

Record pass : Type := mkPass {
  ret : outcome bool;
  bank : t;
  trace : list event
}.

Section Pass.
Context {B : Type} `{Broker B}.

(** The [for bucket_id, asset_data in list(self.toxic_assets.items())]
    loop.  The ledger is not written before the [return True], so
    the snapshot [items] and the live dict agree while the loop
    runs. *)
Fixpoint reduction_loop (self : t) (items : list (string * ToxicAsset))
    (broker : B) (tr : list event) : pass * B :=
  match items with
  | [] => ({| ret := Ret false; bank := self; trace := tr |}, broker)
  | (bid, asset_data) :: rest =>
      match find_loser (positions asset_data) with
      | None => reduction_loop self rest broker tr
      | Some loser =>
          let '(broker, current_tick) := get_last_tick broker (symbol loser) in
          let tr := tr ++ [EvTick (symbol loser)] in
          match current_tick with
          | Raise => ({| ret := Raise; bank := self; trace := tr |}, broker)
          | Ret None => reduction_loop self rest broker tr
          | Ret (Some tick) =>
              let required := required_tithe loser tick in
              if Qle_bool required (tithe_balance self) then
                let '(broker, res) :=
                  close_position broker (ticket loser) NIBBLE_SIZE "CHRONOS_NIBBLE" in
                let tr := tr ++ [EvClose (ticket loser) NIBBLE_SIZE res] in
                match res with
                | Raise => ({| ret := Raise; bank := self; trace := tr |}, broker)
                | Ret true =>
                    ({| ret := Ret true;
                        bank :=
                          {| toxic_assets := settle_bucket bid (toxic_assets self);
                             tithe_balance := tithe_balance self - required;
                             total_tithe_collected := total_tithe_collected self;
                             total_debt_repaid := total_debt_repaid self + required |};
                        trace := tr ++ [EvDeduct required] |}, broker)
                | Ret false => reduction_loop self rest broker tr
                end
              else reduction_loop self rest broker tr
          end
      end
  end.

(** [attempt_debt_reduction].  The coroutine is run to completion: no
    other ledger operation interleaves at its [await]. *)
Definition attempt_debt_reduction (self : t) (broker : B) : pass * B :=
  reduction_loop self (toxic_assets self) broker [].

(** The operations a caller can apply to the ledger. *)
Inductive op : Type :=
  | OpRegister (bid : string) (ps : list Position) (now : Q)
  | OpDeposit (amount : Q) (source_symbol : string)
  | OpReduce.

Definition step (st : t * B) (o : op) : t * B :=
  match o with
  | OpRegister bid ps now => (register_toxic_asset (fst st) bid ps now, snd st)
  | OpDeposit amount src => (fst (deposit_tithe (fst st) amount src), snd st)
  | OpReduce =>
      let '(p, b) := attempt_debt_reduction (fst st) (snd st) in (bank p, b)
  end.

Definition run (ops : list op) (broker : B) : t * B :=
  fold_left step ops (init, broker).
End Pass.

(** A broker that replays a script: whether ticks are available and
    what each [close_position] answers. *)
Record scripted : Type := mkScripted {
  quote : option Tick;
  answers : list (outcome bool)
}.

#[global] Instance scripted_broker : Broker scripted := {
  get_last_tick b _ := (b, Ret (quote b));
  close_position b _ _ _ :=
    match answers b with
    | [] => (b, Ret false)
    | a :: rest => ({| quote := quote b; answers := rest |}, a)
    end
}.

(** Counting in a trace. *)
Definition is_closed (e : event) : bool :=
  match e with EvClose _ _ (Ret true) => true | _ => false end.
Definition is_deduct (e : event) : bool :=
  match e with EvDeduct _ => true | _ => false end.
Definition closed_volume (tr : list event) : Q :=
  sumQ (map (fun e => match e with EvClose _ v (Ret true) => v | _ => 0 end) tr).
Definition count (f : event -> bool) (tr : list event) : nat :=
  length (List.filter f tr).

(** No successful close and no deduction among the events. *)
Definition quiet (tr : list event) : Prop :=
  Forall (fun e => is_closed e = false /\ is_deduct e = false) tr.

(** The two shapes a pass can have, relative to the ledger [self] it
    started from and the events [new] it added. *)
Definition pass_shape (self : t) (p : pass) (new : list event) : Prop :=
  (quiet new /\ ret p <> Ret true /\ bank p = self)
  \/ (exists pre tk c,
        new = pre ++ [EvClose tk NIBBLE_SIZE (Ret true); EvDeduct c]
        /\ quiet pre /\ ret p = Ret true
        /\ c <= tithe_balance self
        /\ tithe_balance (bank p) = tithe_balance self - c
        /\ total_debt_repaid (bank p) = total_debt_repaid self + c
        /\ total_tithe_collected (bank p) = total_tithe_collected self).

End BadBank.


(** ** src/ai_core/tick_pressure.py *)

Module TickPressure.

(** A value stored under a key of the tick dict: a number, or a value
    ([None], a string, ...) on which arithmetic raises [TypeError]. *)
Inductive pyval : Type :=
  | Num (q : Q)
  | NotNum.

(** The keys of the tick dict that [analyze_order_flow] reads; [None]
    is an absent key. *)
Record TickDict : Type := mkTickDict {
  k_last : option pyval;
  k_bid : option pyval;
  k_ask : option pyval;
  k_volume : option pyval
}.

(** The attributes of [TickPressureAnalyzer] that the order-flow and
    VPIN methods use.  [rust_engine], when present, is the optional
    native engine; it tells whether its [calculate_vpin] call returns
    ([true]) or raises ([false]).  [_prev_mid] is [None] until the
    attribute exists. *)
Record t : Type := mkAnalyzer {
  buy_volume_buffer : list Q;
  sell_volume_buffer : list Q;
  rust_engine : option (Q -> Z -> bool);
  _prev_mid : option Q
}.

(** [TickPressureAnalyzer.__init__] *)
Definition init (engine : option (Q -> Z -> bool)) : t :=
  {| buy_volume_buffer := []; sell_volume_buffer := [];
     rust_engine := engine; _prev_mid := None |}.

(** [deque(maxlen=100).append]: the oldest entry leaves once the
    capacity is exceeded. *)
Definition deque_append (d : list Q) (x : Q) : list Q :=
  let d' := d ++ [x] in
  if Nat.ltb 100 (length d') then tl d' else d'.

Definition append_buy (self : t) (x : Q) : t :=
  {| buy_volume_buffer := deque_append (buy_volume_buffer self) x;
     sell_volume_buffer := sell_volume_buffer self;
     rust_engine := rust_engine self; _prev_mid := _prev_mid self |}.

Definition append_sell (self : t) (x : Q) : t :=
  {| buy_volume_buffer := buy_volume_buffer self;
     sell_volume_buffer := deque_append (sell_volume_buffer self) x;
     rust_engine := rust_engine self; _prev_mid := _prev_mid self |}.

Definition set_prev_mid (self : t) (m : Q) : t :=
  {| buy_volume_buffer := buy_volume_buffer self;
     sell_volume_buffer := sell_volume_buffer self;
     rust_engine := rust_engine self; _prev_mid := Some m |}.

(** The dict returned by [analyze_order_flow]; the two volume keys are
    absent on the early and fallback returns. *)
Record OrderFlow : Type := mkOrderFlow {
  order_flow_imbalance : Q;
  buy_pressure : Q;
  sell_pressure : Q;
  buy_volume : option Q;
  sell_volume : option Q
}.

Definition neutral : OrderFlow :=
  {| order_flow_imbalance := 0; buy_pressure := 0.5; sell_pressure := 0.5;
     buy_volume := None; sell_volume := None |}.

(** The classification step: which buffer receives the volume, and the
    side code passed to the native engine (0 buy, 1 sell, 2 neutral). *)
Definition classify (self : t) (last_price bid ask volume mid_price prev_mid : Q)
    : t * Z :=
  let is_quote_update := Qltb (Qabs last_price) 1e-9 in
  if negb is_quote_update then
    if Qle_bool ask last_price then (append_buy self volume, 0%Z)
    else if Qle_bool last_price bid then (append_sell self volume, 1%Z)
    else (append_sell (append_buy self (volume / 2)) (volume / 2), 2%Z)
  else
    if Qltb prev_mid mid_price then (append_buy self volume, 0%Z)
    else if Qltb mid_price prev_mid then (append_sell self volume, 1%Z)
    else (append_sell (append_buy self (volume / 2)) (volume / 2), 2%Z).

(** The closing computation of [analyze_order_flow] (the "legacy"
    Python logic): volumes, imbalance and pressures from the buffers. *)
Definition summarize (self : t) : OrderFlow :=
  let buy_vol := sumQ (buy_volume_buffer self) in
  let sell_vol := sumQ (sell_volume_buffer self) in
  let total_vol := buy_vol + sell_vol in
  if Qltb 0 total_vol then
    {| order_flow_imbalance := (buy_vol - sell_vol) / total_vol;
       buy_pressure := buy_vol / total_vol;
       sell_pressure := sell_vol / total_vol;
       buy_volume := Some buy_vol;
       sell_volume := Some sell_vol |}
  else
    {| order_flow_imbalance := 0;
       buy_pressure := 0.5;
       sell_pressure := 0.5;
       buy_volume := Some buy_vol;
       sell_volume := Some sell_vol |}.

(** The body of the [try] block of [analyze_order_flow]. *)
Definition order_flow_body (self : t) (tick : TickDict) : t * outcome OrderFlow :=
  let last_price :=
    match k_last tick with
    | Some v => v
    | None => default (Num 0) (k_bid tick)
    end in
  let bid := default (Num 0) (k_bid tick) in
  let ask := default (Num 0) (k_ask tick) in
  match default (Num 1) (k_volume tick) with
  | NotNum => (self, Raise)
  | Num volume =>
      match bid, ask with
      | Num bid, Num ask =>
          let mid_price := (bid + ask) / 2 in
          let self :=
            match _prev_mid self with
            | None => set_prev_mid self mid_price
            | Some _ => self
            end in
          match last_price with
          | NotNum => (self, Raise)
          | Num last_price =>
              let '(self, side_rust) :=
                classify self last_price bid ask volume mid_price
                  (default mid_price (_prev_mid self)) in
              let self := set_prev_mid self mid_price in
              let engine_ok :=
                match rust_engine self with
                | Some engine => engine volume side_rust
                | None => true
                end in
              if engine_ok then (self, Ret (summarize self))
              else (self, Raise)
          end
      | _, _ => (self, Raise)
      end
  end.

(** [analyze_order_flow]: [tick = None] stands for a falsy tick ([None]
    or the empty dict). *)
Definition analyze_order_flow (self : t) (tick : option TickDict) : t * OrderFlow :=
  match tick with
  | None => (self, neutral)
  | Some tick =>
      match order_flow_body self tick with
      | (self', Ret r) => (self', r)
      | (self', Raise) => (self', neutral)
      end
  end.

(** [calculate_vpin] *)
Definition calculate_vpin (self : t) : Q :=
  let buy_vol := sumQ (buy_volume_buffer self) in
  let sell_vol := sumQ (sell_volume_buffer self) in
  let total_vol := buy_vol + sell_vol in
  if Qle_bool total_vol 0 then 0
  else
    let buy_samples := length (buy_volume_buffer self) in
    let sell_samples := length (sell_volume_buffer self) in
    if Nat.ltb (buy_samples + sell_samples) 15 then 0
    else Qabs (buy_vol - sell_vol) / total_vol.

(** Feeding a list of ticks, oldest first. *)
Definition feed (self : t) (ticks : list (option TickDict)) : t :=
  fold_left (fun a tk => fst (analyze_order_flow a tk)) ticks self.

(** A tick whose volume, when numeric, is not negative. *)
Definition volume_nonneg (tick : option TickDict) : Prop :=
  match tick with
  | Some tk => match k_volume tk with Some (Num v) => 0 <= v | _ => True end
  | None => True
  end.

(** Both buffers hold non-negative volumes only. *)
Definition buffers_nonneg (self : t) : Prop :=
  Forall (fun v => 0 <= v) (buy_volume_buffer self)
  /\ Forall (fun v => 0 <= v) (sell_volume_buffer self).

End TickPressure.

(** ** src/ai_core/liquidity_mapper.py *)

Module LiquidityMapper.

Inductive wall_type : Type := RESISTANCE | SUPPORT.

(** A wall dict: [price], [strength], [type]. *)
Record Wall : Type := mkWall {
  price : Q;
  strength : nat;
  wtype : wall_type
}.

(** [_process_cluster]; every call site passes a non-empty cluster. *)
Definition _process_cluster (levels : list Q) (is_resistance : bool) : Wall :=
  {| price := sumQ levels / inject_Z (Z.of_nat (length levels));
     strength := length levels;
     wtype := if is_resistance then RESISTANCE else SUPPORT |}.

(** [levels.sort()]: ascending and stable. *)
Fixpoint insert_level (x : Q) (l : list Q) : list Q :=
  match l with
  | [] => [x]
  | y :: l' => if Qle_bool x y then x :: l else y :: insert_level x l'
  end.

Definition sort_levels (levels : list Q) : list Q :=
  fold_right insert_level [] levels.

(** The [for i in range(1, len(levels))] loop: [prev] is [levels[i-1]],
    [rest] is [levels[i:]]. *)
Fixpoint cluster_loop (threshold : Q) (is_resistance : bool) (prev : Q)
    (rest : list Q) (current_cluster : list Q) (clusters : list Wall) : list Wall :=
  match rest with
  | [] =>
      match current_cluster with
      | [] => clusters
      | _ => clusters ++ [_process_cluster current_cluster is_resistance]
      end
  | x :: rest' =>
      if Qle_bool (x - prev) threshold then
        cluster_loop threshold is_resistance x rest' (current_cluster ++ [x]) clusters
      else
        cluster_loop threshold is_resistance x rest' [x]
          (clusters ++ [_process_cluster current_cluster is_resistance])
  end.

(** [_cluster_levels]: the threshold is computed once, from the
    smallest level. *)
Definition _cluster_levels (levels : list Q) (is_resistance : bool) : list Wall :=
  match sort_levels levels with
  | [] => []
  | l0 :: rest =>
      let avg_price := l0 in
      let threshold := avg_price * 0.0005 in
      cluster_loop threshold is_resistance l0 rest [l0] []
  end.

(** The clustering as the specification words it: the threshold is
    0.0005 times the anchor (first level) of the cluster being built,
    hence recomputed whenever a new cluster starts. *)
Fixpoint spec_cluster_loop (is_resistance : bool) (anchor prev : Q)
    (rest : list Q) (current_cluster : list Q) (clusters : list Wall) : list Wall :=
  match rest with
  | [] => clusters ++ [_process_cluster current_cluster is_resistance]
  | x :: rest' =>
      if Qle_bool (x - prev) (anchor * 0.0005) then
        spec_cluster_loop is_resistance anchor x rest' (current_cluster ++ [x]) clusters
      else
        spec_cluster_loop is_resistance x x rest' [x]
          (clusters ++ [_process_cluster current_cluster is_resistance])
  end.

Definition spec_cluster_levels (levels : list Q) (is_resistance : bool) : list Wall :=
  match sort_levels levels with
  | [] => []
  | l0 :: rest => spec_cluster_loop is_resistance l0 l0 rest [l0] []
  end.

(** Neighbouring levels of one cluster are within the threshold. *)
Fixpoint chained (threshold : Q) (g : list Q) : Prop :=
  match g with
  | a :: (b :: _) as g' => b - a <= threshold /\ chained threshold g'
  | _ => True
  end.

(** The last level of a cluster and the first level of the next one are
    further apart than the threshold. *)
Fixpoint separated (threshold : Q) (gs : list (list Q)) : Prop :=
  match gs with
  | g1 :: (g2 :: _) as gs' =>
      threshold < hd 0 g2 - List.last g1 0 /\ separated threshold gs'
  | _ => True
  end.

(** A list of levels is ascending. *)
Fixpoint ascending (l : list Q) : Prop :=
  match l with
  | a :: (b :: _) as l' => a <= b /\ ascending l'
  | _ => True
  end.

End LiquidityMapper.


(** ** src/risk_manager.py *)

Module RiskManager.

(** The constants of [src.constants.AdaptiveRisk] that the risk manager
    reads.  Their values are not part of the sources at hand, so they
    are a parameter of the embedding. *)
Record AdaptiveRisk : Type := mkAdaptiveRisk {
  COOLDOWN_BASE : Q;
  COOLDOWN_MIN : Q;
  COOLDOWN_MAX : Q;
  VOL_LOW : Q;
  VOL_EXTREME : Q;
  VOL_HIGH : Q;
  ZONE_MAX : Q
}.

Record ZoneConfig : Type := mkZoneConfig {
  zone_pips : Q;
  tp_pips : Q;
  max_hedges : Z;
  min_age_seconds : Q;
  hedge_cooldown_seconds : Q;
  bucket_close_cooldown_seconds : Q;
  emergency_hedge_threshold : Z
}.

(** The dataclass [HedgeState], without its [lock]: the embedding is
    sequential. *)
Record HedgeState : Type := mkHedgeState {
  last_hedge_time : Q;
  active_hedges : Z;
  total_positions : Z;
  zone_width_points : Q;
  tp_width_points : Q;
  high_vol_mode : bool;
  volatility_scale : Q;
  last_volatility_scale_update : Q
}.

(** [HedgeState()] with the dataclass defaults. *)
Definition HedgeState_default : HedgeState :=
  {| last_hedge_time := 0.0; active_hedges := 0; total_positions := 0;
     zone_width_points := 0.0; tp_width_points := 0.0; high_vol_mode := false;
     volatility_scale := 1.0; last_volatility_scale_update := 0.0 |}.

(** The instance attributes of [RiskManager].  [_last_spread_update] is
    created with value 0 by the first [is_spread_healthy] call, which is
    the same as holding 0 from the start. *)
Record t : Type := mkRiskManager {
  config : ZoneConfig;
  _hedge_states : gmap string HedgeState;
  _pending_hedges : gmap string Q;
  _global_position_cap : Z;
  spread_history : list Q;
  max_spread_multiplier : Q;
  _last_spread_update : Q;
  _time_offset : option Q;
  _last_offset_calc : Q
}.

(** [RiskManager.__init__] *)
Definition init (zone_config : ZoneConfig) : t :=
  {| config := zone_config; _hedge_states := ∅; _pending_hedges := ∅;
     _global_position_cap := 10; spread_history := [];
     max_spread_multiplier := 2.5; _last_spread_update := 0;
     _time_offset := None; _last_offset_calc := 0 |}.

Definition set_hedge_states (self : t) (m : gmap string HedgeState) : t :=
  {| config := config self; _hedge_states := m;
     _pending_hedges := _pending_hedges self;
     _global_position_cap := _global_position_cap self;
     spread_history := spread_history self;
     max_spread_multiplier := max_spread_multiplier self;
     _last_spread_update := _last_spread_update self;
     _time_offset := _time_offset self;
     _last_offset_calc := _last_offset_calc self |}.

Definition set_pending (self : t) (m : gmap string Q) : t :=
  {| config := config self; _hedge_states := _hedge_states self;
     _pending_hedges := m;
     _global_position_cap := _global_position_cap self;
     spread_history := spread_history self;
     max_spread_multiplier := max_spread_multiplier self;
     _last_spread_update := _last_spread_update self;
     _time_offset := _time_offset self;
     _last_offset_calc := _last_offset_calc self |}.

Definition set_spread (self : t) (h : list Q) (last_update : Q) : t :=
  {| config := config self; _hedge_states := _hedge_states self;
     _pending_hedges := _pending_hedges self;
     _global_position_cap := _global_position_cap self;
     spread_history := h;
     max_spread_multiplier := max_spread_multiplier self;
     _last_spread_update := last_update;
     _time_offset := _time_offset self;
     _last_offset_calc := _last_offset_calc self |}.

Definition set_offset (self : t) (offset : option Q) (calc : Q) : t :=
  {| config := config self; _hedge_states := _hedge_states self;
     _pending_hedges := _pending_hedges self;
     _global_position_cap := _global_position_cap self;
     spread_history := spread_history self;
     max_spread_multiplier := max_spread_multiplier self;
     _last_spread_update := _last_spread_update self;
     _time_offset := offset;
     _last_offset_calc := calc |}.

(** [self._pending_hedges.pop(symbol, None)] *)
Definition pop_pending (self : t) (symbol : string) : t :=
  set_pending self (delete symbol (_pending_hedges self)).

(** Python's two-argument [max] and [min]. *)
Definition pymax (a b : Q) : Q := if Qltb a b then b else a.
Definition pymin (a b : Q) : Q := if Qltb b a then b else a.

(** [int(x)] on a float: truncation towards zero. *)
Definition Qtrunc (x : Q) : Z := if Qle_bool 0 x then Qfloor x else Qceiling x.

(** [is_spread_healthy]; [now] is the reading of [time.time()]. *)
Definition is_spread_healthy (self : t) (current_spread : Q) (now : Q) : t * bool :=
  match spread_history self with
  | [] => (set_spread self [current_spread] (_last_spread_update self), true)
  | _ =>
      let avg_spread :=
        sumQ (spread_history self)
        / inject_Z (Z.of_nat (length (spread_history self))) in
      let self :=
        if Qltb 1.0 (now - _last_spread_update self) then
          let h := spread_history self ++ [current_spread] in
          let h := if Nat.ltb 50 (length h) then tl h else h in
          set_spread self h now
        else self in
      if Qltb (avg_spread * max_spread_multiplier self) current_spread
      then (self, false)
      else (self, true)
  end.

(** [_get_hedge_state]: the entry is created on first reference. *)
Definition _get_hedge_state (self : t) (symbol : string) : t * HedgeState :=
  match _hedge_states self !! symbol with
  | Some st => (self, st)
  | None =>
      (set_hedge_states self (<[symbol := HedgeState_default]> (_hedge_states self)),
       HedgeState_default)
  end.

(** [reset_symbol_state] *)
Definition reset_symbol_state (self : t) (symbol : string) : t :=
  match _hedge_states self !! symbol with
  | Some _ => set_hedge_states self (delete symbol (_hedge_states self))
  | None => self
  end.

(** [_calculate_adaptive_factors]: cooldown and zone multiplier. *)
Definition _calculate_adaptive_factors (c : AdaptiveRisk) (atr_val : Q) : Q * Q :=
  if Qle_bool atr_val 0 then (COOLDOWN_BASE c, 1)
  else
    let baseline := 2.0 in
    let vol_ratio := atr_val / baseline in
    let cooldown :=
      if Qltb vol_ratio (VOL_LOW c) then COOLDOWN_MIN c
      else if Qltb (VOL_EXTREME c) vol_ratio then COOLDOWN_MAX c
      else if Qltb (VOL_HIGH c) vol_ratio then 15.0
      else COOLDOWN_BASE c in
    let zone_mult := if Qltb 1.0 vol_ratio then pymax 1.0 vol_ratio else 1.0 in
    (cooldown, zone_mult).

(** [sorted(positions, key=lambda p: p['time'])]: ascending, stable. *)
Fixpoint insert_by_time (p : Position) (l : list Position) : list Position :=
  match l with
  | [] => [p]
  | q :: l' =>
      if Qle_bool (time p) (time q) then p :: l else q :: insert_by_time p l'
  end.

Definition sorted_by_time (positions : list Position) : list Position :=
  fold_right insert_by_time [] positions.

(** ["XAU" in symbol or "GOLD" in symbol] *)
Definition is_metal (symbol : string) : bool :=
  contains "XAU" symbol || contains "GOLD" symbol.

(** [float(atr_val) if atr_val else 0.0] *)
Definition atr_or_zero (atr_val : option Q) : Q := default 0 atr_val.

Inductive action : Type := BUY | SELL.

(** The keyword arguments of [broker.execute_order] that vary; [o_zone]
    is the number printed in the [HDG_Z...] comment. *)
Record OrderRequest : Type := mkOrderRequest {
  o_symbol : string;
  o_order_type : action;
  o_price : Q;
  o_volume : Q;
  o_strict_entry : bool;
  o_zone : Z
}.

(** The sizing collaborator's answer. *)
Record HedgeDecision : Type := mkHedgeDecision {
  should_hedge : bool;
  hedge_size : Q
}.

(** The two entries of [pressure_metrics] that are read
    ([chemistry.vpin], [physics.reynolds_number]; 0 when absent). *)
Record PressureMetrics : Type := mkPressureMetrics {
  vpin : Q;
  reynolds_number : Q
}.

(** An entry of [position_manager.active_learning_trades].  The stored
    plan maps a hedge level [n] to the value under the key
    [hedge{n}_trigger_price]; [current_hedge_level] is 0 when absent. *)
Record TradeMetadata : Type := mkTradeMetadata {
  hedge_plan : gmap Z Q;
  entry_atr : option Q;
  current_hedge_level : Z
}.

Definition empty_metadata : TradeMetadata :=
  {| hedge_plan := ∅; entry_atr := None; current_hedge_level := 0 |}.

(** The bucket's hedge-level counter, as the code reads it. *)
Definition hedge_level_of (trades : gmap Z TradeMetadata) (first_ticket : Z) : Z :=
  current_hedge_level (default empty_metadata (trades !! first_ticket)).

(** A bucket id [f"{symbol}_{ticket}"], kept as the pair it is built
    from. *)
Definition BucketId : Type := string * Z.

(** Everything one invocation obtains from outside: clock readings in
    program order, environment variables, and the collaborators'
    answers. *)
Record Env : Type := mkEnv {
  consts : AdaptiveRisk;
  math_log : Q -> Q;
  t_entry : Q;
  t_mark : Q;
  t_fresh : Q;
  t_spread : Q;
  t_default : Q;
  t_cooldown : Q;
  t_hedge : Q;
  enable_freshness : bool;
  fresh_tick_max_age : outcome Q;
  is_trade_allowed : outcome bool;
  get_positions : outcome (option (list Position));
  get_tick_time : outcome (option Q);
  get_account_info : outcome (option (Q * Q));
  execute_order : OrderRequest -> outcome (option Z);
  can_hedge_bucket : BucketId -> outcome bool;
  record_hedge : BucketId -> action -> Q -> Q -> outcome unit;
  analyze_hedge_decision : list Position -> Q -> Q -> outcome HedgeDecision;
  add_position_to_bucket : BucketId -> Z -> outcome unit
}.

(** Why [validate_hedge_conditions] said no. *)
Inductive reason : Type :=
  | NoPositions
  | SpreadUnhealthy
  | MaxHedges
  | GlobalFetchFailed
  | GlobalCap
  | TooYoung
  | TooClose
  | CooldownActive.

Inductive verdict : Type :=
  | Accept
  | Reject (why : reason).

(** [validate_hedge_conditions] *)
Definition validate_hedge_conditions (env : Env) (self : t) (symbol : string)
    (positions : list Position) (tick : Tick) (point : Q)
    (atr_val : option Q) (max_hedges_override : option Z) : t * outcome verdict :=
  match positions with
  | [] => (self, Ret (Reject NoPositions))
  | p0 :: _ =>
      let '(self, state) := _get_hedge_state self symbol in
      let current_spread := spread tick in
      let '(self, healthy) :=
        if Qltb 0 current_spread
        then is_spread_healthy self current_spread (t_spread env)
        else (self, true) in
      if negb healthy then (self, Ret (Reject SpreadUnhealthy))
      else
        let limit := default (max_hedges (config self)) max_hedges_override in
        if Z.leb limit (Z.of_nat (length positions))
        then (self, Ret (Reject MaxHedges))
        else
          match get_positions env with
          | Raise => (self, Raise)
          | Ret None => (self, Ret (Reject GlobalFetchFailed))
          | Ret (Some all_positions) =>
              let total_positions := Z.of_nat (length all_positions) in
              if Z.leb (_global_position_cap self) total_positions
              then (self, Ret (Reject GlobalCap))
              else
                match get_tick_time env with
                | Raise => (self, Raise)
                | Ret server_time =>
                    let current_server_time := default (t_default env) server_time in
                    let last_pos := List.last (sorted_by_time positions) p0 in
                    let age_since_last := current_server_time - time last_pos in
                    if Qltb age_since_last (min_age_seconds (config self))
                    then (self, Ret (Reject TooYoung))
                    else
                      let last_price := price_open last_pos in
                      let last_type := type last_pos in
                      let current_price :=
                        if Z.eqb last_type 0 then bid tick else ask tick in
                      let dist := Qabs (current_price - last_price) in
                      let atr_price :=
                        match atr_val with
                        | Some a => if Qltb 0 a then a else 2.0
                        | None => 2.0
                        end in
                      let dynamic_min_dist := atr_price * 0.25 in
                      let min_floor := if is_metal symbol then 2.0 else 0.0020 in
                      let final_min_dist := pymax min_floor dynamic_min_dist in
                      if Qltb dist final_min_dist
                      then (self, Ret (Reject TooClose))
                      else
                        let dynamic_cooldown :=
                          fst (_calculate_adaptive_factors (consts env)
                                 (atr_or_zero atr_val)) in
                        let time_since_hedge :=
                          t_cooldown env - last_hedge_time state in
                        if Qltb time_since_hedge dynamic_cooldown
                        then (self, Ret (Reject CooldownActive))
                        else (self, Ret Accept)
                end
          end
  end.

(** [calculate_zone_parameters]; multiplying a missing [atr_val] raises
    [TypeError]. *)
Definition calculate_zone_parameters (c : AdaptiveRisk) (positions : list Position)
    (point : Q) (atr_val : option Q) : outcome (Q * Q) :=
  let symbol := match positions with p :: _ => symbol p | [] => ""%string end in
  let pip_multiplier : Q :=
    if contains "XAU" symbol || contains "GOLD" symbol || contains "JPY" symbol
    then 100 else 10000 in
  let num_positions := length positions in
  let zone_pips : Q :=
    if Nat.eqb num_positions 2 then 30.0
    else if Nat.leb 3 num_positions then 50.0
    else 20.0 in
  let zone_mult := snd (_calculate_adaptive_factors c (atr_or_zero atr_val)) in
  let effective_zone := pymin (zone_pips * zone_mult) (ZONE_MAX c) in
  let zone_pips := if Qltb 1.1 zone_mult then effective_zone else zone_pips in
  match atr_val with
  | None => Raise
  | Some atr =>
      let atr_pips := atr * pip_multiplier in
      let zone_pips :=
        if Qltb 50.0 atr_pips then pymax zone_pips (atr_pips * 0.8) else zone_pips in
      let slippage_pad_pips := if Qltb 20.0 atr_pips then atr_pips * 0.10 else 0.0 in
      let tp_pips := zone_pips + slippage_pad_pips in
      Ret (zone_pips * point, tp_pips * point)
  end.

(** The freshness gate of [execute_zone_recovery]: the manager after
    the offset bookkeeping, and whether the tick is too old.  A tick age
    of [None] is [float('inf')]. *)
Definition freshness_gate (env : Env) (self : t) (tick : Tick) : t * outcome bool :=
  if enable_freshness env then
    let now := t_fresh env in
    let tick_ts := tick_time tick in
    let should_recalc :=
      match _time_offset self with
      | None => true
      | Some _ => Qltb 3600 (now - _last_offset_calc self)
      end in
    let self :=
      if should_recalc && Qltb 0 tick_ts then
        let raw_diff := now - tick_ts in
        set_offset self (Some (if Qltb 600 (Qabs raw_diff) then raw_diff else 0.0)) now
      else self in
    let offset := default 0.0 (_time_offset self) in
    let tick_age :=
      if Qltb 0 tick_ts then Some (Qabs (now - (tick_ts + offset)))
      else tick_age_s tick in
    match fresh_tick_max_age env with
    | Raise => (self, Raise)
    | Ret max_tick_age =>
        (self,
         Ret (Qltb 0 max_tick_age
              && match tick_age with
                 | Some age => Qltb max_tick_age age
                 | None => true
                 end))
    end
  else (self, Ret false).

(** What one invocation of [execute_zone_recovery] leaves behind: the
    returned value (or a propagated exception), the manager, the
    position manager's [active_learning_trades], and the orders sent
    to the broker with their results. *)
Record Run : Type := mkRun {
  ret : outcome bool;
  rm : t;
  trades : gmap Z TradeMetadata;
  orders : list (OrderRequest * outcome (option Z))
}.

(** The pressure veto: [None] when VPIN exceeds 0.6, otherwise the zone
    width, widened by a quarter when the Reynolds proxy exceeds 2000. *)
Definition pressure_veto (pressure_metrics : option PressureMetrics)
    (zone_width_points : Q) : option Q :=
  match pressure_metrics with
  | None => Some zone_width_points
  | Some pm =>
      if Qltb 0.6 (vpin pm) then None
      else if Qltb 2000 (reynolds_number pm) then Some (zone_width_points * 1.25)
      else Some zone_width_points
  end.

(** The volatility-regime update under [state.lock]; returns the scale
    factor read back from the state. *)
Definition update_volatility_scale (env : Env) (self : t) (symbol : string)
    (volatility_ratio : Q) : t * Q :=
  let state := default HedgeState_default (_hedge_states self !! symbol) in
  let state' :=
    if Qle_bool 2.5 volatility_ratio then
      let log_scale := 1.0 + math_log env (pymax volatility_ratio 2.0 / 2.0) * 0.5 in
      {| last_hedge_time := last_hedge_time state;
         active_hedges := active_hedges state;
         total_positions := total_positions state;
         zone_width_points := zone_width_points state;
         tp_width_points := tp_width_points state;
         high_vol_mode := true;
         volatility_scale := pymax 1.0 (pymin log_scale 1.25);
         last_volatility_scale_update := last_volatility_scale_update state |}
    else if Qle_bool volatility_ratio 2.0 then
      {| last_hedge_time := last_hedge_time state;
         active_hedges := active_hedges state;
         total_positions := total_positions state;
         zone_width_points := zone_width_points state;
         tp_width_points := tp_width_points state;
         high_vol_mode := false;
         volatility_scale := 1.0;
         last_volatility_scale_update := last_volatility_scale_update state |}
    else state in
  (set_hedge_states self (<[symbol := state']> (_hedge_states self)),
   volatility_scale state').

(** Zone boundaries [(lower_level, upper_level)], with the stored
    trigger price of the current hedge level overriding one of them. *)
Definition zone_levels (first_pos : Position) (zone_width_points : Q)
    (hedge_level : Z) (stored : option Q) : Q * Q :=
  let '(lower_level, upper_level) :=
    if Z.eqb (type first_pos) 0
    then (price_open first_pos - zone_width_points, price_open first_pos)
    else (price_open first_pos, price_open first_pos + zone_width_points) in
  match stored with
  | Some stored_trigger_price =>
      if Qltb 0 stored_trigger_price then
        if Z.eqb (type first_pos) 0 then
          if negb (Z.eqb (hedge_level mod 2) 0)
          then (stored_trigger_price, upper_level)
          else (lower_level, stored_trigger_price)
        else
          if negb (Z.eqb (hedge_level mod 2) 0)
          then (lower_level, stored_trigger_price)
          else (stored_trigger_price, upper_level)
      else (lower_level, upper_level)
  | None => (lower_level, upper_level)
  end.

(** The trigger: the next action and its target price, if any. *)
Definition trigger (first_pos : Position) (num_positions : nat) (tick : Tick)
    (lower_level upper_level epsilon : Q) : option (action * Q) :=
  if Qle_bool (bid tick) (lower_level + epsilon) then
    if Z.eqb (type first_pos) 0
       || (Z.eqb (type first_pos) 1 && Nat.even num_positions)
    then Some (SELL, bid tick) else None
  else if Qle_bool (upper_level - epsilon) (ask tick) then
    if Z.eqb (type first_pos) 1
       || (Z.eqb (type first_pos) 0 && Nat.even num_positions)
    then Some (BUY, ask tick) else None
  else None.

(** The position type a new hedge of the given action has. *)
Definition hedge_type (a : action) : Z :=
  match a with BUY => 0%Z | SELL => 1%Z end.

(** Elastic defence: wait when buying oversold or selling overbought. *)
Definition elastic_wait (next_action : action) (rsi_value : option Q) : bool :=
  match next_action, rsi_value with
  | BUY, Some rsi => Qltb rsi 30
  | SELL, Some rsi => Qltb 70 rsi
  | _, None => false
  end.

(** The drawdown fraction handed to the sizing collaborator; failures
    of the account query are swallowed. *)
Definition drawdown_pct (env : Env) : Q :=
  match get_account_info env with
  | Ret (Some (balance, equity)) =>
      if Qeq_bool balance 0 then 0.0
      else pymax 0.0 ((balance - equity) / balance)
  | _ => 0.0
  end.

(** The state writes after a confirmed order: [last_hedge_time] and
    [active_hedges] of the symbol's state. *)
Definition commit_hedge (self : t) (symbol : string) (now : Q) : t :=
  let state := default HedgeState_default (_hedge_states self !! symbol) in
  set_hedge_states self
    (<[symbol :=
         {| last_hedge_time := now;
            active_hedges := active_hedges state + 1;
            total_positions := total_positions state;
            zone_width_points := zone_width_points state;
            tp_width_points := tp_width_points state;
            high_vol_mode := high_vol_mode state;
            volatility_scale := volatility_scale state;
            last_volatility_scale_update := last_volatility_scale_update state |}]>
       (_hedge_states self)).

Definition advance_level (tm : TradeMetadata) (new_hedge_level : Z) : TradeMetadata :=
  {| hedge_plan := hedge_plan tm; entry_atr := entry_atr tm;
     current_hedge_level := new_hedge_level |}.

(** The hedge level the evaluation works with: the saved one, or, when
    that is 0, the number of positions minus one. *)
Definition resolve_hedge_level (tm : TradeMetadata) (num_positions : nat) : Z :=
  let saved_hedge_level := current_hedge_level tm in
  if Z.eqb saved_hedge_level 0
  then Z.max 0 (Z.of_nat num_positions - 1)
  else saved_hedge_level.

(** The order submission and what follows it (lines 470-487); a [ret]
    of [Raise] is an exception on its way to the handler. *)
Definition submit_order (env : Env) (self : t) (trades : gmap Z TradeMetadata)
    (symbol : string) (bucket : BucketId) (first_ticket : Z)
    (trade_metadata : TradeMetadata) (hedge_level : Z)
    (next_action : action) (target_price hedge_lot : Q)
    (strict_entry : bool) (zone_width_points point : Q) : Run :=
  if Qeq_bool point 0 then
    {| ret := Raise; rm := self; trades := trades; orders := [] |}
  else
    let request :=
      {| o_symbol := symbol; o_order_type := next_action; o_price := target_price;
         o_volume := hedge_lot; o_strict_entry := strict_entry;
         o_zone := Qtrunc (zone_width_points / point) |} in
    let result := execute_order env request in
    let sent := [(request, result)] in
    match result with
    | Raise => {| ret := Raise; rm := self; trades := trades; orders := sent |}
    | Ret (Some new_ticket) =>
        if Z.eqb new_ticket 0 then
          {| ret := Ret false; rm := pop_pending self symbol;
             trades := trades; orders := sent |}
        else
          match record_hedge env bucket next_action hedge_lot target_price with
          | Raise => {| ret := Raise; rm := self; trades := trades; orders := sent |}
          | Ret _ =>
              let new_hedge_level := (hedge_level + 1)%Z in
              let trades :=
                <[first_ticket := advance_level trade_metadata new_hedge_level]> trades in
              let self := commit_hedge self symbol (t_hedge env) in
              match add_position_to_bucket env bucket new_ticket with
              | Raise => {| ret := Raise; rm := self; trades := trades; orders := sent |}
              | Ret _ => {| ret := Ret true; rm := self; trades := trades; orders := sent |}
              end
          end
    | Ret None =>
        {| ret := Ret false; rm := pop_pending self symbol;
           trades := trades; orders := sent |}
    end.

(** The body of the [try] block of [execute_zone_recovery] (lines
    346-487); a [ret] of [Raise] is an exception on its way to the
    handler. *)
Definition zone_recovery_body (env : Env) (self : t) (trades : gmap Z TradeMetadata)
    (symbol : string) (positions : list Position) (first_pos : Position)
    (tick : Tick) (point : Q) (strict_entry : bool) (atr_val : option Q)
    (volatility_ratio : Q) (rsi_value : option Q)
    (pressure_metrics : option PressureMetrics) : Run :=
  let self := fst (_get_hedge_state self symbol) in
  let rejected (self : t) (b : bool) : Run :=
    {| ret := Ret b; rm := pop_pending self symbol; trades := trades; orders := [] |} in
  let raised (self : t) : Run :=
    {| ret := Raise; rm := self; trades := trades; orders := [] |} in
  let sorted_pos := sorted_by_time positions in
  let last_pos := List.last sorted_pos first_pos in
  let first_ticket := ticket first_pos in
  let trade_metadata := default empty_metadata (trades !! first_ticket) in
  let has_atr :=
    match atr_val, entry_atr trade_metadata with
    | Some a, Some e => Qltb 0 a || Qltb 0 e
    | Some a, None => Qltb 0 a
    | None, Some e => Qltb 0 e
    | None, None => false
    end in
  if negb has_atr then rejected self false
  else
    let hedge_level := resolve_hedge_level trade_metadata (length positions) in
    let stored := hedge_plan trade_metadata !! hedge_level in
    match calculate_zone_parameters (consts env) positions point atr_val with
    | Raise => raised self
    | Ret (zone_width_points, _) =>
        match pressure_veto pressure_metrics zone_width_points with
        | None => rejected self false
        | Some zone_width_points =>
            let '(self, scale_factor) :=
              update_volatility_scale env self symbol volatility_ratio in
            let zone_width_points :=
              if Qltb 1.0 scale_factor then zone_width_points * scale_factor
              else zone_width_points in
            let '(lower_level, upper_level) :=
              zone_levels first_pos zone_width_points hedge_level stored in
            let epsilon := point * 0.1 in
            match trigger first_pos (length positions) tick
                    lower_level upper_level epsilon with
            | None => rejected self false
            | Some (next_action, target_price) =>
                if elastic_wait next_action rsi_value then rejected self false
                else if Z.eqb (type last_pos) (hedge_type next_action)
                then rejected self false
                else
                  match analyze_hedge_decision env positions target_price
                          (drawdown_pct env) with
                  | Raise => raised self
                  | Ret hedge_decision =>
                      if negb (should_hedge hedge_decision) then rejected self false
                      else
                        let total_required_hedge := hedge_size hedge_decision in
                        let current_friendly_volume :=
                          sumQ (map volume
                                  (List.filter
                                     (fun p => Z.eqb (type p) (hedge_type next_action))
                                     positions)) in
                        let hedge_lot := total_required_hedge - current_friendly_volume in
                        if Qltb hedge_lot 0.01 then rejected self true
                        else
                          submit_order env self trades symbol
                            (symbol, first_ticket) first_ticket trade_metadata
                            hedge_level next_action target_price hedge_lot
                            strict_entry zone_width_points point
                  end
            end
        end
    end.

(** [execute_zone_recovery], on positions already normalised. *)
Definition execute_zone_recovery (env : Env) (self : t)
    (trades : gmap Z TradeMetadata) (symbol : string)
    (positions : list Position) (tick : Tick) (point : Q) (strict_entry : bool)
    (atr_val : option Q) (volatility_ratio : Q) (rsi_value : option Q)
    (pressure_metrics : option PressureMetrics)
    (max_hedges_override : option Z) : Run :=
  let finish (self : t) (r : outcome bool) : Run :=
    {| ret := r; rm := self; trades := trades; orders := [] |} in
  let last_pending := default 0 (_pending_hedges self !! symbol) in
  if Qltb (t_entry env - last_pending) 10.0 then finish self (Ret false)
  else
    let self := set_pending self (<[symbol := t_mark env]> (_pending_hedges self)) in
    let strict_missing :=
      match rsi_value, atr_val with
      | Some _, Some a => Qle_bool a 0
      | _, _ => true
      end in
    if strict_entry && strict_missing then finish (pop_pending self symbol) (Ret false)
    else
      match freshness_gate env self tick with
      | (self, Raise) => finish self Raise
      | (self, Ret true) => finish (pop_pending self symbol) (Ret false)
      | (self, Ret false) =>
          match is_trade_allowed env with
          | Raise | Ret false => finish (pop_pending self symbol) (Ret false)
          | Ret true =>
              match sorted_by_time positions with
              | [] => finish self Raise
              | first_pos :: _ =>
                  match can_hedge_bucket env (symbol, ticket first_pos) with
                  | Raise => finish self Raise
                  | Ret false => finish (pop_pending self symbol) (Ret false)
                  | Ret true =>
                      match validate_hedge_conditions env self symbol positions
                              tick point atr_val max_hedges_override with
                      | (self, Raise) => finish self Raise
                      | (self, Ret (Reject _)) =>
                          finish (pop_pending self symbol) (Ret false)
                      | (self, Ret Accept) =>
                          let r :=
                            zone_recovery_body env self trades symbol positions
                              first_pos tick point strict_entry atr_val
                              volatility_ratio rsi_value pressure_metrics in
                          match ret r with
                          | Raise =>
                              {| ret := Ret false;
                                 rm := pop_pending (rm r) symbol;
                                 trades := RiskManager.trades r;
                                 orders := orders r |}
                          | Ret _ => r
                          end
                      end
                  end
              end
          end
      end.

(** The order, if any, was answered with a ticket. *)
Definition order_confirmed (r : Run) : Prop :=
  exists request new_ticket,
    orders r = [(request, Ret (Some new_ticket))] /\ new_ticket <> 0%Z.

(** The trade metadata after the hedge level of the bucket anchored at
    [first_pos] has been advanced by one. *)
Definition advanced_trades (trades0 : gmap Z TradeMetadata)
    (positions : list Position) (first_pos : Position) : gmap Z TradeMetadata :=
  let tm := default empty_metadata (trades0 !! ticket first_pos) in
  <[ticket first_pos :=
      advance_level tm (resolve_hedge_level tm (length positions) + 1)]> trades0.

(** What a run of the [try] body guarantees, given the pending map
    [pend] and the trades [trades0] it started with; [adv] is the
    metadata with the hedge level advanced. *)
Definition body_post (pend : gmap string Q) (trades0 adv : gmap Z TradeMetadata)
    (symbol : string) (r : Run) : Prop :=
  match ret r with
  | Raise =>
      _pending_hedges (rm r) = pend
      /\ (trades r = trades0 \/ (order_confirmed r /\ trades r = adv))
  | Ret true =>
      (_pending_hedges (rm r) = delete symbol pend
       /\ trades r = trades0 /\ orders r = [])
      \/ (_pending_hedges (rm r) = pend /\ order_confirmed r /\ trades r = adv)
  | Ret false =>
      _pending_hedges (rm r) = delete symbol pend
      /\ trades r = trades0 /\ ~ order_confirmed r
  end.

(** What a run of [execute_zone_recovery] that got past the debounce
    check guarantees. *)
Definition exec_post (env : Env) (self : t) (trades0 : gmap Z TradeMetadata)
    (symbol : string) (positions : list Position) (r : Run) : Prop :=
  let pend := <[symbol := t_mark env]> (_pending_hedges self) in
  let advanced :=
    order_confirmed r
    /\ exists first_pos others,
         sorted_by_time positions = first_pos :: others
         /\ trades r = advanced_trades trades0 positions first_pos in
  match ret r with
  | Raise =>
      _pending_hedges (rm r) = pend /\ trades r = trades0 /\ orders r = []
  | Ret true =>
      (_pending_hedges (rm r) = delete symbol pend
       /\ trades r = trades0 /\ orders r = [])
      \/ (_pending_hedges (rm r) = pend /\ advanced)
  | Ret false =>
      _pending_hedges (rm r) = delete symbol pend
      /\ (trades r = trades0 \/ advanced)
  end.

End RiskManager.

(** ** src/core/bad_bank.py: queries and measures *)

Module BadBankView.

(** [is_toxic]: the ticket belongs to a position of some bucket. *)
Definition is_toxic (self : BadBank.t) (tk : Z) : bool :=
  existsb (fun kv => existsb (fun p => Z.eqb (ticket p) tk)
                       (BadBank.positions (snd kv)))
    (BadBank.toxic_assets self).

(** The dict returned by [get_stats]. *)
Record Stats : Type := mkStats {
  assets_count : nat;
  tithe_pool : Q;
  total_collected : Q;
  total_debt_repaid : Q
}.

(** [get_stats] *)
Definition get_stats (self : BadBank.t) : Stats :=
  {| assets_count := length (BadBank.toxic_assets self);
     tithe_pool := BadBank.tithe_balance self;
     total_collected := BadBank.total_tithe_collected self;
     total_debt_repaid := BadBank.total_debt_repaid self |}.

(** The volume the ledger tracks: the sum of [p.volume] over every
    position of every bucket. *)
Definition bucket_volume (a : BadBank.ToxicAsset) : Q :=
  sumQ (map volume (BadBank.positions a)).

Definition assets_volume (assets : list (string * BadBank.ToxicAsset)) : Q :=
  sumQ (map (fun kv => bucket_volume (snd kv)) assets).

Definition tracked_volume (self : BadBank.t) : Q :=
  assets_volume (BadBank.toxic_assets self).

(** The books of a ledger balance: what is in the pool plus what was
    spent on debt is what was collected. *)
Definition books_balance (self : BadBank.t) : Prop :=
  BadBank.tithe_balance self + BadBank.total_debt_repaid self
  == BadBank.total_tithe_collected self
  /\ 0 <= BadBank.tithe_balance self /\ 0 <= BadBank.total_debt_repaid self.

(** No position of the ledger reaches the minimum increment. *)
Definition nothing_to_nibble (self : BadBank.t) : Prop :=
  Forall (fun kv => Forall (fun p => volume p < 0.01) (BadBank.positions (snd kv)))
    (BadBank.toxic_assets self).

(** The bucket ids of the ledger. *)
Definition bucket_ids (self : BadBank.t) : list string :=
  map fst (BadBank.toxic_assets self).

End BadBankView.

(** ** src/ai_core/tick_pressure.py: the tick window *)

Module TickWindow.

(** The attributes of [TickPressureAnalyzer] that the window methods
    use: [ticks] holds [(price, time)] pairs, oldest first. *)
Record t : Type := mkWindow {
  window_seconds : Q;
  ticks : list (Q * Q)
}.

(** [TickPressureAnalyzer.__init__] *)
Definition init (window_seconds : Q) : t :=
  {| window_seconds := window_seconds; ticks := [] |}.

(** [_cleanup]: pop from the left while the oldest sample is older
    than the window. *)
Fixpoint _cleanup (window_seconds current_time : Q) (ticks : list (Q * Q))
    : list (Q * Q) :=
  match ticks with
  | [] => []
  | (price, t0) :: rest =>
      if Qltb window_seconds (current_time - t0)
      then _cleanup window_seconds current_time rest
      else ticks
  end.

(** [add_tick]; [current_time] is the reading of [time.time()], [None]
    a falsy tick.  Comparing a non-numeric bid with 0 raises. *)
Definition add_tick (self : t) (tick : option TickPressure.TickDict)
    (current_time : Q) : outcome t :=
  match tick with
  | None => Ret self
  | Some tick =>
      match default (TickPressure.Num 0.0) (TickPressure.k_bid tick) with
      | TickPressure.NotNum => Raise
      | TickPressure.Num price =>
          if Qltb 0 price then
            Ret {| window_seconds := window_seconds self;
                   ticks := _cleanup (window_seconds self) current_time
                              (ticks self ++ [(price, current_time)]) |}
          else Ret self
      end
  end.

Inductive state : Type :=
  | NEUTRAL
  | INSTITUTIONAL_BUY
  | STRONG_BUY
  | INSTITUTIONAL_SELL
  | STRONG_SELL
  | ABSORPTION_FIGHT
  | LOW_LIQUIDITY
  | INSUFFICIENT_DATA.

Inductive intensity : Type := I_LOW | I_NORMAL | I_MEDIUM | I_HIGH.

Inductive dominance : Type := D_NEUTRAL | D_BUY | D_SELL.

(** The dict returned by [get_pressure_metrics]. *)
Record Metrics : Type := mkMetrics {
  pressure_score : Q;
  m_intensity : intensity;
  m_dominance : dominance;
  m_state : state;
  velocity : Q
}.

(** [self.ticks[0]] and [self.ticks[-1]] of a non-empty window. *)
Definition first_tick (self : t) : Q * Q := hd (0, 0) (ticks self).
Definition last_tick (self : t) : Q * Q := List.last (ticks self) (0, 0).

(** [get_pressure_metrics]; dividing by a zero [point_value] raises. *)
Definition get_pressure_metrics (self : t) (point_value : Q) : outcome Metrics :=
  if Nat.ltb (length (ticks self)) 5 then
    Ret {| pressure_score := 0.0; m_intensity := I_LOW; m_dominance := D_NEUTRAL;
           m_state := INSUFFICIENT_DATA; velocity := 0.0 |}
  else
    let start_price := fst (first_tick self) in
    let end_price := fst (last_tick self) in
    let price_change := end_price - start_price in
    let tick_count := inject_Z (Z.of_nat (length (ticks self))) in
    let duration := snd (last_tick self) - snd (first_tick self) in
    let duration := if Qle_bool duration 0 then 0.001 else duration in
    let velocity := tick_count / duration in
    if Qeq_bool point_value 0 then Raise
    else
      let price_delta_points := price_change / point_value in
      let pressure := price_delta_points * velocity in
      let '(st, it, dom) :=
        if Qltb 50.0 pressure then (INSTITUTIONAL_BUY, I_HIGH, D_BUY)
        else if Qltb 15.0 pressure then (STRONG_BUY, I_MEDIUM, D_BUY)
        else if Qltb pressure (-50.0) then (INSTITUTIONAL_SELL, I_HIGH, D_SELL)
        else if Qltb pressure (-15.0) then (STRONG_SELL, I_MEDIUM, D_SELL)
        else if Qltb 10.0 velocity && Qltb (Qabs price_delta_points) 2.0
        then (ABSORPTION_FIGHT, I_HIGH, D_NEUTRAL)
        else if Qltb velocity 1.0 then (LOW_LIQUIDITY, I_LOW, D_NEUTRAL)
        else (NEUTRAL, I_NORMAL, D_NEUTRAL) in
      Ret {| pressure_score := pressure; m_intensity := it; m_dominance := dom;
             m_state := st; velocity := velocity |}.

(** [calculate_reaction_rate] *)
Definition calculate_reaction_rate (self : t) : Q :=
  if Nat.ltb (length (ticks self)) 2 then 0.0
  else
    let duration := snd (last_tick self) - snd (first_tick self) in
    if Qle_bool duration 0 then 0.0
    else inject_Z (Z.of_nat (length (ticks self))) / duration.

(** [calculate_navier_stokes_pressure] *)
Definition calculate_navier_stokes_pressure (order_flow_imbalance velocity : Q) : Q :=
  order_flow_imbalance * velocity.

(** Timestamps do not decrease from the oldest sample to the newest. *)
Fixpoint time_ordered (ticks : list (Q * Q)) : Prop :=
  match ticks with
  | a :: (b :: _) as rest => snd a <= snd b /\ time_ordered rest
  | _ => True
  end.

End TickWindow.

(** ** src/ai_core/liquidity_mapper.py: pivots, map and entry veto *)

Module LiquidityMap.

(** A candle dict, as the two keys read ([c.get('high', 0)],
    [c.get('low', 0)]). *)
Record Candle : Type := mkCandle {
  high : Q;
  low : Q
}.

(** [np.max] and [np.min] of a window; every window taken by
    [_find_pivots] is non-empty. *)
Definition np_max (w : list Q) : Q :=
  match w with
  | [] => 0
  | x :: rest => fold_left (fun acc y => if Qltb acc y then y else acc) rest x
  end.

Definition np_min (w : list Q) : Q :=
  match w with
  | [] => 0
  | x :: rest => fold_left (fun acc y => if Qltb y acc then y else acc) rest x
  end.

(** The slice [arr[i - lookback : i + lookback + 1]]. *)
Definition window (arr : list Q) (i lookback : nat) : list Q :=
  firstn (2 * lookback + 1) (skipn (i - lookback) arr).

(** One iteration of the loop of [_find_pivots]. *)
Definition pivot_step (lookback : nat) (h_arr l_arr : list Q)
    (acc : list Q * list Q) (i : nat) : list Q * list Q :=
  let '(highs, lows) := acc in
  let window_h := window h_arr i lookback in
  let window_l := window l_arr i lookback in
  let highs :=
    if Qeq_bool (nth i h_arr 0) (np_max window_h)
    then highs ++ [nth i h_arr 0] else highs in
  let lows :=
    if Qeq_bool (nth i l_arr 0) (np_min window_l)
    then lows ++ [nth i l_arr 0] else lows in
  (highs, lows).

(** [_find_pivots] with [self.pivot_lookback = lookback]. *)
Definition _find_pivots (lookback : nat) (candles : list Candle) : list Q * list Q :=
  if Nat.ltb (length candles) (lookback * 2 + 1) then ([], [])
  else
    let h_arr := map high candles in
    let l_arr := map low candles in
    fold_left (pivot_step lookback h_arr l_arr)
      (seq lookback (length candles - lookback - lookback)) ([], []).

(** The dict returned by [map_liquidity]. *)
Record LiquidityMapping : Type := mkLiquidityMapping {
  supports : list LiquidityMapper.Wall;
  resistances : list LiquidityMapper.Wall
}.

(** [map_liquidity] *)
Definition map_liquidity (lookback : nat) (candles : list Candle)
    (current_price : Q) : LiquidityMapping :=
  match candles with
  | [] => {| supports := []; resistances := [] |}
  | _ =>
      let '(highs, lows) := _find_pivots lookback candles in
      {| supports := LiquidityMapper._cluster_levels lows false;
         resistances := LiquidityMapper._cluster_levels highs true |}
  end.

(** The wall test of [should_avoid_entry]: [0 < dist < threshold] and
    [strength >= 2]. *)
Definition too_close (dist proximity_threshold : Q) (w : LiquidityMapper.Wall) : bool :=
  Qltb 0 dist && Qltb dist proximity_threshold
  && Nat.leb 2 (LiquidityMapper.strength w).

(** [should_avoid_entry]: the decision and, when blocked, the wall
    named in the reason. *)
Definition should_avoid_entry (current_price : Q) (action : string)
    (liquidity_map : LiquidityMapping) : bool * option LiquidityMapper.Wall :=
  let proximity_threshold := current_price * 0.0003 in
  let blocking :=
    if String.eqb action "BUY" then
      List.find (fun w => too_close (LiquidityMapper.price w - current_price)
                            proximity_threshold w)
        (resistances liquidity_map)
    else if String.eqb action "SELL" then
      List.find (fun w => too_close (current_price - LiquidityMapper.price w)
                            proximity_threshold w)
        (supports liquidity_map)
    else None in
  match blocking with
  | Some w => (true, Some w)
  | None => (false, None)
  end.

End LiquidityMap.

(** ** src/risk_manager.py: retry utility and status queries *)

Module RiskTools.

(** What one [retry_with_backoff] call did: its result (or an exception
    let through), the number of times [operation] was called and the
    delays slept, in order. *)
Record RetryRun (R : Type) : Type := mkRetryRun {
  outcome_of : outcome (bool * option R);
  calls : nat;
  sleeps : list Q
}.
Arguments mkRetryRun {R} _ _ _.
Arguments outcome_of {R} _.
Arguments calls {R} _.
Arguments sleeps {R} _.

Section Retry.
Variable R : Type.
(** [result.get('retcode', 0)] of a truthy dict result; [None] for any
    other result. *)
Variable retcode_of : R -> option Z.
(** What the [attempt]-th call of [operation] yields, and the clock
    reading at the top of the [attempt]-th iteration. *)
Variable operation : nat -> outcome (bool * option R).
Variable clock : nat -> Q.
Variables (max_attempts : nat) (initial_delay backoff_multiplier max_total_time : Q).
Variable start_time : Q.

(** The [for attempt in range(1, max_attempts + 1)] loop; [remaining]
    counts the iterations left, [attempt] is the current one.
    [time.sleep] raises on a negative delay, in the [try] block (where
    the handler then sleeps again, and raises) as in the handler. *)
Fixpoint retry_loop (remaining attempt : nat) (delay : Q) (called : nat)
    (slept : list Q) : RetryRun R :=
  match remaining with
  | O => mkRetryRun (Ret (false, None)) called slept
  | S remaining' =>
      if Qltb max_total_time (clock attempt - start_time)
      then mkRetryRun (Ret (false, None)) called slept
      else
        let called := S called in
        let is_last := Nat.leb max_attempts attempt in
        let backoff :=
          if Qltb delay 0 then mkRetryRun Raise called slept
          else retry_loop remaining' (S attempt) (delay * backoff_multiplier)
                 called (slept ++ [delay]) in
        match operation attempt with
        | Ret (true, result) => mkRetryRun (Ret (true, result)) called slept
        | Ret (false, result) =>
            match result with
            | Some r =>
                match retcode_of r with
                | Some rc =>
                    if Z.eqb rc 10036
                    then mkRetryRun (Ret (false, result)) called slept
                    else if is_last
                    then mkRetryRun (Ret (false, result)) called slept
                    else backoff
                | None =>
                    if is_last
                    then mkRetryRun (Ret (false, result)) called slept
                    else backoff
                end
            | None =>
                if is_last
                then mkRetryRun (Ret (false, result)) called slept
                else backoff
            end
        | Raise =>
            if is_last
            then mkRetryRun (Ret (false, None)) called slept
            else backoff
        end
  end.

(** [retry_with_backoff] *)
Definition retry_with_backoff : RetryRun R :=
  retry_loop max_attempts 1 initial_delay 0 [].

(** The delay before the retry that follows the [i]-th failure
    (counting from 0). *)
Fixpoint delay_at (i : nat) : Q :=
  match i with
  | O => initial_delay
  | S i' => delay_at i' * backoff_multiplier
  end.

(** A call after which the loop goes on: it raised, or failed without
    return code 10036. *)
Definition retryable (o : outcome (bool * option R)) : Prop :=
  match o with
  | Ret (true, _) => False
  | Ret (false, Some r) => retcode_of r <> Some 10036%Z
  | Ret (false, None) => True
  | Raise => True
  end.

(** What holds of a finished run. *)
Definition retry_post (r : RetryRun R) : Prop :=
  (calls r <= max_attempts)%nat
  /\ (length (sleeps r) <= calls r)%nat
  /\ (length (sleeps r) <= max_attempts - 1)%nat
  /\ sleeps r = map delay_at (seq 0 (length (sleeps r)))
  /\ Forall (fun d => 0 <= d) (sleeps r)
  /\ (forall res, outcome_of r = Ret (true, res) ->
        (1 <= calls r)%nat /\ operation (calls r) = Ret (true, res))
  /\ (forall k, (1 <= k < calls r)%nat -> retryable (operation k))
  /\ (forall k, (1 <= k <= calls r)%nat -> clock k - start_time <= max_total_time)
  /\ (outcome_of r = Raise -> delay_at (length (sleeps r)) < 0)
  /\ (length (sleeps r) = calls r \/ S (length (sleeps r)) = calls r)
  /\ (length (sleeps r) = calls r -> (1 <= max_attempts)%nat ->
      outcome_of r = Ret (false, None)
      /\ max_total_time < clock (S (calls r)) - start_time).

End Retry.

(** [get_emergency_status]: the flag of the returned pair. *)
Definition get_emergency_status (self : RiskManager.t) (total_positions : Z) : bool :=
  Z.leb (RiskManager._global_position_cap self) total_positions.

(** The dict returned by [get_risk_status]. *)
Record RiskStatus : Type := mkRiskStatus {
  rs_symbol : string;
  rs_active_hedges : Z;
  rs_last_hedge_time : Q;
  rs_time_since_last_hedge : Q;
  rs_zone_width_pips : Q;
  rs_tp_width_pips : Q
}.

(** [get_risk_status]; [now] is the reading of [time.time()]. *)
Definition get_risk_status (self : RiskManager.t) (symbol : string) (now : Q)
    : RiskManager.t * RiskStatus :=
  let '(self, state) := RiskManager._get_hedge_state self symbol in
  (self,
   {| rs_symbol := symbol;
      rs_active_hedges := RiskManager.active_hedges state;
      rs_last_hedge_time := RiskManager.last_hedge_time state;
      rs_time_since_last_hedge := now - RiskManager.last_hedge_time state;
      rs_zone_width_pips := RiskManager.zone_width_points state;
      rs_tp_width_pips := RiskManager.tp_width_points state |}).

End RiskTools.

(** ** src/risk_manager.py: views of the manager used to state the frame *)

Module RiskView.
Import RiskManager.

(** The symbol's hedge state as [_get_hedge_state] hands it out: the
    stored entry, or the defaults of a fresh one. *)
Definition hedge_view (self : t) (symbol : string) : HedgeState :=
  default HedgeState_default (_hedge_states self !! symbol).

(** The fields of a hedge state that [get_risk_status] reports. *)
Definition counters (st : HedgeState) : Q * Z * Q * Q :=
  (last_hedge_time st, active_hedges st, zone_width_points st, tp_width_points st).

(** Everything of the manager that does not belong to [symbol] and is
    not bookkeeping of the spread history or the clock offset. *)
Definition frame_of (symbol : string) (self : t)
    : ZoneConfig * Z * Q * gmap string HedgeState * gmap string Q :=
  (config self, _global_position_cap self, max_spread_multiplier self,
   delete symbol (_hedge_states self), delete symbol (_pending_hedges self)).

(** What a run does to the manager: outside the symbol nothing, and to
    the symbol's counters nothing or one committed hedge. *)
Definition counters_post (env : Env) (self : t) (symbol : string) (r : Run) : Prop :=
  let committed :=
    counters (hedge_view (rm r) symbol)
    = (t_hedge env, (active_hedges (hedge_view self symbol) + 1)%Z,
       zone_width_points (hedge_view self symbol),
       tp_width_points (hedge_view self symbol)) in
  frame_of symbol (rm r) = frame_of symbol self
  /\ (counters (hedge_view (rm r) symbol) = counters (hedge_view self symbol)
      \/ (order_confirmed r /\ committed))
  /\ (ret r = Ret true -> orders r <> [] -> committed).



End RiskView.

(** ** src/ai_core/tick_pressure.py: the combined analysis *)

Module CombinedAnalysis.

(** The [tick] argument of [get_combined_analysis]: [None], the empty
    dict, or a dict with at least one key. *)
Inductive tick_arg : Type :=
  | TNone
  | TEmpty
  | TDict (d : TickPressure.TickDict).

(** The tick as [analyze_order_flow] sees it: falsy or not. *)
Definition as_truthy (tick : tick_arg) : option TickPressure.TickDict :=
  match tick with
  | TDict d => Some d
  | TNone | TEmpty => None
  end.

(** [tick.get(key, 0)] for the two keys read; [Raise] on [None]. *)
Definition get_quote (tick : tick_arg)
    : outcome (TickPressure.pyval * TickPressure.pyval) :=
  match tick with
  | TNone => Raise
  | TEmpty => Ret (TickPressure.Num 0, TickPressure.Num 0)
  | TDict d =>
      Ret (default (TickPressure.Num 0) (TickPressure.k_ask d),
           default (TickPressure.Num 0) (TickPressure.k_bid d))
  end.

(** [(ask - bid) if (ask > 0 and bid > 0) else 0.0001]; comparing a
    non-numeric value with 0 raises, and [and] does not look at [bid]
    when [ask] is not positive. *)
Definition spread_of (ask bid : TickPressure.pyval) : outcome Q :=
  match ask with
  | TickPressure.NotNum => Raise
  | TickPressure.Num a =>
      if Qltb 0 a then
        match bid with
        | TickPressure.NotNum => Raise
        | TickPressure.Num b => if Qltb 0 b then Ret (a - b) else Ret 0.0001
        end
      else Ret 0.0001
  end.

Inductive regime : Type := TURBULENT | LAMINAR.

(** The dict returned by [get_combined_analysis]: the pressure and
    order-flow entries, then the [physics] and [chemistry] entries. *)
Record Combined : Type := mkCombined {
  pressure : TickWindow.Metrics;
  order_flow : TickPressure.OrderFlow;
  reynolds_number : Q;
  navier_stokes_force : Q;
  c_regime : regime;
  vpin : Q;
  reaction_rate : Q;
  is_toxic : bool
}.

Section Numpy.
(** [np.std] of the window's prices. *)
Variable np_std : list Q -> Q.

(** [calculate_reynolds_number]; [None] is the non-finite float numpy
    yields when it divides by a zero [point_value]. *)
Definition calculate_reynolds_number (self : TickWindow.t)
    (spread_points point_value : Q) : option Q :=
  if Qle_bool spread_points 0
     || match TickWindow.ticks self with [] => true | _ => false end
  then Some 0.0
  else
    let duration :=
      snd (TickWindow.last_tick self) - snd (TickWindow.first_tick self) in
    let duration := if Qle_bool duration 0 then 0.001 else duration in
    let velocity := inject_Z (Z.of_nat (length (TickWindow.ticks self))) / duration in
    let prices := map fst (TickWindow.ticks self) in
    if Nat.ltb 2 (length prices) then
      if Qeq_bool point_value 0 then None
      else
        let volatility := np_std prices / point_value in
        Some ((velocity * volatility * 100) / spread_points)
    else
      let volatility := 0.0 in
      Some ((velocity * volatility * 100) / spread_points).

(** [get_combined_analysis] on the window [window] and the order-flow
    buffers [self]; only the latter change.  The last [Raise] is not
    reached: [point_value] is non-zero where the Reynolds number is
    computed. *)
Definition get_combined_analysis (window : TickWindow.t) (self : TickPressure.t)
    (tick : tick_arg) (point_value : Q) : TickPressure.t * outcome Combined :=
  match TickWindow.get_pressure_metrics window point_value with
  | Raise => (self, Raise)
  | Ret pressure =>
      let '(self, order_flow) :=
        TickPressure.analyze_order_flow self (as_truthy tick) in
      match get_quote tick with
      | Raise => (self, Raise)
      | Ret (ask, bid) =>
          match spread_of ask bid with
          | Raise => (self, Raise)
          | Ret spread =>
              if Qeq_bool point_value 0 then (self, Raise)
              else
                let spread_points := spread / point_value in
                match calculate_reynolds_number window spread_points point_value with
                | None => (self, Raise)
                | Some re =>
                    let ns_pressure :=
                      TickWindow.calculate_navier_stokes_pressure
                        (TickPressure.order_flow_imbalance order_flow)
                        (TickWindow.velocity pressure) in
                    let vpin := TickPressure.calculate_vpin self in
                    let reaction := TickWindow.calculate_reaction_rate window in
                    (self,
                     Ret {| pressure := pressure;
                            order_flow := order_flow;
                            reynolds_number := re;
                            navier_stokes_force := ns_pressure;
                            c_regime := if Qltb 500 re then TURBULENT else LAMINAR;
                            vpin := vpin;
                            reaction_rate := reaction;
                            is_toxic := Qltb 0.4 vpin |})
                end
          end
      end
  end.

End Numpy.

End CombinedAnalysis.

(** ** Concrete data used by the examples *)

(** The first tick is a trade at the ask (3 lots bought); the second a
    trade at the bid whose volume field is negative. *)
Definition trade_at_ask : TickPressure.TickDict :=
  {| TickPressure.k_last := Some (TickPressure.Num 2);
     TickPressure.k_bid := Some (TickPressure.Num 1);
     TickPressure.k_ask := Some (TickPressure.Num 2);
     TickPressure.k_volume := Some (TickPressure.Num 3) |}.

Definition negative_volume_trade : TickPressure.TickDict :=
  {| TickPressure.k_last := Some (TickPressure.Num 1);
     TickPressure.k_bid := Some (TickPressure.Num 1);
     TickPressure.k_ask := Some (TickPressure.Num 2);
     TickPressure.k_volume := Some (TickPressure.Num (-1)) |}.

(** Ten buys and four, resp. five, sells of one lot each. *)
Definition fourteen_samples : TickPressure.t :=
  {| TickPressure.buy_volume_buffer := repeat 1 10;
     TickPressure.sell_volume_buffer := repeat 1 4;
     TickPressure.rust_engine := None;
     TickPressure._prev_mid := None |}.

Definition fifteen_samples : TickPressure.t :=
  {| TickPressure.buy_volume_buffer := repeat 1 10;
     TickPressure.sell_volume_buffer := repeat 1 5;
     TickPressure.rust_engine := None;
     TickPressure._prev_mid := None |}.


(** A gold bucket with one BUY of 0.10 lots opened at 2000, and a
    quote 3 below the open. *)
Definition gold_long : Position :=
  {| ticket := 7; symbol := "XAUUSD"; type := 0; volume := 0.10;
     price_open := 2000; time := 990 |}.

Definition gold_tick : Tick :=
  {| bid := 1997; ask := 1997.2; spread := 0.2; tick_time := 1000;
     tick_age_s := None |}.

(** Values for the adaptive-risk constants, for the examples only. *)
Definition sample_consts : RiskManager.AdaptiveRisk :=
  {| RiskManager.COOLDOWN_BASE := 15; RiskManager.COOLDOWN_MIN := 5;
     RiskManager.COOLDOWN_MAX := 60; RiskManager.VOL_LOW := 0.5;
     RiskManager.VOL_EXTREME := 3; RiskManager.VOL_HIGH := 1.5;
     RiskManager.ZONE_MAX := 100 |}.

Definition sample_config : RiskManager.ZoneConfig :=
  {| RiskManager.zone_pips := 20; RiskManager.tp_pips := 20;
     RiskManager.max_hedges := 10; RiskManager.min_age_seconds := 3.0;
     RiskManager.hedge_cooldown_seconds := 15.0;
     RiskManager.bucket_close_cooldown_seconds := 15.0;
     RiskManager.emergency_hedge_threshold := 10 |}.

(** An environment at time 1000 in which every collaborator agrees and
    the broker answers the order as [order_answer] says. *)
Definition sample_env (order_answer : outcome (option Z)) : RiskManager.Env :=
  {| RiskManager.consts := sample_consts;
     RiskManager.math_log := fun _ => 0;
     RiskManager.t_entry := 1000; RiskManager.t_mark := 1000;
     RiskManager.t_fresh := 1000; RiskManager.t_spread := 1000;
     RiskManager.t_default := 1000; RiskManager.t_cooldown := 1000;
     RiskManager.t_hedge := 1001;
     RiskManager.enable_freshness := true;
     RiskManager.fresh_tick_max_age := Ret 10.0;
     RiskManager.is_trade_allowed := Ret true;
     RiskManager.get_positions := Ret (Some [gold_long]);
     RiskManager.get_tick_time := Ret (Some 1000);
     RiskManager.get_account_info := Ret (Some (1000, 990));
     RiskManager.execute_order := fun _ => order_answer;
     RiskManager.can_hedge_bucket := fun _ => Ret true;
     RiskManager.record_hedge := fun _ _ _ _ => Ret tt;
     RiskManager.analyze_hedge_decision :=
       fun _ _ _ => Ret {| RiskManager.should_hedge := true;
                           RiskManager.hedge_size := 0.2 |};
     RiskManager.add_position_to_bucket := fun _ _ => Ret tt |}.

(** One evaluation for the gold bucket on a fresh manager: strict entry,
    ATR 2.0, RSI 50, VPIN 0.1. *)
Definition sample_run (order_answer : outcome (option Z)) : RiskManager.Run :=
  RiskManager.execute_zone_recovery (sample_env order_answer)
    (RiskManager.init sample_config) ∅ "XAUUSD" [gold_long] gold_tick 0.01 true
    (Some 2.0) 1.0 (Some 50)
    (Some {| RiskManager.vpin := 0.1; RiskManager.reynolds_number := 0 |}) None.

(** The same evaluation repeated at once on the manager and metadata
    the confirmed run left behind. *)
Definition sample_rerun : RiskManager.Run :=
  let first := sample_run (Ret (Some 8%Z)) in
  RiskManager.execute_zone_recovery (sample_env (Ret (Some 8%Z)))
    (RiskManager.rm first) (RiskManager.trades first) "XAUUSD" [gold_long]
    gold_tick 0.01 true (Some 2.0) 1.0 (Some 50)
    (Some {| RiskManager.vpin := 0.1; RiskManager.reynolds_number := 0 |}) None.

(** A ledger holding the gold bucket and 3 dollars, and brokers that
    accept, resp. refuse, the partial close. *)
Definition sample_ops : list BadBank.op :=
  [BadBank.OpRegister "XAUUSD_7" [gold_long] 1000;
   BadBank.OpDeposit 3 "EURUSD";
   BadBank.OpDeposit (-1) "EURUSD"].

Definition accepting_broker : BadBank.scripted :=
  {| BadBank.quote := Some {| bid := 1999; ask := 1999.2; spread := 0.2;
                              tick_time := 1000; tick_age_s := None |};
     BadBank.answers := [Ret true] |}.

Definition refusing_broker : BadBank.scripted :=
  {| BadBank.quote := BadBank.quote accepting_broker;
     BadBank.answers := [Ret false] |}.

Definition sample_bank : BadBank.t :=
  fst (BadBank.run sample_ops accepting_broker).

(** A ledger whose only position is below the minimum increment. *)
Definition dust_bank : BadBank.t :=
  BadBank.register_toxic_asset BadBank.init "XAUUSD_3"
    [{| ticket := 3; symbol := "XAUUSD"; type := 0; volume := 0.005;
        price_open := 2000; time := 900 |}] 1000.

Definition quote_at (b a : Q) : Tick :=
  {| bid := b; ask := a; spread := a - b; tick_time := 1000; tick_age_s := None |}.

(** A 5-second window holding two samples, and one holding five. *)
Definition short_window : TickWindow.t :=
  {| TickWindow.window_seconds := 5;
     TickWindow.ticks := [(2000, 990); (2001, 996)] |}.

Definition busy_window (span : Q) : TickWindow.t :=
  {| TickWindow.window_seconds := 5;
     TickWindow.ticks :=
       [(2000, 1000); (2000.1, 1000); (2000.2, 1000); (2000.3, 1000);
        (2000.5, 1000 + span)] |}.

Definition quote_tick (b : Q) : TickPressure.TickDict :=
  {| TickPressure.k_last := None;
     TickPressure.k_bid := Some (TickPressure.Num b);
     TickPressure.k_ask := Some (TickPressure.Num (b + 0.2));
     TickPressure.k_volume := None |}.

(** Three candles peaking in the middle, and a map with one strong
    resistance just above 2000. *)
Definition peak_candles : list LiquidityMap.Candle :=
  [{| LiquidityMap.high := 1; LiquidityMap.low := 0.5 |};
   {| LiquidityMap.high := 3; LiquidityMap.low := 2 |};
   {| LiquidityMap.high := 2; LiquidityMap.low := 1 |}].

Definition wall_above : LiquidityMap.LiquidityMapping :=
  {| LiquidityMap.supports := [];
     LiquidityMap.resistances :=
       [{| LiquidityMapper.price := 2000.5; LiquidityMapper.strength := 2;
           LiquidityMapper.wtype := LiquidityMapper.RESISTANCE |}] |}.

(** An operation that raises on the first call, fails with return code
    10009 on the second and succeeds on the third, watched by a clock
    that advances one second per attempt; and one that always raises. *)
Definition flaky_operation (attempt : nat) : outcome (bool * option Z) :=
  match attempt with
  | 1%nat => Raise
  | 2%nat => Ret (false, Some 10009%Z)
  | _ => Ret (true, Some 0%Z)
  end.

Definition second_clock (attempt : nat) : Q := inject_Z (Z.of_nat attempt).

Definition flaky_run : RiskTools.RetryRun Z :=
  RiskTools.retry_with_backoff Z Some flaky_operation second_clock 3 0.5 2.0 10.0 0.

Definition hasty_run : RiskTools.RetryRun Z :=
  RiskTools.retry_with_backoff Z Some (fun _ => Raise) second_clock 2 (-1) 2.0 10.0 0.

(** The admission gate on a fresh manager, for the gold bucket. *)
Definition sample_gate : RiskManager.t * outcome RiskManager.verdict :=
  RiskManager.validate_hedge_conditions (sample_env (Ret None))
    (RiskManager.init sample_config) "XAUUSD" [gold_long] gold_tick 0.01
    (Some 2.0) None.

(** A manager that already holds a marker and a hedge state for another
    symbol. *)
Definition busy_manager : RiskManager.t :=
  RiskManager.set_pending
    (fst (RiskManager._get_hedge_state (RiskManager.init sample_config) "EURUSD"))
    {["EURUSD" := 995]}.

(** A stand-in for [np.std] on a window whose prices do not vary. *)
Definition flat_std (prices : list Q) : Q := 0.

(** A quote whose ask lies below its bid. *)
Definition crossed_tick : TickPressure.TickDict :=
  {| TickPressure.k_last := None;
     TickPressure.k_bid := Some (TickPressure.Num 2);
     TickPressure.k_ask := Some (TickPressure.Num 1);
     TickPressure.k_volume := None |}.


(** An environment like [sample_env] with a confirmed order, in which
    attaching the new position to its bucket raises. *)
Definition late_failure_env : RiskManager.Env :=
  {| RiskManager.consts := sample_consts;
     RiskManager.math_log := fun _ => 0;
     RiskManager.t_entry := 1000; RiskManager.t_mark := 1000;
     RiskManager.t_fresh := 1000; RiskManager.t_spread := 1000;
     RiskManager.t_default := 1000; RiskManager.t_cooldown := 1000;
     RiskManager.t_hedge := 1001;
     RiskManager.enable_freshness := true;
     RiskManager.fresh_tick_max_age := Ret 10.0;
     RiskManager.is_trade_allowed := Ret true;
     RiskManager.get_positions := Ret (Some [gold_long]);
     RiskManager.get_tick_time := Ret (Some 1000);
     RiskManager.get_account_info := Ret (Some (1000, 990));
     RiskManager.execute_order := fun _ => Ret (Some 8%Z);
     RiskManager.can_hedge_bucket := fun _ => Ret true;
     RiskManager.record_hedge := fun _ _ _ _ => Ret tt;
     RiskManager.analyze_hedge_decision :=
       fun _ _ _ => Ret {| RiskManager.should_hedge := true;
                           RiskManager.hedge_size := 0.2 |};
     RiskManager.add_position_to_bucket := fun _ _ => Raise |}.

Definition late_failure_run : RiskManager.Run :=
  RiskManager.execute_zone_recovery late_failure_env
    (RiskManager.init sample_config) ∅ "XAUUSD" [gold_long] gold_tick 0.01 true
    (Some 2.0) 1.0 (Some 50)
    (Some {| RiskManager.vpin := 0.1; RiskManager.reynolds_number := 0 |}) None.

(** A retry whose time budget of 10 seconds runs out during the first
    sleep: the clock reads 0 at the first attempt and 11 at the second. *)
Definition slow_clock (attempt : nat) : Q :=
  match attempt with
  | 1%nat => 0
  | _ => 11
  end.

Definition starved_run : RiskTools.RetryRun Z :=
  RiskTools.retry_with_backoff Z Some (fun _ => Ret (false, None)) slow_clock 3
    0.5 2.0 10.0 0.

(** * Properties *)

(** ** Helper facts on rationals and lists *)

Lemma Qltb_lt (x y : Q) : Qltb x y = true <-> x < y.
Proof.
  unfold Qltb. rewrite negb_true_iff.
  destruct (Qle_bool y x) eqn:E.
  - apply Qle_bool_iff in E. split; [discriminate | intros; lra].
  - split; [intros _ | reflexivity].
    apply Qnot_le_lt. intros Hle. apply Qle_bool_iff in Hle. congruence.
Qed.

Lemma Qltb_ge (x y : Q) : Qltb x y = false <-> y <= x.
Proof.
  unfold Qltb. rewrite negb_false_iff. apply Qle_bool_iff.
Qed.

Lemma Qle_bool_gt (x y : Q) : Qle_bool x y = false <-> y < x.
Proof.
  rewrite <- Qltb_lt. unfold Qltb. rewrite negb_true_iff. reflexivity.
Qed.

(** ** The ledger (src/core/bad_bank.py) *)

Section BadBankFacts.
Import BadBank.
Context {B : Type} `{Broker B}.

Lemma pass_shape_cons (self : t) (p : pass) (e : event) (new : list event) :
  is_closed e = false -> is_deduct e = false ->
  pass_shape self p new -> pass_shape self p (e :: new).
Proof.
  intros Hc Hd [(Hq & Hr & Hb) | (pre & tk & c & -> & Hq & Hrest)].
  - left. split; [constructor; auto | auto].
  - right. exists (e :: pre), tk, c. split; [reflexivity |].
    split; [constructor; auto | exact Hrest].
Qed.

Lemma reduction_loop_shape (items : list (string * ToxicAsset)) :
  forall (self : t) (broker : B) (tr : list event),
  exists new,
    trace (fst (reduction_loop self items broker tr)) = tr ++ new
    /\ pass_shape self (fst (reduction_loop self items broker tr)) new.
Proof.
  induction items as [| [bid asset_data] rest IH]; intros self broker tr; simpl.
  - exists []. rewrite app_nil_r. split; [reflexivity |].
    left. repeat split; [constructor | discriminate].
  - destruct (find_loser (positions asset_data)) as [loser |]; [| apply IH].
    destruct (get_last_tick broker (symbol loser)) as [b1 [[tick |] |]] eqn:Etick.
    + destruct (Qle_bool (required_tithe loser tick) (tithe_balance self)) eqn:Eaff.
      * destruct (close_position b1 (ticket loser) NIBBLE_SIZE "CHRONOS_NIBBLE")
          as [b2 [[|] |]] eqn:Eclose; simpl.
        -- exists [EvTick (symbol loser);
                   EvClose (ticket loser) NIBBLE_SIZE (Ret true);
                   EvDeduct (required_tithe loser tick)].
           split; [rewrite <- !app_assoc; reflexivity |].
           right. exists [EvTick (symbol loser)], (ticket loser), (required_tithe loser tick).
           split; [reflexivity |].
           split; [repeat constructor |].
           split; [reflexivity |].
           split; [apply Qle_bool_iff; exact Eaff |].
           repeat split.
        -- destruct (IH self b2
                      ((tr ++ [EvTick (symbol loser)])
                         ++ [EvClose (ticket loser) NIBBLE_SIZE (Ret false)]))
             as (new & Htr & Hshape).
           exists (EvTick (symbol loser)
                     :: EvClose (ticket loser) NIBBLE_SIZE (Ret false) :: new).
           split.
           ++ rewrite Htr, <- !app_assoc. reflexivity.
           ++ apply pass_shape_cons; [reflexivity .. |].
              apply pass_shape_cons; [reflexivity .. |]. exact Hshape.
        -- exists [EvTick (symbol loser); EvClose (ticket loser) NIBBLE_SIZE Raise].
           split; [rewrite <- !app_assoc; reflexivity |].
           left. repeat split; [repeat constructor | discriminate].
      * destruct (IH self b1 (tr ++ [EvTick (symbol loser)])) as (new & Htr & Hshape).
        exists (EvTick (symbol loser) :: new).
        split; [rewrite Htr, <- app_assoc; reflexivity |].
        apply pass_shape_cons; [reflexivity .. | exact Hshape].
    + destruct (IH self b1 (tr ++ [EvTick (symbol loser)])) as (new & Htr & Hshape).
      exists (EvTick (symbol loser) :: new).
      split; [rewrite Htr, <- app_assoc; reflexivity |].
      apply pass_shape_cons; [reflexivity .. | exact Hshape].
    + simpl. exists [EvTick (symbol loser)].
      split; [reflexivity |].
      left. repeat split; [repeat constructor | discriminate].
Qed.

Lemma quiet_count (f : event -> bool) (tr : list event) :
  (forall e, f e = true -> is_closed e = true \/ is_deduct e = true) ->
  quiet tr -> count f tr = 0%nat.
Proof.
  intros Hf Hq. unfold count. induction Hq as [| e tr [Hc Hd] _ IH]; simpl.
  - reflexivity.
  - destruct (f e) eqn:E; [| exact IH].
    destruct (Hf e E); congruence.
Qed.

Lemma sumQ_from (xs : list Q) (a : Q) : fold_left Qplus xs a == a + sumQ xs.
Proof.
  unfold sumQ. revert a. induction xs as [| x xs IH]; intros a; simpl.
  - lra.
  - rewrite IH. rewrite (IH (0 + x)). lra.
Qed.

Lemma sumQ_cons (x : Q) (xs : list Q) : sumQ (x :: xs) == x + sumQ xs.
Proof. unfold sumQ at 1. simpl. rewrite sumQ_from. lra. Qed.

Lemma sumQ_app (xs ys : list Q) : sumQ (xs ++ ys) == sumQ xs + sumQ ys.
Proof.
  induction xs as [| x xs IH]; simpl.
  - unfold sumQ at 2. simpl. lra.
  - rewrite !sumQ_cons, IH. lra.
Qed.

Lemma quiet_closed_volume (tr : list event) : quiet tr -> closed_volume tr == 0.
Proof.
  unfold closed_volume.
  induction 1 as [| e tr [Hc Hd] _ IH]; simpl; [reflexivity |].
  rewrite sumQ_cons, IH.
  destruct e as [| tk v [[|] |] |]; simpl in *; try discriminate; lra.
Qed.

Lemma quiet_not_closed (tr : list event) (tk : Z) (v : Q) :
  quiet tr -> ~ In (EvClose tk v (Ret true)) tr.
Proof.
  intros Hq Hin. unfold quiet in Hq. rewrite List.Forall_forall in Hq.
  destruct (Hq _ Hin) as [Hc _]. discriminate.
Qed.

Lemma reduction_loop_balance (items : list (string * ToxicAsset))
    (self : t) (broker : B) (tr : list event) :
  0 <= tithe_balance self ->
  0 <= tithe_balance (bank (fst (reduction_loop self items broker tr))).
Proof.
  intros Hpos.
  destruct (reduction_loop_shape items self broker tr) as (new & _ & Hshape).
  destruct Hshape as [(_ & _ & ->) | (pre & tk & c & _ & _ & _ & Hc & -> & _)].
  - exact Hpos.
  - lra.
Qed.

Lemma step_balance (st : t * B) (o : op) :
  0 <= tithe_balance (fst st) -> 0 <= tithe_balance (fst (step st o)).
Proof.
  destruct st as [self broker]. destruct o as [bid ps now | amount src |]; simpl.
  - unfold register_toxic_asset. destruct (registered bid (toxic_assets self)); auto.
  - unfold deposit_tithe. destruct (Qle_bool amount 0) eqn:E; simpl; [auto |].
    apply Qle_bool_gt in E. intros. lra.
  - intros Hpos. unfold attempt_debt_reduction.
    pose proof (reduction_loop_balance (toxic_assets self) self broker [] Hpos) as Hb.
    destruct (reduction_loop self (toxic_assets self) broker []) as [p b]. exact Hb.
Qed.

Lemma fold_step_balance (ops : list op) (st : t * B) :
  0 <= tithe_balance (fst st) ->
  0 <= tithe_balance (fst (fold_left step ops st)).
Proof.
  revert st. induction ops as [| o ops IH]; intros st Hpos; simpl.
  - exact Hpos.
  - apply IH, step_balance, Hpos.
Qed.

(** C2. The cash pool never goes negative: from the empty ledger, after
    any sequence of registrations, deposits and debt-reduction passes
    against any broker, the balance is at least 0.  A deposit of a
    non-positive amount is rejected (0 accepted, ledger unchanged), a
    positive one is added in full, and a pass that deducts [c] from the
    pool started with a balance of at least [c]. *)
Theorem tithe_balance_never_negative (ops : list op) (broker : B) :
  0 <= tithe_balance (fst (run ops broker))
  /\ (forall self amount src,
        amount <= 0 -> deposit_tithe self amount src = (self, 0))
  /\ (forall self amount src,
        0 < amount ->
        snd (deposit_tithe self amount src) = amount
        /\ tithe_balance (fst (deposit_tithe self amount src))
           = tithe_balance self + amount)
  /\ (forall self b c,
        In (EvDeduct c) (trace (fst (attempt_debt_reduction self b))) ->
        c <= tithe_balance self
        /\ tithe_balance (bank (fst (attempt_debt_reduction self b)))
           = tithe_balance self - c).
Proof.
  split; [| split; [| split]].
  - unfold run. apply fold_step_balance. simpl. lra.
  - intros self amount src Hle. unfold deposit_tithe.
    apply Qle_bool_iff in Hle. rewrite Hle. reflexivity.
  - intros self amount src Hlt. unfold deposit_tithe.
    apply Qle_bool_gt in Hlt. rewrite Hlt. split; reflexivity.
  - intros self b c Hin. unfold attempt_debt_reduction in *.
    destruct (reduction_loop_shape (toxic_assets self) self b []) as (new & Htr & Hshape).
    rewrite Htr in Hin. simpl in Hin.
    destruct Hshape as [(Hq & _ & _) | (pre & tk & c' & -> & Hq & _ & Hc & Hbal & _)].
    + unfold quiet in Hq. rewrite List.Forall_forall in Hq.
      destruct (Hq _ Hin) as [_ Hd]. discriminate.
    + apply in_app_or in Hin. destruct Hin as [Hin | [Hin | [Hin | []]]].
      * unfold quiet in Hq. rewrite List.Forall_forall in Hq.
        destruct (Hq _ Hin) as [_ Hd]. discriminate.
      * discriminate.
      * injection Hin as <-. split; [exact Hc | exact Hbal].
Qed.

(** C9. One pass closes at most one nibble: its trace holds at most one
    successful [close_position] and at most one deduction, the closed
    volume is at most 0.01 lots, and a successful close is for exactly
    0.01 lots, is the last broker call of the pass, is followed only by
    its deduction, and makes the pass return [True]. *)
Theorem debt_reduction_single_nibble (self : t) (broker : B) :
  let p := fst (attempt_debt_reduction self broker) in
  (count is_closed (trace p) <= 1)%nat
  /\ (count is_deduct (trace p) <= 1)%nat
  /\ closed_volume (trace p) <= 0.01
  /\ (forall tk v,
        In (EvClose tk v (Ret true)) (trace p) ->
        v = NIBBLE_SIZE /\ ret p = Ret true
        /\ exists pre c,
             trace p = pre ++ [EvClose tk v (Ret true); EvDeduct c] /\ quiet pre).
Proof.
  unfold attempt_debt_reduction. cbv zeta.
  destruct (reduction_loop_shape (toxic_assets self) self broker []) as (new & Htr & Hshape).
  rewrite Htr. simpl.
  destruct Hshape as [(Hq & _ & _) | (pre & tk & c & -> & Hq & Hret & _)].
  - rewrite !quiet_count by (auto; intros e He; auto).
    rewrite quiet_closed_volume by exact Hq.
    repeat split; try lia; try lra;
      exfalso; eapply quiet_not_closed; eauto.
  - unfold count, closed_volume.
    rewrite !List.filter_app, !length_app, map_app, sumQ_app.
    fold (count is_closed pre). fold (count is_deduct pre). fold (closed_volume pre).
    rewrite !quiet_count by (auto; intros e He; auto).
    rewrite quiet_closed_volume by exact Hq.
    split; [simpl; lia |]. split; [simpl; lia |].
    split; [unfold sumQ, NIBBLE_SIZE; simpl; lra |].
    intros tk' v Hin. apply in_app_or in Hin.
    destruct Hin as [Hin | [Hin | [Hin | []]]].
    + exfalso. eapply quiet_not_closed; eauto.
    + injection Hin as <- <-. repeat split; [exact Hret |].
      exists pre, c. split; [reflexivity | exact Hq].
    + discriminate.
Qed.

End BadBankFacts.

(** C8. Registering a bucket id the ledger already holds changes
    nothing: the ledger after the call is the ledger before it (same
    buckets, same stored positions and freeze times, same counters),
    and in particular the asset count is the same. *)
Theorem register_toxic_asset_idempotent (self : BadBank.t) (bid : string)
    (ps : list Position) (now : Q) :
  BadBank.registered bid (BadBank.toxic_assets self) = true ->
  BadBank.register_toxic_asset self bid ps now = self
  /\ BadBank.assets_count (BadBank.register_toxic_asset self bid ps now)
     = BadBank.assets_count self.
Proof.
  intros Hreg. unfold BadBank.register_toxic_asset. rewrite Hreg.
  split; reflexivity.
Qed.

(** ** Order flow and VPIN (src/ai_core/tick_pressure.py) *)

Section TickPressureFacts.
Import TickPressure.

Lemma sumQ_nonneg (xs : list Q) : Forall (fun v => 0 <= v) xs -> 0 <= sumQ xs.
Proof.
  induction 1 as [| x xs Hx _ IH].
  - unfold sumQ. simpl. lra.
  - rewrite sumQ_cons. lra.
Qed.

Lemma deque_append_nonneg (d : list Q) (x : Q) :
  Forall (fun v => 0 <= v) d -> 0 <= x ->
  Forall (fun v => 0 <= v) (deque_append d x).
Proof.
  intros Hd Hx. unfold deque_append.
  assert (Hall : Forall (fun v => 0 <= v) (d ++ [x])).
  { apply Forall_app. split; [exact Hd | constructor; [exact Hx | constructor]]. }
  destruct (Nat.ltb 100 (length (d ++ [x]))); [| exact Hall].
  destruct (d ++ [x]); simpl; [constructor |].
  inversion Hall; assumption.
Qed.

Lemma classify_nonneg (self : t) (last_price b a volume mid prev : Q) :
  buffers_nonneg self -> 0 <= volume ->
  buffers_nonneg (fst (classify self last_price b a volume mid prev)).
Proof.
  intros [Hb Hs] Hv.
  assert (Hhalf : 0 <= volume / 2).
  { apply Qle_shift_div_l; lra. }
  unfold classify.
  repeat match goal with
         | |- context [if ?c then _ else _] => destruct c
         end; simpl; split; simpl;
    auto using deque_append_nonneg.
Qed.

Lemma buffers_nonneg_prev_mid (self : t) (m : Q) :
  buffers_nonneg self -> buffers_nonneg (set_prev_mid self m).
Proof. intros Hn. exact Hn. Qed.

Lemma ratio_bounds (b s : Q) :
  0 <= b -> 0 <= s -> 0 < b + s ->
  -1 <= (b - s) / (b + s) /\ (b - s) / (b + s) <= 1.
Proof.
  intros Hb Hs Ht. split.
  - apply Qle_shift_div_l; [exact Ht | lra].
  - apply Qle_shift_div_r; [exact Ht | lra].
Qed.

Lemma order_flow_body_ret (self self' : t) (tick : TickDict) (r : OrderFlow) :
  order_flow_body self tick = (self', Ret r) -> r = summarize self'.
Proof.
  unfold order_flow_body.
  destruct (default (Num 1) (k_volume tick)) as [volume |]; [| discriminate].
  destruct (default (Num 0) (k_bid tick)) as [b |]; [| discriminate].
  destruct (default (Num 0) (k_ask tick)) as [a |]; [| discriminate].
  destruct (match k_last tick with
            | Some v => v
            | None => Num b
            end) as [lp |]; [| discriminate].
  destruct (classify _ lp b a volume _ _) as [self1 side].
  match goal with
  | |- context [if ?c then _ else _] => destruct c
  end; [| discriminate].
  intros [= <- <-]. reflexivity.
Qed.

Lemma order_flow_body_nonneg (self : t) (tick : TickDict) :
  buffers_nonneg self -> volume_nonneg (Some tick) ->
  buffers_nonneg (fst (order_flow_body self tick)).
Proof.
  intros Hn Hv. unfold order_flow_body. simpl in Hv.
  destruct (k_volume tick) as [[volume |] |]; simpl; [| exact Hn |].
  - destruct (default (Num 0) (k_bid tick)) as [b |]; [| exact Hn].
    destruct (default (Num 0) (k_ask tick)) as [a |]; [| exact Hn].
    assert (Hn1 : buffers_nonneg
                    match _prev_mid self with
                    | Some _ => self
                    | None => set_prev_mid self ((b + a) / 2)
                    end) by (destruct (_prev_mid self); exact Hn).
    destruct (match k_last tick with
              | Some v => v
              | None => Num b
              end) as [lp |]; [| exact Hn1].
    match goal with
    | |- context [classify ?s ?l ?x ?y ?v ?m ?q] =>
        pose proof (classify_nonneg s l x y v m q Hn1 Hv) as Hcl;
        destruct (classify s l x y v m q) as [self1 side]
    end.
    match goal with
    | |- context [if ?c then _ else _] => destruct c
    end; exact Hcl.
  - destruct (default (Num 0) (k_bid tick)) as [b |]; [| exact Hn].
    destruct (default (Num 0) (k_ask tick)) as [a |]; [| exact Hn].
    assert (Hn1 : buffers_nonneg
                    match _prev_mid self with
                    | Some _ => self
                    | None => set_prev_mid self ((b + a) / 2)
                    end) by (destruct (_prev_mid self); exact Hn).
    destruct (match k_last tick with
              | Some v => v
              | None => Num b
              end) as [lp |]; [| exact Hn1].
    match goal with
    | |- context [classify ?s ?l ?x ?y ?v ?m ?q] =>
        assert (Hcl : buffers_nonneg (fst (classify s l x y v m q)))
          by (apply classify_nonneg; [exact Hn1 | lra]);
        destruct (classify s l x y v m q) as [self1 side]
    end.
    match goal with
    | |- context [if ?c then _ else _] => destruct c
    end; exact Hcl.
Qed.

Lemma summarize_balanced (self : t) :
  buy_pressure (summarize self) + sell_pressure (summarize self) == 1
  /\ order_flow_imbalance (summarize self)
     == buy_pressure (summarize self) - sell_pressure (summarize self).
Proof.
  unfold summarize.
  destruct (Qltb 0 (sumQ (buy_volume_buffer self) + sumQ (sell_volume_buffer self)))
    eqn:Et; simpl.
  - apply Qltb_lt in Et. split; field; lra.
  - split; reflexivity.
Qed.

Lemma summarize_bounded (self : t) :
  buffers_nonneg self ->
  -1 <= order_flow_imbalance (summarize self)
  /\ order_flow_imbalance (summarize self) <= 1.
Proof.
  intros [Hb Hs]. unfold summarize.
  destruct (Qltb 0 (sumQ (buy_volume_buffer self) + sumQ (sell_volume_buffer self)))
    eqn:Et; simpl.
  - apply Qltb_lt in Et. apply ratio_bounds; auto using sumQ_nonneg.
  - split; lra.
Qed.

Lemma summarize_neutral (self : t) :
  ~ 0 < sumQ (buy_volume_buffer self) + sumQ (sell_volume_buffer self) ->
  order_flow_imbalance (summarize self) = 0
  /\ buy_pressure (summarize self) = 0.5
  /\ sell_pressure (summarize self) = 0.5.
Proof.
  intros Hz. unfold summarize.
  destruct (Qltb 0 (sumQ (buy_volume_buffer self) + sumQ (sell_volume_buffer self)))
    eqn:Et; simpl.
  - apply Qltb_lt in Et. contradiction.
  - repeat split.
Qed.

(** C10 (as amended). Every return of [analyze_order_flow] has
    [buy_pressure + sell_pressure = 1] and
    [order_flow_imbalance = buy_pressure - sell_pressure], and is the
    neutral 0.5/0.5/0.0 when the classified volume is not positive, on
    the early return and the exception fallback included.  The
    imbalance lies in [-1, 1] provided the buffers hold non-negative
    volumes and the tick's volume is non-negative, and then the buffers
    stay non-negative. *)
Theorem order_flow_outputs (self : t) (tick : option TickDict) :
  let r := snd (analyze_order_flow self tick) in
  let self' := fst (analyze_order_flow self tick) in
  buy_pressure r + sell_pressure r == 1
  /\ order_flow_imbalance r == buy_pressure r - sell_pressure r
  /\ (~ 0 < sumQ (buy_volume_buffer self') + sumQ (sell_volume_buffer self') ->
      order_flow_imbalance r = 0 /\ buy_pressure r = 0.5 /\ sell_pressure r = 0.5)
  /\ (buffers_nonneg self -> volume_nonneg tick ->
      -1 <= order_flow_imbalance r /\ order_flow_imbalance r <= 1
      /\ buffers_nonneg self').
Proof.
  unfold analyze_order_flow. destruct tick as [tick |]; simpl.
  - pose proof (order_flow_body_nonneg self tick) as Hnn.
    destruct (order_flow_body self tick) as [self' [r |]] eqn:Ebody; simpl in *.
    + rewrite (order_flow_body_ret self self' tick r Ebody).
      destruct (summarize_balanced self') as [H1 H2].
      split; [exact H1 |]. split; [exact H2 |].
      split; [apply summarize_neutral |].
      intros Hn Hv. specialize (Hnn Hn Hv).
      destruct (summarize_bounded self' Hnn) as [H3 H4]. auto.
    + split; [reflexivity |]. split; [reflexivity |].
      split; [auto |]. intros Hn Hv. specialize (Hnn Hn Hv).
      repeat split; try lra; apply Hnn.
  - split; [reflexivity |]. split; [reflexivity |].
    split; [auto |]. intros Hn _. repeat split; try lra; apply Hn.
Qed.

(** C7. [calculate_vpin] is exactly 0 when the two buffers hold fewer
    than 15 samples together, whatever the imbalance, and when the
    classified volume is not positive; with at least 15 samples and a
    positive volume it is [|buyVol - sellVol| / totalVol]. *)
Theorem vpin_noise_floor (self : t) :
  let buy_vol := sumQ (buy_volume_buffer self) in
  let sell_vol := sumQ (sell_volume_buffer self) in
  let samples := (length (buy_volume_buffer self)
                  + length (sell_volume_buffer self))%nat in
  ((samples < 15)%nat -> calculate_vpin self = 0)
  /\ (buy_vol + sell_vol <= 0 -> calculate_vpin self = 0)
  /\ ((15 <= samples)%nat -> 0 < buy_vol + sell_vol ->
      calculate_vpin self = Qabs (buy_vol - sell_vol) / (buy_vol + sell_vol)).
Proof.
  cbv zeta. unfold calculate_vpin.
  destruct (Qle_bool (sumQ (buy_volume_buffer self) + sumQ (sell_volume_buffer self)) 0)
    eqn:Et.
  - apply Qle_bool_iff in Et.
    split; [reflexivity |]. split; [reflexivity |]. intros _ Hpos. lra.
  - apply Qle_bool_gt in Et.
    destruct (Nat.ltb (length (buy_volume_buffer self)
                       + length (sell_volume_buffer self)) 15) eqn:En.
    + apply Nat.ltb_lt in En.
      split; [reflexivity |]. split; [intros; lra | intros; lia].
    + apply Nat.ltb_ge in En.
      split; [intros; lia |]. split; [intros; lra | reflexivity].
Qed.

End TickPressureFacts.

(** C10 (as stated) fails: after a 3-lot buy, a tick carrying volume -1
    classified as a sell gives buy 3, sell -1, total 2, and an imbalance
    of 2, outside [-1, 1]. *)
Lemma order_flow_imbalance_escapes :
  let a := TickPressure.feed (TickPressure.init None) [Some trade_at_ask] in
  let r := snd (TickPressure.analyze_order_flow a (Some negative_volume_trade)) in
  TickPressure.order_flow_imbalance r == 2
  /\ ~ (TickPressure.order_flow_imbalance r <= 1).
Proof.
  vm_compute. split; [reflexivity | intros H; apply H; reflexivity].
Qed.

Lemma order_flow_outputs_witness :
  let a := TickPressure.feed (TickPressure.init None) [Some trade_at_ask] in
  let r := snd (TickPressure.analyze_order_flow a (Some trade_at_ask)) in
  let idle := snd (TickPressure.analyze_order_flow (TickPressure.init None) None) in
  TickPressure.buffers_nonneg a
  /\ TickPressure.volume_nonneg (Some trade_at_ask)
  /\ -1 <= TickPressure.order_flow_imbalance r
  /\ TickPressure.order_flow_imbalance r <= 1
  /\ TickPressure.order_flow_imbalance idle = 0
  /\ TickPressure.buy_pressure idle = 0.5.
Proof.
  assert (Hn : TickPressure.buffers_nonneg
                 (TickPressure.feed (TickPressure.init None) [Some trade_at_ask])).
  { split; vm_compute; repeat constructor; discriminate. }
  assert (Hv : TickPressure.volume_nonneg (Some trade_at_ask)).
  { vm_compute. discriminate. }
  split; [exact Hn |]. split; [exact Hv |].
  destruct (order_flow_outputs
              (TickPressure.feed (TickPressure.init None) [Some trade_at_ask])
              (Some trade_at_ask)) as (_ & _ & _ & Hb).
  destruct (Hb Hn Hv) as (H1 & H2 & _).
  split; [exact H1 |]. split; [exact H2 |].
  destruct (order_flow_outputs (TickPressure.init None) None) as (_ & _ & Hidle & _).
  destruct Hidle as (H3 & H4 & _); [| split; [exact H3 | exact H4]].
  vm_compute. discriminate.
Defined.

Lemma vpin_noise_floor_witness :
  TickPressure.calculate_vpin fourteen_samples = 0
  /\ TickPressure.calculate_vpin (TickPressure.init None) = 0
  /\ TickPressure.calculate_vpin fifteen_samples
     = Qabs (sumQ (repeat 1 10) - sumQ (repeat 1 5))
       / (sumQ (repeat 1 10) + sumQ (repeat 1 5)).
Proof.
  split; [| split].
  - destruct (vpin_noise_floor fourteen_samples) as (Hfew & _ & _).
    apply Hfew. vm_compute. lia.
  - destruct (vpin_noise_floor (TickPressure.init None)) as (_ & Hempty & _).
    apply Hempty. vm_compute. discriminate.
  - destruct (vpin_noise_floor fifteen_samples) as (_ & _ & Henough).
    apply Henough; [vm_compute; lia | reflexivity].
Defined.

(** ** Pivot clustering (src/ai_core/liquidity_mapper.py) *)

Section LiquidityMapperFacts.
Import LiquidityMapper.

Lemma chained_snoc (thr : Q) (g : list Q) (x : Q) :
  g <> [] -> chained thr g -> x - List.last g 0 <= thr -> chained thr (g ++ [x]).
Proof.
  induction g as [| a g IH]; intros Hne Hch Hx; [congruence |].
  destruct g as [| b g].
  - simpl in *. auto.
  - destruct Hch as [Hab Hch]. split; [exact Hab |].
    apply IH; [discriminate | exact Hch | exact Hx].
Qed.

Lemma last_snoc (g : list Q) (x : Q) : List.last (g ++ [x]) 0 = x.
Proof. apply List.last_last. Qed.

Lemma hd_app_nonempty (g ext : list Q) : g <> [] -> hd 0 (g ++ ext) = hd 0 g.
Proof. destruct g; [congruence | reflexivity]. Qed.

Lemma cluster_loop_groups (thr : Q) (is_res : bool) (rest : list Q) :
  forall (prev : Q) (cur : list Q) (clusters : list Wall),
  cur <> [] -> List.last cur 0 = prev -> chained thr cur ->
  exists ext gs,
    concat ((cur ++ ext) :: gs) = cur ++ rest
    /\ Forall (fun g => g <> [] /\ chained thr g) ((cur ++ ext) :: gs)
    /\ separated thr ((cur ++ ext) :: gs)
    /\ cluster_loop thr is_res prev rest cur clusters
       = clusters ++ map (fun g => _process_cluster g is_res) ((cur ++ ext) :: gs).
Proof.
  induction rest as [| x rest IH]; intros prev cur clusters Hne Hlast Hch.
  - exists [], []. rewrite !app_nil_r. simpl. rewrite app_nil_r.
    split; [reflexivity |]. split; [repeat constructor; assumption |].
    split; [exact I |]. destruct cur; [congruence | reflexivity].
  - simpl. destruct (Qle_bool (x - prev) thr) eqn:Ex.
    + apply Qle_bool_iff in Ex.
      destruct (IH x (cur ++ [x]) clusters) as (ext & gs & Hcat & Hall & Hsep & Hrun).
      * destruct cur; discriminate.
      * apply last_snoc.
      * apply chained_snoc; [exact Hne | exact Hch | rewrite Hlast; exact Ex].
      * exists (x :: ext), gs.
        replace (cur ++ x :: ext) with ((cur ++ [x]) ++ ext)
          by (rewrite <- app_assoc; reflexivity).
        replace (cur ++ x :: rest) with ((cur ++ [x]) ++ rest)
          by (rewrite <- app_assoc; reflexivity).
        auto.
    + apply Qle_bool_gt in Ex.
      destruct (IH x [x] (clusters ++ [_process_cluster cur is_res]))
        as (ext & gs & Hcat & Hall & Hsep & Hrun).
      * discriminate.
      * reflexivity.
      * exact I.
      * exists [], (([x] ++ ext) :: gs). rewrite app_nil_r.
        split; [change (concat (cur :: ([x] ++ ext) :: gs))
                  with (cur ++ concat (([x] ++ ext) :: gs));
                rewrite Hcat; reflexivity |].
        split; [constructor; [split; assumption | exact Hall] |].
        split; [split; [simpl; rewrite Hlast; exact Ex | exact Hsep] |].
        rewrite Hrun, <- app_assoc. reflexivity.
Qed.

Lemma insert_level_nonempty (x : Q) (l : list Q) : insert_level x l <> [].
Proof. destruct l; simpl; [discriminate |]. destruct (Qle_bool x q); discriminate. Qed.

Lemma sort_levels_nonempty (levels : list Q) : levels <> [] -> sort_levels levels <> [].
Proof.
  destruct levels; [congruence |]. intros _. simpl. apply insert_level_nonempty.
Qed.

Lemma sort_levels_ascending (levels : list Q) :
  ascending levels -> sort_levels levels = levels.
Proof.
  induction levels as [| a l IH]; intros Hasc; [reflexivity |].
  change (sort_levels (a :: l)) with (insert_level a (sort_levels l)).
  destruct l as [| b l]; [reflexivity |].
  destruct Hasc as [Hab Hasc]. rewrite (IH Hasc).
  simpl. apply Qle_bool_iff in Hab. rewrite Hab. reflexivity.
Qed.

(** C5 (as amended). [_cluster_levels] cuts the ascending list of
    levels into consecutive clusters using one threshold for the whole
    call, 0.0005 times the smallest level: a level joins the current
    cluster exactly when it is within that threshold of the previous
    level, otherwise the cluster is closed and a new one starts.  Each
    cluster becomes a wall whose price is the mean of its levels and
    whose strength is their number.  An ascending input is clustered
    as it stands. *)
Theorem cluster_levels_fixed_threshold (levels : list Q) (is_resistance : bool) :
  levels <> [] ->
  let sorted := sort_levels levels in
  let threshold := hd 0 sorted * 0.0005 in
  (ascending levels -> sorted = levels)
  /\ exists groups,
       concat groups = sorted
       /\ Forall (fun g => g <> [] /\ chained threshold g) groups
       /\ separated threshold groups
       /\ _cluster_levels levels is_resistance
          = map (fun g => {| price := sumQ g / inject_Z (Z.of_nat (length g));
                             strength := length g;
                             wtype := if is_resistance then RESISTANCE else SUPPORT |})
              groups.
Proof.
  intros Hne. cbv zeta. split; [apply sort_levels_ascending |].
  unfold _cluster_levels.
  pose proof (sort_levels_nonempty levels Hne) as Hs.
  destruct (sort_levels levels) as [| l0 rest]; [congruence |]. simpl hd.
  destruct (cluster_loop_groups (l0 * 0.0005) is_resistance rest l0 [l0] [])
    as (ext & gs & Hcat & Hall & Hsep & Hrun);
    [discriminate | reflexivity | exact I |].
  exists (([l0] ++ ext) :: gs). rewrite Hrun. auto.
Qed.

End LiquidityMapperFacts.

(** C5 (as stated) fails: with levels 1900, 2000, 2000.98 the cluster
    being built when 2000.98 arrives is anchored at 2000, and 2000.98
    is within 2000 * 0.0005 = 1 of the previous level; the code still
    starts a new cluster, because its threshold is 1900 * 0.0005 = 0.95
    throughout. *)
Lemma cluster_threshold_not_recomputed :
  let levels := [1900; 2000; 2000.98] in
  LiquidityMapper.ascending levels
  /\ 2000.98 - 2000 <= 2000 * 0.0005
  /\ map LiquidityMapper.strength (LiquidityMapper._cluster_levels levels true)
     = [1; 1; 1]%nat
  /\ map LiquidityMapper.strength (LiquidityMapper.spec_cluster_levels levels true)
     = [1; 2]%nat
  /\ LiquidityMapper._cluster_levels levels true
     <> LiquidityMapper.spec_cluster_levels levels true.
Proof.
  cbv zeta. split; [simpl; repeat split; lra |]. split; [lra |].
  split; [reflexivity |]. split; [reflexivity |].
  intros Heq. apply (f_equal (map LiquidityMapper.strength)) in Heq.
  vm_compute in Heq. discriminate.
Qed.

Lemma cluster_levels_fixed_threshold_witness :
  let levels := [1900; 2000; 2000.98] in
  LiquidityMapper.sort_levels levels = levels
  /\ exists groups,
       concat groups = LiquidityMapper.sort_levels levels
       /\ Forall (fun g => g <> []
                           /\ LiquidityMapper.chained
                                (hd 0 (LiquidityMapper.sort_levels levels) * 0.0005) g)
            groups
       /\ map LiquidityMapper.strength (LiquidityMapper._cluster_levels levels true)
          = map (fun g : list Q => length g) groups.
Proof.
  cbv zeta.
  destruct (cluster_levels_fixed_threshold [1900; 2000; 2000.98] true)
    as (Hsorted & groups & Hcat & Hall & _ & Hrun); [discriminate |].
  split; [apply Hsorted; simpl; repeat split; lra |].
  exists groups. split; [exact Hcat |]. split; [exact Hall |].
  rewrite Hrun, map_map. reflexivity.
Defined.

(** ** Zone recovery (src/risk_manager.py) *)

Section RiskManagerFacts.
Import RiskManager.

Lemma get_hedge_state_pending (self : t) (symbol : string) :
  _pending_hedges (fst (_get_hedge_state self symbol)) = _pending_hedges self.
Proof. unfold _get_hedge_state. destruct (_hedge_states self !! symbol); reflexivity. Qed.

Lemma is_spread_healthy_pending (self : t) (cs now : Q) :
  _pending_hedges (fst (is_spread_healthy self cs now)) = _pending_hedges self.
Proof.
  unfold is_spread_healthy. destruct (spread_history self); [reflexivity |].
  repeat match goal with |- context [if ?c then _ else _] => destruct c end; reflexivity.
Qed.

Lemma freshness_gate_pending (env : Env) (self : t) (tick : Tick) :
  _pending_hedges (fst (freshness_gate env self tick)) = _pending_hedges self.
Proof.
  unfold freshness_gate. destruct (enable_freshness env); [| reflexivity].
  destruct (fresh_tick_max_age env); simpl;
    match goal with |- context [if ?c then _ else _] => destruct c end; reflexivity.
Qed.

Lemma validate_pending (env : Env) (self : t) (symbol : string)
    (positions : list Position) (tick : Tick) (point : Q)
    (atr_val : option Q) (ov : option Z) :
  _pending_hedges (fst (validate_hedge_conditions env self symbol positions tick point atr_val ov))
  = _pending_hedges self.
Proof.
  unfold validate_hedge_conditions. destruct positions as [| p0 ps]; [reflexivity |].
  pose proof (get_hedge_state_pending self symbol) as H1.
  destruct (_get_hedge_state self symbol) as [self1 state]. simpl in H1.
  assert (H2 : _pending_hedges
                 (fst (if Qltb 0 (spread tick)
                       then is_spread_healthy self1 (spread tick) (t_spread env)
                       else (self1, true))) = _pending_hedges self).
  { destruct (Qltb 0 (spread tick)); [rewrite is_spread_healthy_pending |]; exact H1. }
  destruct (if Qltb 0 (spread tick)
            then is_spread_healthy self1 (spread tick) (t_spread env)
            else (self1, true)) as [self2 healthy]. simpl in H2.
  repeat match goal with
         | |- context [if ?c then _ else _] => destruct c
         | |- context [match ?x with Ret _ => _ | Raise => _ end] => destruct x
         | |- context [match ?x with Some _ => _ | None => _ end] => destruct x
         end; exact H2.
Qed.

Lemma update_volatility_scale_pending (env : Env) (self : t) (symbol : string) (ratio : Q) :
  _pending_hedges (fst (update_volatility_scale env self symbol ratio)) = _pending_hedges self.
Proof. reflexivity. Qed.

Lemma not_confirmed_nil (r : Run) : orders r = [] -> ~ order_confirmed r.
Proof. intros Hnil (req & tk & Ho & _). congruence. Qed.

Lemma submit_order_post (env : Env) (self : t) (trades0 : gmap Z TradeMetadata)
    (symbol : string) (bucket : BucketId) (first_ticket : Z) (tm : TradeMetadata)
    (hedge_level : Z) (a : action) (target_price hedge_lot : Q)
    (strict_entry : bool) (zone_width_points point : Q) :
  body_post (_pending_hedges self) trades0
    (<[first_ticket := advance_level tm (hedge_level + 1)]> trades0) symbol
    (submit_order env self trades0 symbol bucket first_ticket tm hedge_level a
       target_price hedge_lot strict_entry zone_width_points point).
Proof.
  unfold submit_order, body_post.
  destruct (Qeq_bool point 0); simpl; [auto |].
  destruct (execute_order env _) as [[new_ticket |] |] eqn:Eorder; simpl.
  - destruct (Z.eqb new_ticket 0) eqn:Ez; simpl.
    + apply Z.eqb_eq in Ez. subst. split; [reflexivity |]. split; [reflexivity |].
      intros (req & tk & Ho & Hne). simpl in Ho. congruence.
    + apply Z.eqb_neq in Ez.
      assert (Hc : forall s tr rt, order_confirmed
                {| ret := rt; rm := s; trades := tr;
                   orders := [({| o_symbol := symbol; o_order_type := a;
                                  o_price := target_price; o_volume := hedge_lot;
                                  o_strict_entry := strict_entry;
                                  o_zone := Qtrunc (zone_width_points / point) |},
                               Ret (Some new_ticket))] |}).
      { intros. eexists _, new_ticket. split; [reflexivity | exact Ez]. }
      destruct (record_hedge env bucket a hedge_lot target_price); simpl; [| auto].
      destruct (add_position_to_bucket env bucket new_ticket); simpl.
      * right. split; [reflexivity |]. split; [apply Hc | reflexivity].
      * split; [reflexivity |]. right. split; [apply Hc | reflexivity].
  - split; [reflexivity |]. split; [reflexivity |].
    intros (req & tk & Ho & Hne). simpl in Ho. congruence.
  - auto.
Qed.

Lemma rejected_post (pend : gmap string Q) (trades0 adv : gmap Z TradeMetadata)
    (symbol : string) (self : t) (b : bool) :
  _pending_hedges self = pend ->
  body_post pend trades0 adv symbol
    {| ret := Ret b; rm := pop_pending self symbol; trades := trades0; orders := [] |}.
Proof.
  intros <-. unfold body_post. simpl. destruct b.
  - left. auto.
  - split; [reflexivity |]. split; [reflexivity |]. apply not_confirmed_nil. reflexivity.
Qed.

Lemma raised_post (pend : gmap string Q) (trades0 adv : gmap Z TradeMetadata)
    (symbol : string) (self : t) :
  _pending_hedges self = pend ->
  body_post pend trades0 adv symbol
    {| ret := Raise; rm := self; trades := trades0; orders := [] |}.
Proof. intros <-. unfold body_post. simpl. auto. Qed.

(** An early exit of the [try] body: a rejection or a raised exception
    with the pending map as it was. *)
Ltac leave_body :=
  solve [apply rejected_post; reflexivity | apply raised_post; reflexivity].

Lemma zone_recovery_body_post (env : Env) (self : t) (trades0 : gmap Z TradeMetadata)
    (symbol : string) (positions : list Position) (first_pos : Position)
    (tick : Tick) (point : Q) (strict_entry : bool) (atr_val : option Q)
    (volatility_ratio : Q) (rsi_value : option Q)
    (pressure_metrics : option PressureMetrics) :
  body_post (_pending_hedges self) trades0
    (advanced_trades trades0 positions first_pos) symbol
    (zone_recovery_body env self trades0 symbol positions first_pos tick point
       strict_entry atr_val volatility_ratio rsi_value pressure_metrics).
Proof.
  unfold zone_recovery_body. cbv zeta.
  rewrite <- (get_hedge_state_pending self symbol).
  generalize (fst (_get_hedge_state self symbol)). intros self1.
  match goal with
  | |- context [if negb ?c then _ else _] => destruct c
  end; simpl negb; cbv iota; try leave_body.
  destruct (calculate_zone_parameters (consts env) positions point atr_val)
    as [[zw tp] |]; try leave_body.
  destruct (pressure_veto pressure_metrics zw) as [zw' |]; try leave_body.
  rewrite <- (update_volatility_scale_pending env self1 symbol volatility_ratio).
  destruct (update_volatility_scale env self1 symbol volatility_ratio) as [self2 scale].
  simpl fst.
  destruct (zone_levels first_pos _ _ _) as [lower upper].
  destruct (trigger first_pos (length positions) tick lower upper (point * 0.1))
    as [[next_action target_price] |]; try leave_body.
  destruct (elastic_wait next_action rsi_value); try leave_body.
  destruct (Z.eqb _ (hedge_type next_action)); try leave_body.
  destruct (analyze_hedge_decision env positions target_price (drawdown_pct env))
    as [decision |]; try leave_body.
  destruct (should_hedge decision); simpl negb; cbv iota; try leave_body.
  match goal with
  | |- context [if Qltb ?x 0.01 then _ else _] => destruct (Qltb x 0.01)
  end; try leave_body.
  apply submit_order_post.
Qed.

Lemma exec_rejected (env : Env) (self s : t) (trades0 : gmap Z TradeMetadata)
    (symbol : string) (positions : list Position) :
  _pending_hedges s = <[symbol := t_mark env]> (_pending_hedges self) ->
  exec_post env self trades0 symbol positions
    {| ret := Ret false; rm := pop_pending s symbol; trades := trades0; orders := [] |}.
Proof. intros Hp. unfold exec_post. simpl. rewrite Hp. auto. Qed.

Lemma exec_raised (env : Env) (self s : t) (trades0 : gmap Z TradeMetadata)
    (symbol : string) (positions : list Position) :
  _pending_hedges s = <[symbol := t_mark env]> (_pending_hedges self) ->
  exec_post env self trades0 symbol positions
    {| ret := Raise; rm := s; trades := trades0; orders := [] |}.
Proof. intros Hp. unfold exec_post. simpl. auto. Qed.

Lemma execute_debounced (env : Env) (self : t) (trades0 : gmap Z TradeMetadata)
    (symbol : string) (positions : list Position) (tick : Tick) (point : Q)
    (strict_entry : bool) (atr_val : option Q) (volatility_ratio : Q)
    (rsi_value : option Q) (pressure_metrics : option PressureMetrics)
    (max_hedges_override : option Z) :
  Qltb (t_entry env - default 0 (_pending_hedges self !! symbol)) 10.0 = true ->
  execute_zone_recovery env self trades0 symbol positions tick point strict_entry
    atr_val volatility_ratio rsi_value pressure_metrics max_hedges_override
  = {| ret := Ret false; rm := self; trades := trades0; orders := [] |}.
Proof.
  intros Hd. unfold execute_zone_recovery. cbv zeta. rewrite Hd. reflexivity.
Qed.

(** An early exit of [execute_zone_recovery], given that the marker
    set at entry is in the pending map ([Hpending]). *)
Ltac leave_exec Hpending :=
  solve [apply exec_rejected; exact Hpending | apply exec_raised; exact Hpending].

Lemma execute_post (env : Env) (self : t) (trades0 : gmap Z TradeMetadata)
    (symbol : string) (positions : list Position) (tick : Tick) (point : Q)
    (strict_entry : bool) (atr_val : option Q) (volatility_ratio : Q)
    (rsi_value : option Q) (pressure_metrics : option PressureMetrics)
    (max_hedges_override : option Z) :
  Qltb (t_entry env - default 0 (_pending_hedges self !! symbol)) 10.0 = false ->
  exec_post env self trades0 symbol positions
    (execute_zone_recovery env self trades0 symbol positions tick point strict_entry
       atr_val volatility_ratio rsi_value pressure_metrics max_hedges_override).
Proof.
  intros Hd. unfold execute_zone_recovery. cbv zeta. rewrite Hd.
  set (self0 := set_pending self (<[symbol := t_mark env]> (_pending_hedges self))).
  assert (H0 : _pending_hedges self0 = <[symbol := t_mark env]> (_pending_hedges self))
    by reflexivity.
  clearbody self0.
  match goal with
  | |- context [if ?c then _ else _] => destruct c
  end; try leave_exec H0.
  pose proof (freshness_gate_pending env self0 tick) as H1.
  destruct (freshness_gate env self0 tick) as [self1 [[|] |]]; simpl in H1;
    rewrite H0 in H1; try leave_exec H1.
  destruct (is_trade_allowed env) as [[|] |]; try leave_exec H1.
  destruct (sorted_by_time positions) as [| first_pos others] eqn:Esorted;
    try leave_exec H1.
  destruct (can_hedge_bucket env (symbol, ticket first_pos)) as [[|] |];
    try leave_exec H1.
  pose proof (validate_pending env self1 symbol positions tick point atr_val
                max_hedges_override) as H2.
  destruct (validate_hedge_conditions env self1 symbol positions tick point atr_val
              max_hedges_override) as [self2 [[| why] |]]; simpl in H2;
    rewrite H1 in H2; try leave_exec H2.
  pose proof (zone_recovery_body_post env self2 trades0 symbol positions first_pos
                tick point strict_entry atr_val volatility_ratio rsi_value
                pressure_metrics) as Hbody.
  rewrite H2 in Hbody.
  destruct (zone_recovery_body env self2 trades0 symbol positions first_pos tick
              point strict_entry atr_val volatility_ratio rsi_value pressure_metrics)
    as [rt rm1 tr1 os1].
  unfold body_post in Hbody. unfold exec_post. simpl in *.
  destruct rt as [[|] |]; simpl.
  - destruct Hbody as [Hquiet | (Hp & Hc & Ht)]; [left; exact Hquiet |].
    right. split; [exact Hp |]. split; [exact Hc |]. exists first_pos, others. auto.
  - destruct Hbody as (Hp & Ht & _). auto.
  - destruct Hbody as (Hp & Ht). rewrite Hp. split; [reflexivity |].
    destruct Ht as [Ht | (Hc & Ht)]; [left; exact Ht |].
    right. split; [exact Hc |]. exists first_pos, others. auto.
Qed.

(** C3 (as amended). A call rejected by the debounce check returns
    [False] and touches nothing.  Past that check, every [False] return
    (gate rejection, veto, sizing refusal, failed order, exception
    caught by the handler) and the [True] return for a zone already
    satisfied leave no pending marker for the symbol; the [True] return
    after a confirmed order keeps the marker set at entry. *)
Theorem pending_marker_after_return (env : Env) (self : t)
    (trades0 : gmap Z TradeMetadata) (symbol : string)
    (positions : list Position) (tick : Tick) (point : Q) (strict_entry : bool)
    (atr_val : option Q) (volatility_ratio : Q) (rsi_value : option Q)
    (pressure_metrics : option PressureMetrics) (max_hedges_override : option Z) :
  let r := execute_zone_recovery env self trades0 symbol positions tick point
             strict_entry atr_val volatility_ratio rsi_value pressure_metrics
             max_hedges_override in
  let last_pending := default 0 (_pending_hedges self !! symbol) in
  (t_entry env - last_pending < 10.0 -> ret r = Ret false /\ rm r = self)
  /\ (10.0 <= t_entry env - last_pending ->
      (ret r = Ret false -> _pending_hedges (rm r) !! symbol = None)
      /\ (ret r = Ret true ->
          (_pending_hedges (rm r) !! symbol = None /\ orders r = [])
          \/ (_pending_hedges (rm r) !! symbol = Some (t_mark env)
              /\ order_confirmed r))).
Proof.
  cbv zeta. split.
  - intros Hlt. apply Qltb_lt in Hlt. rewrite execute_debounced by exact Hlt.
    split; reflexivity.
  - intros Hge. apply Qltb_ge in Hge.
    pose proof (execute_post env self trades0 symbol positions tick point
                  strict_entry atr_val volatility_ratio rsi_value pressure_metrics
                  max_hedges_override Hge) as Hpost.
    unfold exec_post in Hpost. cbv zeta in Hpost.
    split; intros Hret; rewrite Hret in Hpost.
    + destruct Hpost as [Hp _]. rewrite Hp. apply lookup_delete_eq.
    + destruct Hpost as [(Hp & _ & Ho) | (Hp & Hc & _)].
      * left. rewrite Hp. split; [apply lookup_delete_eq | exact Ho].
      * right. rewrite Hp. split; [apply lookup_insert_eq | exact Hc].
Qed.

Lemma execute_trades (env : Env) (self : t) (trades0 : gmap Z TradeMetadata)
    (symbol : string) (positions : list Position) (tick : Tick) (point : Q)
    (strict_entry : bool) (atr_val : option Q) (volatility_ratio : Q)
    (rsi_value : option Q) (pressure_metrics : option PressureMetrics)
    (max_hedges_override : option Z) :
  let r := execute_zone_recovery env self trades0 symbol positions tick point
             strict_entry atr_val volatility_ratio rsi_value pressure_metrics
             max_hedges_override in
  trades r = trades0
  \/ (order_confirmed r
      /\ exists first_pos others,
           sorted_by_time positions = first_pos :: others
           /\ trades r = advanced_trades trades0 positions first_pos).
Proof.
  cbv zeta.
  destruct (Qltb (t_entry env - default 0 (_pending_hedges self !! symbol)) 10.0) eqn:Hd.
  - rewrite execute_debounced by exact Hd. left. reflexivity.
  - pose proof (execute_post env self trades0 symbol positions tick point
                  strict_entry atr_val volatility_ratio rsi_value pressure_metrics
                  max_hedges_override Hd) as Hpost.
    unfold exec_post in Hpost. cbv zeta in Hpost.
    destruct (ret (execute_zone_recovery _ _ _ _ _ _ _ _ _ _ _ _ _)) as [[|] |].
    + destruct Hpost as [(_ & Ht & _) | (_ & Hadv)]; auto.
    + destruct Hpost as (_ & Ht). exact Ht.
    + destruct Hpost as (_ & Ht & _). auto.
Qed.

Lemma advanced_trades_level (trades0 : gmap Z TradeMetadata)
    (positions : list Position) (first_pos : Position) :
  hedge_level_of (advanced_trades trades0 positions first_pos) (ticket first_pos)
  = (resolve_hedge_level (default empty_metadata (trades0 !! ticket first_pos))
       (length positions) + 1)%Z.
Proof.
  unfold hedge_level_of, advanced_trades. rewrite lookup_insert_eq. reflexivity.
Qed.

(** C4 (as amended). [reset_symbol_state] deletes the symbol's entry
    from the per-symbol map and changes nothing else; the entry is back,
    with the default values (last hedge time 0, no active hedges,
    volatility scale 1, high-volatility mode off), at the next reference
    to the symbol. *)
Theorem reset_symbol_state_deletes (self : t) (symbol : string) :
  let self' := reset_symbol_state self symbol in
  _hedge_states self' !! symbol = None
  /\ (forall other, other <> symbol ->
        _hedge_states self' !! other = _hedge_states self !! other)
  /\ self' = set_hedge_states self (delete symbol (_hedge_states self))
  /\ snd (_get_hedge_state self' symbol) = HedgeState_default
  /\ _hedge_states (fst (_get_hedge_state self' symbol)) !! symbol
     = Some HedgeState_default
  /\ last_hedge_time HedgeState_default = 0.0
  /\ active_hedges HedgeState_default = 0%Z
  /\ volatility_scale HedgeState_default = 1.0
  /\ high_vol_mode HedgeState_default = false.
Proof.
  cbv zeta.
  assert (Hgone : _hedge_states (reset_symbol_state self symbol) !! symbol = None).
  { unfold reset_symbol_state. destruct (_hedge_states self !! symbol) eqn:E; simpl.
    - apply lookup_delete_eq.
    - exact E. }
  split; [exact Hgone |].
  split.
  { intros other Hne. unfold reset_symbol_state.
    destruct (_hedge_states self !! symbol); simpl; [| reflexivity].
    apply lookup_delete_ne. congruence. }
  split.
  { unfold reset_symbol_state.
    destruct (_hedge_states self !! symbol) eqn:E; [reflexivity |].
    rewrite delete_id by exact E. destruct self; reflexivity. }
  unfold _get_hedge_state. rewrite Hgone. simpl.
  split; [reflexivity |]. split; [apply lookup_insert_eq |].
  repeat split.
Qed.




(** A run that changed the trade metadata without returning [True]:
    the order was confirmed and recorded, and attaching the new
    position to the bucket raised. *)
Lemma submit_order_late (env : Env) (self : t) (trades0 : gmap Z TradeMetadata)
    (symbol : string) (bucket : BucketId) (first_ticket : Z) (tm : TradeMetadata)
    (hedge_level : Z) (a : action) (target_price hedge_lot : Q)
    (strict_entry : bool) (zone_width_points point : Q) :
  let r := submit_order env self trades0 symbol bucket first_ticket tm hedge_level a
             target_price hedge_lot strict_entry zone_width_points point in
  trades r = trades0
  \/ ret r = Ret true
  \/ (ret r = Raise
      /\ exists request new_ticket,
           orders r = [(request, Ret (Some new_ticket))]
           /\ new_ticket <> 0%Z
           /\ add_position_to_bucket env bucket new_ticket = Raise).
Proof.
  cbv zeta. unfold submit_order.
  destruct (Qeq_bool point 0); [left; reflexivity |]. cbv zeta.
  destruct (execute_order env _) as [[new_ticket |] |]; try (left; reflexivity).
  destruct (Z.eqb new_ticket 0) eqn:Ez; [left; reflexivity |].
  apply Z.eqb_neq in Ez.
  destruct (record_hedge env bucket a hedge_lot target_price); [| left; reflexivity].
  destruct (add_position_to_bucket env bucket new_ticket) eqn:Eadd;
    [right; left; reflexivity |].
  right. right. split; [reflexivity |].
  eexists _, new_ticket. split; [reflexivity |]. split; [exact Ez | exact Eadd].
Qed.

Lemma zone_recovery_body_late (env : Env) (self : t) (trades0 : gmap Z TradeMetadata)
    (symbol : string) (positions : list Position) (first_pos : Position)
    (tick : Tick) (point : Q) (strict_entry : bool) (atr_val : option Q)
    (volatility_ratio : Q) (rsi_value : option Q)
    (pressure_metrics : option PressureMetrics) :
  let r := zone_recovery_body env self trades0 symbol positions first_pos tick point
             strict_entry atr_val volatility_ratio rsi_value pressure_metrics in
  trades r = trades0
  \/ ret r = Ret true
  \/ (ret r = Raise
      /\ exists request new_ticket,
           orders r = [(request, Ret (Some new_ticket))]
           /\ new_ticket <> 0%Z
           /\ add_position_to_bucket env (symbol, ticket first_pos) new_ticket = Raise).
Proof.
  cbv zeta. unfold zone_recovery_body. cbv zeta.
  generalize (fst (_get_hedge_state self symbol)). intros self1.
  match goal with
  | |- context [if negb ?c then _ else _] => destruct c
  end; simpl negb; cbv iota; try (left; reflexivity).
  destruct (calculate_zone_parameters (consts env) positions point atr_val)
    as [[zw tp] |]; try (left; reflexivity).
  destruct (pressure_veto pressure_metrics zw) as [zw' |]; try (left; reflexivity).
  destruct (update_volatility_scale env self1 symbol volatility_ratio) as [self2 scale].
  destruct (zone_levels first_pos _ _ _) as [lower upper].
  destruct (trigger first_pos (length positions) tick lower upper (point * 0.1))
    as [[next_action target_price] |]; try (left; reflexivity).
  destruct (elastic_wait next_action rsi_value); try (left; reflexivity).
  destruct (Z.eqb _ (hedge_type next_action)); try (left; reflexivity).
  destruct (analyze_hedge_decision env positions target_price (drawdown_pct env))
    as [decision |]; try (left; reflexivity).
  destruct (should_hedge decision); simpl negb; cbv iota; try (left; reflexivity).
  match goal with
  | |- context [if Qltb ?x 0.01 then _ else _] => destruct (Qltb x 0.01)
  end; try (left; reflexivity).
  apply submit_order_late.
Qed.

Lemma execute_late_failure (env : Env) (self : t) (trades0 : gmap Z TradeMetadata)
    (symbol : string) (positions : list Position) (tick : Tick) (point : Q)
    (strict_entry : bool) (atr_val : option Q) (volatility_ratio : Q)
    (rsi_value : option Q) (pressure_metrics : option PressureMetrics)
    (max_hedges_override : option Z) :
  let r := execute_zone_recovery env self trades0 symbol positions tick point
             strict_entry atr_val volatility_ratio rsi_value pressure_metrics
             max_hedges_override in
  trades r = trades0
  \/ ret r = Ret true
  \/ (ret r = Ret false
      /\ exists first_pos others request new_ticket,
           sorted_by_time positions = first_pos :: others
           /\ orders r = [(request, Ret (Some new_ticket))]
           /\ new_ticket <> 0%Z
           /\ add_position_to_bucket env (symbol, ticket first_pos) new_ticket = Raise).
Proof.
  cbv zeta. unfold execute_zone_recovery. cbv zeta.
  destruct (Qltb _ 10.0); [left; reflexivity |].
  generalize (set_pending self (<[symbol := t_mark env]> (_pending_hedges self))).
  intros self0.
  match goal with
  | |- context [if ?c then _ else _] => destruct c
  end; [left; reflexivity |].
  destruct (freshness_gate env self0 tick) as [self1 [[|] |]]; try (left; reflexivity).
  destruct (is_trade_allowed env) as [[|] |]; try (left; reflexivity).
  destruct (sorted_by_time positions) as [| first_pos others] eqn:Esorted;
    try (left; reflexivity).
  destruct (can_hedge_bucket env (symbol, ticket first_pos)) as [[|] |];
    try (left; reflexivity).
  destruct (validate_hedge_conditions env self1 symbol positions tick point atr_val
              max_hedges_override) as [self2 [[| why] |]]; try (left; reflexivity).
  pose proof (zone_recovery_body_late env self2 trades0 symbol positions first_pos
                tick point strict_entry atr_val volatility_ratio rsi_value
                pressure_metrics) as Hbody.
  cbv zeta in Hbody.
  destruct (zone_recovery_body env self2 trades0 symbol positions first_pos tick
              point strict_entry atr_val volatility_ratio rsi_value pressure_metrics)
    as [rt rm1 tr1 os1].
  simpl in Hbody.
  destruct Hbody as [Ht | [Hr | (Hr & request & new_ticket & Ho & Hne & Hadd)]].
  - left. destruct rt; exact Ht.
  - right. left. rewrite Hr. reflexivity.
  - right. right. rewrite Hr. simpl. split; [reflexivity |].
    exists first_pos, others, request, new_ticket. auto.
Qed.

End RiskManagerFacts.

(** C3 (as stated) fails: when the order is answered with a ticket the
    call returns [True] with the marker set at entry (time 1000) still
    in place for the symbol. *)
Lemma pending_marker_kept_after_order :
  let r := sample_run (Ret (Some 8%Z)) in
  RiskManager.ret r = Ret true
  /\ RiskManager._pending_hedges (RiskManager.rm r) !! "XAUUSD"%string = Some 1000
  /\ RiskManager._pending_hedges (RiskManager.init sample_config) !! "XAUUSD"%string
     = None.
Proof. vm_compute. repeat split. Qed.

Lemma pending_marker_after_return_witness :
  (RiskManager.ret (sample_run (Ret None)) = Ret false
   /\ RiskManager._pending_hedges (RiskManager.rm (sample_run (Ret None)))
        !! "XAUUSD"%string = None)
  /\ (RiskManager.ret (sample_run (Ret (Some 8%Z))) = Ret true
      /\ RiskManager._pending_hedges (RiskManager.rm (sample_run (Ret (Some 8%Z))))
           !! "XAUUSD"%string = Some 1000)
  /\ (RiskManager.ret sample_rerun = Ret false
      /\ RiskManager.rm sample_rerun = RiskManager.rm (sample_run (Ret (Some 8%Z)))).
Proof.
  assert (Hfailed : RiskManager.ret (sample_run (Ret None)) = Ret false)
    by (vm_compute; reflexivity).
  assert (Hsent : RiskManager.ret (sample_run (Ret (Some 8%Z))) = Ret true)
    by (vm_compute; reflexivity).
  split; [| split].
  - split; [exact Hfailed |].
    destruct (pending_marker_after_return (sample_env (Ret None))
                (RiskManager.init sample_config) ∅ "XAUUSD" [gold_long] gold_tick
                0.01 true (Some 2.0) 1.0 (Some 50)
                (Some {| RiskManager.vpin := 0.1; RiskManager.reynolds_number := 0 |})
                None) as [_ Hpast].
    destruct Hpast as [Hfalse _]; [vm_compute; discriminate |].
    apply Hfalse. exact Hfailed.
  - split; [exact Hsent |].
    destruct (pending_marker_after_return (sample_env (Ret (Some 8%Z)))
                (RiskManager.init sample_config) ∅ "XAUUSD" [gold_long] gold_tick
                0.01 true (Some 2.0) 1.0 (Some 50)
                (Some {| RiskManager.vpin := 0.1; RiskManager.reynolds_number := 0 |})
                None) as [_ Hpast].
    destruct Hpast as [_ Htrue]; [vm_compute; discriminate |].
    destruct (Htrue Hsent) as [[Hcleared _] | [Hkept _]]; [| exact Hkept].
    vm_compute in Hcleared. discriminate.
  - apply (pending_marker_after_return (sample_env (Ret (Some 8%Z)))
             (RiskManager.rm (sample_run (Ret (Some 8%Z))))
             (RiskManager.trades (sample_run (Ret (Some 8%Z))))
             "XAUUSD" [gold_long] gold_tick 0.01 true (Some 2.0) 1.0 (Some 50)
             (Some {| RiskManager.vpin := 0.1; RiskManager.reynolds_number := 0 |})
             None).
    vm_compute. reflexivity.
Defined.

(** C4 (as stated) fails: the entry created by the first reference to
    a symbol is gone after [reset_symbol_state]. *)
Lemma hedge_state_destroyed_by_reset :
  let s1 := fst (RiskManager._get_hedge_state (RiskManager.init sample_config) "EURUSD") in
  RiskManager._hedge_states s1 !! "EURUSD"%string
  = Some RiskManager.HedgeState_default
  /\ RiskManager._hedge_states (RiskManager.reset_symbol_state s1 "EURUSD")
       !! "EURUSD"%string = None.
Proof. vm_compute. split; reflexivity. Qed.


(** ** Mutations need a confirmed broker action *)

Section ConfirmedMutations.
Context {B : Type} `{BadBank.Broker B}.

(** C1 (as amended). [execute_zone_recovery] changes the bucket's
    hedge-level counter (indeed any entry of the trade metadata) only
    when the order it submitted came back with a ticket, and then the
    counter of the bucket is the level the evaluation worked with plus
    one; a debt-reduction pass changes the ledger (pool balance and
    lifetime-repaid included) only when a [close_position] call
    returned success.  After a rejection, a failed or refused broker
    call, or an exception raised before the order was confirmed, these
    fields are what they were.  The advanced level stays in place,
    though, when the call then fails: a run that changed the metadata
    without returning [True] returned [False] after a confirmed order
    whose new position could not be attached to the bucket. *)
Theorem mutations_need_confirmation (env : RiskManager.Env) (self : RiskManager.t)
    (trades0 : gmap Z RiskManager.TradeMetadata) (symbol : string)
    (positions : list Position) (tick : Tick) (point : Q) (strict_entry : bool)
    (atr_val : option Q) (volatility_ratio : Q) (rsi_value : option Q)
    (pressure_metrics : option RiskManager.PressureMetrics)
    (max_hedges_override : option Z) (ledger : BadBank.t) (broker : B) :
  let r := RiskManager.execute_zone_recovery env self trades0 symbol positions tick
             point strict_entry atr_val volatility_ratio rsi_value pressure_metrics
             max_hedges_override in
  let p := fst (BadBank.attempt_debt_reduction ledger broker) in
  (~ RiskManager.order_confirmed r -> RiskManager.trades r = trades0)
  /\ (forall first_ticket,
        RiskManager.hedge_level_of (RiskManager.trades r) first_ticket
        <> RiskManager.hedge_level_of trades0 first_ticket ->
        RiskManager.order_confirmed r
        /\ exists first_pos others,
             RiskManager.sorted_by_time positions = first_pos :: others
             /\ RiskManager.hedge_level_of (RiskManager.trades r) (ticket first_pos)
                = (RiskManager.resolve_hedge_level
                     (default RiskManager.empty_metadata
                        (trades0 !! ticket first_pos))
                     (length positions) + 1)%Z)
  /\ ((forall tk v, ~ In (BadBank.EvClose tk v (Ret true)) (BadBank.trace p)) ->
      BadBank.bank p = ledger)
  /\ (BadBank.tithe_balance (BadBank.bank p) <> BadBank.tithe_balance ledger
      \/ BadBank.total_debt_repaid (BadBank.bank p) <> BadBank.total_debt_repaid ledger ->
      BadBank.ret p = Ret true
      /\ exists tk, In (BadBank.EvClose tk BadBank.NIBBLE_SIZE (Ret true))
                      (BadBank.trace p))
  /\ (RiskManager.ret r = Raise -> RiskManager.trades r = trades0)
  /\ (RiskManager.trades r <> trades0 -> RiskManager.ret r <> Ret true ->
      RiskManager.ret r = Ret false
      /\ exists first_pos others request new_ticket,
           RiskManager.sorted_by_time positions = first_pos :: others
           /\ RiskManager.orders r = [(request, Ret (Some new_ticket))]
           /\ new_ticket <> 0%Z
           /\ RiskManager.add_position_to_bucket env (symbol, ticket first_pos)
                new_ticket = Raise).
Proof.
  cbv zeta.
  pose proof (execute_trades env self trades0 symbol positions tick point strict_entry
                atr_val volatility_ratio rsi_value pressure_metrics
                max_hedges_override) as Htr.
  pose proof (execute_late_failure env self trades0 symbol positions tick point
                strict_entry atr_val volatility_ratio rsi_value pressure_metrics
                max_hedges_override) as Hlate.
  cbv zeta in Htr, Hlate.
  unfold BadBank.attempt_debt_reduction.
  destruct (reduction_loop_shape (BadBank.toxic_assets ledger) ledger broker [])
    as (new & Htrace & Hshape).
  rewrite Htrace. simpl.
  split; [intros Hno; destruct Htr as [Ht | [Hc _]]; [exact Ht | contradiction] |].
  split.
  { intros first_ticket Hneq.
    destruct Htr as [Ht | (Hc & first_pos & others & Hsorted & Hadv)].
    - rewrite Ht in Hneq. contradiction.
    - split; [exact Hc |]. exists first_pos, others. split; [exact Hsorted |].
      rewrite Hadv. apply advanced_trades_level. }
  assert (Hrun :
    (RiskManager.ret
       (RiskManager.execute_zone_recovery env self trades0 symbol positions tick
          point strict_entry atr_val volatility_ratio rsi_value pressure_metrics
          max_hedges_override) = Raise ->
     RiskManager.trades
       (RiskManager.execute_zone_recovery env self trades0 symbol positions tick
          point strict_entry atr_val volatility_ratio rsi_value pressure_metrics
          max_hedges_override) = trades0)
    /\ (RiskManager.trades
          (RiskManager.execute_zone_recovery env self trades0 symbol positions tick
             point strict_entry atr_val volatility_ratio rsi_value pressure_metrics
             max_hedges_override) <> trades0 ->
        RiskManager.ret
          (RiskManager.execute_zone_recovery env self trades0 symbol positions tick
             point strict_entry atr_val volatility_ratio rsi_value pressure_metrics
             max_hedges_override) <> Ret true ->
        RiskManager.ret
          (RiskManager.execute_zone_recovery env self trades0 symbol positions tick
             point strict_entry atr_val volatility_ratio rsi_value pressure_metrics
             max_hedges_override) = Ret false
        /\ exists first_pos others request new_ticket,
             RiskManager.sorted_by_time positions = first_pos :: others
             /\ RiskManager.orders
                  (RiskManager.execute_zone_recovery env self trades0 symbol positions
                     tick point strict_entry atr_val volatility_ratio rsi_value
                     pressure_metrics max_hedges_override)
                = [(request, Ret (Some new_ticket))]
             /\ new_ticket <> 0%Z
             /\ RiskManager.add_position_to_bucket env (symbol, ticket first_pos)
                  new_ticket = Raise)).
  { split.
    - intros Hraise. destruct Hlate as [Ht | [Hr | (Hr & _)]];
        [exact Ht | congruence | congruence].
    - intros Hchanged Hnot. destruct Hlate as [Ht | [Hr | Hfail]];
        [contradiction | contradiction | exact Hfail]. }
  destruct Hrun as (Hraise & Hfail).
  destruct Hshape as [(Hq & Hret & Hbank) | (pre & tk & c & -> & Hq & Hret & _)].
  - split; [intros _; exact Hbank |].
    split; [| split; [exact Hraise | exact Hfail]].
    rewrite Hbank. intros [Hneq | Hneq]; contradiction.
  - split.
    + intros Hno. exfalso. apply (Hno tk BadBank.NIBBLE_SIZE).
      apply in_or_app. right. left. reflexivity.
    + split; [| split; [exact Hraise | exact Hfail]].
      intros _. split; [exact Hret |]. exists tk.
      apply in_or_app. right. left. reflexivity.
Qed.

End ConfirmedMutations.

(** C1 (as stated) fails: the order is confirmed with ticket 8, the
    hedge is recorded and the level of bucket 7 goes from 0 to 1; then
    attaching the position to the bucket raises, the handler returns
    [False], and the level stays at 1. *)
Lemma hedge_level_kept_after_late_failure :
  RiskManager.ret late_failure_run = Ret false
  /\ RiskManager.hedge_level_of (∅ : gmap Z RiskManager.TradeMetadata) 7 = 0%Z
  /\ RiskManager.hedge_level_of (RiskManager.trades late_failure_run) 7 = 1%Z.
Proof. vm_compute. repeat split. Qed.

Lemma mutations_need_confirmation_witness :
  RiskManager.trades (sample_run (Ret None)) = ∅
  /\ RiskManager.order_confirmed (sample_run (Ret (Some 8%Z)))
  /\ BadBank.bank (fst (BadBank.attempt_debt_reduction sample_bank refusing_broker))
     = sample_bank
  /\ BadBank.ret (fst (BadBank.attempt_debt_reduction sample_bank accepting_broker))
     = Ret true
  /\ (RiskManager.ret late_failure_run = Ret false
      /\ exists request,
           RiskManager.orders late_failure_run = [(request, Ret (Some 8%Z))]).
Proof.
  split; [| split; [| split; [| split]]].
  - destruct (mutations_need_confirmation (sample_env (Ret None))
                (RiskManager.init sample_config) ∅ "XAUUSD" [gold_long] gold_tick
                0.01 true (Some 2.0) 1.0 (Some 50)
                (Some {| RiskManager.vpin := 0.1; RiskManager.reynolds_number := 0 |})
                None sample_bank refusing_broker) as (Htrades & _).
    apply Htrades. intros (request & new_ticket & Horders & _).
    vm_compute in Horders. discriminate.
  - destruct (mutations_need_confirmation (sample_env (Ret (Some 8%Z)))
                (RiskManager.init sample_config) ∅ "XAUUSD" [gold_long] gold_tick
                0.01 true (Some 2.0) 1.0 (Some 50)
                (Some {| RiskManager.vpin := 0.1; RiskManager.reynolds_number := 0 |})
                None sample_bank refusing_broker) as (_ & Hlevel & _).
    destruct (Hlevel 7%Z) as [Hconfirmed _]; [| exact Hconfirmed].
    vm_compute. discriminate.
  - destruct (mutations_need_confirmation (sample_env (Ret None))
                (RiskManager.init sample_config) ∅ "XAUUSD" [gold_long] gold_tick
                0.01 true (Some 2.0) 1.0 (Some 50)
                (Some {| RiskManager.vpin := 0.1; RiskManager.reynolds_number := 0 |})
                None sample_bank refusing_broker) as (_ & _ & Hbank & _).
    apply Hbank. intros tk v Hin. vm_compute in Hin.
    destruct Hin as [Hin | [Hin | []]]; discriminate.
  - destruct (mutations_need_confirmation (sample_env (Ret None))
                (RiskManager.init sample_config) ∅ "XAUUSD" [gold_long] gold_tick
                0.01 true (Some 2.0) 1.0 (Some 50)
                (Some {| RiskManager.vpin := 0.1; RiskManager.reynolds_number := 0 |})
                None sample_bank accepting_broker) as (_ & _ & _ & Hchanged & _).
    destruct Hchanged as [Hret _]; [| exact Hret].
    left. vm_compute. discriminate.
  - destruct (mutations_need_confirmation late_failure_env
                (RiskManager.init sample_config) ∅ "XAUUSD" [gold_long] gold_tick
                0.01 true (Some 2.0) 1.0 (Some 50)
                (Some {| RiskManager.vpin := 0.1; RiskManager.reynolds_number := 0 |})
                None sample_bank accepting_broker) as (_ & _ & _ & _ & _ & Hlate).
    destruct Hlate as (Hret & first_pos & others & request & new_ticket
                       & _ & Horders & _ & _).
    + intros Hsame.
      assert (Hlookup : RiskManager.trades late_failure_run !! 7%Z = None)
        by (unfold late_failure_run; rewrite Hsame; reflexivity).
      vm_compute in Hlookup. discriminate.
    + vm_compute. discriminate.
    + split; [exact Hret |]. exists request.
      assert (Hticket : new_ticket = 8%Z).
      { assert (Ho := Horders). vm_compute in Ho. congruence. }
      rewrite <- Hticket. exact Horders.
Defined.

Lemma tithe_balance_never_negative_witness :
  0 <= BadBank.tithe_balance
         (fst (BadBank.run (sample_ops ++ [BadBank.OpReduce]) accepting_broker))
  /\ BadBank.deposit_tithe sample_bank (-1) "EURUSD" = (sample_bank, 0)
  /\ snd (BadBank.deposit_tithe sample_bank 3 "EURUSD") = 3
  /\ 1.00 <= BadBank.tithe_balance sample_bank.
Proof.
  destruct (tithe_balance_never_negative (sample_ops ++ [BadBank.OpReduce])
              accepting_broker) as (Hinv & Hreject & Haccept & Hdeduct).
  split; [exact Hinv |].
  split; [apply Hreject; vm_compute; discriminate |].
  split; [apply Haccept; vm_compute; reflexivity |].
  apply (Hdeduct sample_bank accepting_broker 1.00).
  vm_compute. right. right. left. reflexivity.
Defined.

Lemma debt_reduction_single_nibble_witness :
  BadBank.ret (fst (BadBank.attempt_debt_reduction sample_bank accepting_broker))
  = Ret true.
Proof.
  destruct (debt_reduction_single_nibble sample_bank accepting_broker)
    as (_ & _ & _ & Hlast).
  destruct (Hlast 7%Z 0.01) as (_ & Hret & _); [| exact Hret].
  vm_compute. right. left. reflexivity.
Defined.

Lemma register_toxic_asset_idempotent_witness :
  BadBank.register_toxic_asset sample_bank "XAUUSD_7" [] 2000 = sample_bank
  /\ BadBank.assets_count (BadBank.register_toxic_asset sample_bank "XAUUSD_7" [] 2000)
     = BadBank.assets_count sample_bank.
Proof.
  apply (register_toxic_asset_idempotent sample_bank "XAUUSD_7" [] 2000).
  vm_compute. reflexivity.
Defined.

Lemma reset_symbol_state_deletes_witness :
  let s1 := fst (RiskManager._get_hedge_state
                   (fst (RiskManager._get_hedge_state
                           (RiskManager.init sample_config) "EURUSD")) "XAUUSD") in
  RiskManager._hedge_states (RiskManager.reset_symbol_state s1 "EURUSD")
    !! "XAUUSD"%string
  = RiskManager._hedge_states s1 !! "XAUUSD"%string
  /\ RiskManager._hedge_states (RiskManager.reset_symbol_state s1 "EURUSD")
       !! "EURUSD"%string = None.
Proof.
  cbv zeta.
  destruct (reset_symbol_state_deletes
              (fst (RiskManager._get_hedge_state
                      (fst (RiskManager._get_hedge_state
                              (RiskManager.init sample_config) "EURUSD")) "XAUUSD"))
              "EURUSD") as (Hgone & Hothers & _).
  split; [apply Hothers; discriminate | exact Hgone].
Defined.

(** ** Scenarios *)

(** Pool balance 3, estimated loss of the nibble 5: the pass closes
    nothing, returns [False] and leaves the balance at 3. *)
Example debt_reduction_unaffordable :
  let far_quote :=
    {| BadBank.quote := Some {| bid := 1995; ask := 1995.2; spread := 0.2;
                                tick_time := 1000; tick_age_s := None |};
       BadBank.answers := [Ret true] |} in
  let p := fst (BadBank.attempt_debt_reduction sample_bank far_quote) in
  BadBank.required_tithe gold_long
    {| bid := 1995; ask := 1995.2; spread := 0.2; tick_time := 1000;
       tick_age_s := None |} == 5
  /\ BadBank.ret p = Ret false
  /\ BadBank.trace p = [BadBank.EvTick "XAUUSD"]
  /\ BadBank.bank p = sample_bank
  /\ BadBank.tithe_balance (BadBank.bank p) = 3.
Proof. vm_compute. repeat split. Qed.

(** One BUY aged 10 s, ATR 2.0, bid 3 below the open, RSI 50, VPIN 0.1:
    the gate passes and a SELL is submitted at the bid. *)
Example zone_recovery_sell_trigger :
  let r := sample_run (Ret (Some 8%Z)) in
  RiskManager.ret r = Ret true
  /\ map (fun o => (RiskManager.o_order_type (fst o), RiskManager.o_price (fst o)))
       (RiskManager.orders r) = [(RiskManager.SELL, 1997)]
  /\ RiskManager.hedge_level_of (RiskManager.trades r) 7 = 1%Z.
Proof. vm_compute. repeat split. Qed.

(** A SELL anchor, the ask above the upper boundary, RSI 25: the BUY
    is deferred by the elastic defence, no order is sent and the
    pending marker is cleared. *)
Example zone_recovery_elastic_defence :
  let gold_short :=
    {| ticket := 9; symbol := "XAUUSD"; type := 1; volume := 0.10;
       price_open := 2000; time := 990 |} in
  let r :=
    RiskManager.execute_zone_recovery (sample_env (Ret (Some 8%Z)))
      (RiskManager.init sample_config) ∅ "XAUUSD" [gold_short]
      {| bid := 2003; ask := 2003.2; spread := 0.2; tick_time := 1000;
         tick_age_s := None |}
      0.01 true (Some 2.0) 1.0 (Some 25)
      (Some {| RiskManager.vpin := 0.1; RiskManager.reynolds_number := 0 |}) None in
  RiskManager.ret r = Ret false
  /\ RiskManager.orders r = []
  /\ RiskManager._pending_hedges (RiskManager.rm r) !! "XAUUSD"%string = None
  /\ RiskManager.elastic_wait RiskManager.BUY (Some 25) = true.
Proof. vm_compute. repeat split. Qed.

(** * Further properties *)

(** ** The ledger: books, queries and progress (src/core/bad_bank.py) *)

Section LedgerBooks.
Import BadBank BadBankView.
Context {B : Type} `{Broker B}.

Lemma required_tithe_nonneg (loser : Position) (tick : Tick) :
  0 <= required_tithe loser tick.
Proof.
  unfold required_tithe.
  match goal with |- context [if Qle_bool 0 ?e then _ else _] => destruct (Qle_bool 0 e) end.
  - lra.
  - apply Qabs_nonneg.
Qed.

Lemma reduction_loop_books (items : list (string * ToxicAsset)) :
  forall (self : BadBank.t) (broker : B) (tr : list event),
  books_balance self ->
  books_balance (bank (fst (reduction_loop self items broker tr))).
Proof.
  induction items as [| [bid asset_data] rest IH]; intros self broker tr Hb; simpl.
  - exact Hb.
  - destruct (find_loser (positions asset_data)) as [loser |]; [| apply IH, Hb].
    destruct (get_last_tick broker (symbol loser)) as [b1 [[tick |] |]];
      [| apply IH, Hb | exact Hb].
    destruct (Qle_bool (required_tithe loser tick) (tithe_balance self)) eqn:Eaff;
      [| apply IH, Hb].
    destruct (close_position b1 (ticket loser) NIBBLE_SIZE "CHRONOS_NIBBLE")
      as [b2 [[|] |]]; simpl; [| apply IH, Hb | exact Hb].
    apply Qle_bool_iff in Eaff.
    pose proof (required_tithe_nonneg loser tick) as Hreq.
    destruct Hb as (Hsum & Hbal & Hrep). unfold books_balance. simpl.
    repeat split; lra.
Qed.

Lemma step_books (st : BadBank.t * B) (o : op) :
  books_balance (fst st) -> books_balance (fst (step st o)).
Proof.
  destruct st as [self broker]. destruct o as [bid ps now | amount src |]; simpl.
  - unfold register_toxic_asset. destruct (registered bid (toxic_assets self)); auto.
  - unfold deposit_tithe. destruct (Qle_bool amount 0) eqn:E; simpl; [auto |].
    apply Qle_bool_gt in E. intros (Hsum & Hbal & Hrep).
    unfold books_balance. simpl. repeat split; lra.
  - intros Hb. unfold attempt_debt_reduction.
    pose proof (reduction_loop_books (toxic_assets self) self broker [] Hb) as Hb'.
    destruct (reduction_loop self (toxic_assets self) broker []) as [p b]. exact Hb'.
Qed.

Lemma run_books (ops : list op) (st : BadBank.t * B) :
  books_balance (fst st) -> books_balance (fst (fold_left step ops st)).
Proof.
  revert st. induction ops as [| o ops IH]; intros st Hb; simpl.
  - exact Hb.
  - apply IH, step_books, Hb.
Qed.

(** X1. In every ledger reached from the empty one by registrations,
    deposits and debt-reduction passes, against any broker, the stats
    satisfy pool + repaid = collected, with the pool and the repaid
    total non-negative (so never more repaid than collected). *)
Theorem ledger_books_balance (ops : list op) (broker : B) :
  let s := get_stats (fst (run ops broker)) in
  tithe_pool s + total_debt_repaid s == total_collected s
  /\ 0 <= tithe_pool s
  /\ 0 <= total_debt_repaid s
  /\ total_debt_repaid s <= total_collected s.
Proof.
  cbv zeta. unfold get_stats. simpl.
  destruct (run_books ops (init, broker)) as (Hsum & Hbal & Hrep).
  - unfold books_balance. simpl. repeat split; lra.
  - fold (run ops broker) in *. repeat split; try assumption. lra.
Qed.

Lemma find_loser_none (ps : list Position) :
  Forall (fun p => volume p < 0.01) ps -> find_loser ps = None.
Proof.
  induction 1 as [| p ps Hp _ IH]; simpl; [reflexivity |].
  apply Qle_bool_gt in Hp. rewrite Hp. exact IH.
Qed.

Lemma reduction_loop_idle (items : list (string * ToxicAsset))
    (self : BadBank.t) (broker : B) (tr : list event) :
  Forall (fun kv => Forall (fun p => volume p < 0.01) (positions (snd kv))) items ->
  reduction_loop self items broker tr
  = ({| ret := Ret false; bank := self; trace := tr |}, broker).
Proof.
  induction 1 as [| [bid a] rest Ha _ IH]; simpl; [reflexivity |].
  simpl in Ha. rewrite (find_loser_none _ Ha). exact IH.
Qed.

(** X3. When no position of any bucket holds at least 0.01 lots (an
    empty ledger included) a debt-reduction pass calls the broker not
    once, returns [False] and leaves ledger and broker as they were. *)
Theorem nothing_to_nibble_no_broker_call (self : BadBank.t) (broker : B) :
  nothing_to_nibble self ->
  attempt_debt_reduction self broker
  = ({| ret := Ret false; bank := self; trace := [] |}, broker).
Proof. intros Hn. apply reduction_loop_idle. exact Hn. Qed.

Lemma round2_upper (x : Q) : round2 x <= x + 0.005.
Proof.
  unfold round2.
  pose proof (Qfloor_le (x * 100)) as Hfl.
  set (f := Qfloor (x * 100)) in *.
  assert (Hk : forall k : Z, inject_Z k <= x * 100 + 0.5 -> inject_Z k / 100 <= x + 0.005).
  { intros k Hle. apply Qle_shift_div_r; lra. }
  apply Hk.
  destruct (Qltb (x * 100 - inject_Z f) 0.5) eqn:E1; [lra |].
  apply Qltb_ge in E1.
  assert (Hup : inject_Z (f + 1) <= x * 100 + 0.5).
  { rewrite inject_Z_plus. change (inject_Z 1) with 1. lra. }
  destruct (Qltb 0.5 (x * 100 - inject_Z f)); [exact Hup |].
  destruct (Z.even f); [lra | exact Hup].
Qed.

Lemma sum_volume_cons (p : Position) (ps : list Position) :
  sumQ (map volume (p :: ps)) == volume p + sumQ (map volume ps).
Proof. simpl map. apply sumQ_cons. Qed.

Lemma nibble_positions_progress (ps : list Position) (loser : Position) :
  find_loser ps = Some loser ->
  sumQ (map volume (nibble_positions ps)) <= sumQ (map volume ps) - 0.005.
Proof.
  induction ps as [| p ps IH]; simpl find_loser; [discriminate |].
  simpl nibble_positions.
  destruct (Qle_bool 0.01 (volume p)) eqn:Ev.
  - intros _. apply Qle_bool_iff in Ev. rewrite sum_volume_cons.
    pose proof (round2_upper (volume p - NIBBLE_SIZE)) as Hr. unfold NIBBLE_SIZE in *.
    destruct (Qltb (round2 (volume p - 0.01)) 0.01).
    + lra.
    + rewrite sum_volume_cons. simpl volume. lra.
  - intros Hl. rewrite !sum_volume_cons. specialize (IH Hl). lra.
Qed.

Lemma assets_volume_cons (k : string) (a : ToxicAsset)
    (rest : list (string * ToxicAsset)) :
  assets_volume ((k, a) :: rest) == bucket_volume a + assets_volume rest.
Proof. unfold assets_volume. simpl map. apply sumQ_cons. Qed.

Lemma settle_bucket_progress (bid : string) (a : ToxicAsset) (loser : Position)
    (assets : list (string * ToxicAsset)) :
  NoDup (map fst assets) -> In (bid, a) assets ->
  find_loser (positions a) = Some loser ->
  assets_volume (settle_bucket bid assets) <= assets_volume assets - 0.005.
Proof.
  intros Hnd Hin Hl. induction assets as [| [k a'] rest IH]; [destruct Hin |].
  simpl settle_bucket. inversion Hnd as [| ? ? Hnotin Hnd']; subst.
  rewrite (assets_volume_cons k a' rest).
  destruct (String.eqb bid k) eqn:Ek.
  - apply String.eqb_eq in Ek. subst k.
    assert (a' = a) as ->.
    { destruct Hin as [Heq | Hin]; [congruence |].
      exfalso. apply Hnotin. apply list_elem_of_In, in_map_iff. exists (bid, a). auto. }
    pose proof (nibble_positions_progress _ _ Hl) as Hn.
    fold (bucket_volume a) in Hn.
    destruct (nibble_positions (positions a)) as [| p ps'].
    + change (sumQ (map volume [])) with 0 in Hn. lra.
    + rewrite assets_volume_cons.
      change (bucket_volume _) with (sumQ (map volume (p :: ps'))) at 1. lra.
  - destruct Hin as [Heq | Hin].
    + apply String.eqb_neq in Ek. congruence.
    + rewrite assets_volume_cons. specialize (IH Hnd' Hin). lra.
Qed.

Lemma reduction_loop_progress (items : list (string * ToxicAsset)) :
  forall (self : BadBank.t) (broker : B) (tr : list event),
  NoDup (bucket_ids self) ->
  (forall kv, In kv items -> In kv (toxic_assets self)) ->
  ret (fst (reduction_loop self items broker tr)) = Ret true ->
  tracked_volume (bank (fst (reduction_loop self items broker tr)))
  <= tracked_volume self - 0.005.
Proof.
  induction items as [| [bid asset_data] rest IH]; intros self broker tr Hnd Hsub; simpl.
  - discriminate.
  - assert (Hrest : forall kv, In kv rest -> In kv (toxic_assets self))
      by (intros kv Hkv; apply Hsub; right; exact Hkv).
    destruct (find_loser (positions asset_data)) as [loser |] eqn:El;
      [| apply IH; assumption].
    destruct (get_last_tick broker (symbol loser)) as [b1 [[tick |] |]];
      [| apply IH; assumption | simpl; discriminate].
    destruct (Qle_bool (required_tithe loser tick) (tithe_balance self));
      [| apply IH; assumption].
    destruct (close_position b1 (ticket loser) NIBBLE_SIZE "CHRONOS_NIBBLE")
      as [b2 [[|] |]]; simpl; [| apply IH; assumption | discriminate].
    intros _. unfold tracked_volume. simpl toxic_assets.
    eapply settle_bucket_progress; [exact Hnd | apply Hsub; left; reflexivity | exact El].
Qed.

Lemma settle_bucket_length (bid : string) (assets : list (string * ToxicAsset)) :
  (length (settle_bucket bid assets) <= length assets)%nat.
Proof.
  induction assets as [| [k a] rest IH]; simpl; [lia |].
  destruct (String.eqb bid k).
  - destruct (nibble_positions (positions a)); simpl; lia.
  - simpl. lia.
Qed.

Lemma reduction_loop_count (items : list (string * ToxicAsset)) :
  forall (self : BadBank.t) (broker : B) (tr : list event),
  (length (toxic_assets (bank (fst (reduction_loop self items broker tr))))
   <= length (toxic_assets self))%nat.
Proof.
  induction items as [| [bid asset_data] rest IH]; intros self broker tr; simpl.
  - lia.
  - destruct (find_loser (positions asset_data)) as [loser |]; [| apply IH].
    destruct (get_last_tick broker (symbol loser)) as [b1 [[tick |] |]];
      [| apply IH | simpl; lia].
    destruct (Qle_bool (required_tithe loser tick) (tithe_balance self)); [| apply IH].
    destruct (close_position b1 (ticket loser) NIBBLE_SIZE "CHRONOS_NIBBLE")
      as [b2 [[|] |]]; simpl; [| apply IH | lia].
    apply settle_bucket_length.
Qed.

Lemma settle_bucket_ids (bid : string) (assets : list (string * ToxicAsset)) :
  forall k, In k (map fst (settle_bucket bid assets)) -> In k (map fst assets).
Proof.
  induction assets as [| [k0 a] rest IH]; intros k; simpl; [auto |].
  destruct (String.eqb bid k0).
  - destruct (nibble_positions (positions a)); simpl; auto.
  - simpl. intros [Hk | Hk]; auto.
Qed.

Lemma settle_bucket_nodup (bid : string) (assets : list (string * ToxicAsset)) :
  NoDup (map fst assets) -> NoDup (map fst (settle_bucket bid assets)).
Proof.
  induction assets as [| [k0 a] rest IH]; simpl; [auto |].
  intros Hnd. inversion Hnd as [| ? ? Hnotin Hnd']; subst.
  destruct (String.eqb bid k0).
  - destruct (nibble_positions (positions a)); simpl; [exact Hnd' |].
    constructor; assumption.
  - simpl. constructor; [| apply IH; exact Hnd'].
    intros Hin. apply Hnotin. apply list_elem_of_In.
    apply settle_bucket_ids with (bid := bid). apply list_elem_of_In. exact Hin.
Qed.

Lemma reduction_loop_nodup (items : list (string * ToxicAsset)) :
  forall (self : BadBank.t) (broker : B) (tr : list event),
  NoDup (bucket_ids self) ->
  NoDup (bucket_ids (bank (fst (reduction_loop self items broker tr)))).
Proof.
  induction items as [| [bid asset_data] rest IH]; intros self broker tr Hnd; simpl.
  - exact Hnd.
  - destruct (find_loser (positions asset_data)) as [loser |]; [| apply IH, Hnd].
    destruct (get_last_tick broker (symbol loser)) as [b1 [[tick |] |]];
      [| apply IH, Hnd | exact Hnd].
    destruct (Qle_bool (required_tithe loser tick) (tithe_balance self));
      [| apply IH, Hnd].
    destruct (close_position b1 (ticket loser) NIBBLE_SIZE "CHRONOS_NIBBLE")
      as [b2 [[|] |]]; simpl; [| apply IH, Hnd | exact Hnd].
    apply settle_bucket_nodup. exact Hnd.
Qed.

Lemma registered_false_notin (bid : string) (assets : list (string * ToxicAsset)) :
  registered bid assets = false -> ~ In bid (map fst assets).
Proof.
  unfold registered. intros Hf Hin. apply in_map_iff in Hin.
  destruct Hin as (kv & Heq & Hkv).
  assert (Ht : existsb (fun kv => String.eqb bid (fst kv)) assets = true).
  { apply existsb_exists. exists kv. split; [exact Hkv |].
    apply String.eqb_eq. congruence. }
  congruence.
Qed.

Lemma run_bucket_ids_nodup (ops : list op) (st : BadBank.t * B) :
  NoDup (bucket_ids (fst st)) ->
  NoDup (bucket_ids (fst (fold_left step ops st))).
Proof.
  revert st. induction ops as [| o ops IH]; intros [self broker] Hnd; simpl;
    [exact Hnd |].
  apply IH. destruct o as [bid ps now | amount src |]; simpl.
  - unfold register_toxic_asset.
    destruct (registered bid (toxic_assets self)) eqn:Er; [exact Hnd |].
    unfold bucket_ids. simpl. rewrite map_app. simpl.
    apply NoDup_app. split; [exact Hnd |]. split; [| apply NoDup_singleton].
    intros k Hk Hk'. apply list_elem_of_In in Hk'. destruct Hk' as [<- | []].
    apply (registered_false_notin _ _ Er). apply list_elem_of_In. exact Hk.
  - unfold deposit_tithe. destruct (Qle_bool amount 0); exact Hnd.
  - unfold attempt_debt_reduction.
    pose proof (reduction_loop_nodup (toxic_assets self) self broker [] Hnd) as Hnd'.
    destruct (reduction_loop self (toxic_assets self) broker []) as [p b]. exact Hnd'.
Qed.

(** X5. In a ledger reached from the empty one, a pass that returns
    [True] lowers the volume the ledger tracks by at least 0.005 lots
    (the nibble of 0.01 up to rounding to hundredths), and no pass adds
    a bucket. *)
Theorem successful_pass_reduces_tracked_volume (ops : list op) (b0 broker : B) :
  let self := fst (run ops b0) in
  let p := fst (attempt_debt_reduction self broker) in
  (ret p = Ret true -> tracked_volume (bank p) <= tracked_volume self - 0.005)
  /\ (assets_count (get_stats (bank p)) <= assets_count (get_stats self))%nat.
Proof.
  cbv zeta. unfold attempt_debt_reduction. split.
  - apply reduction_loop_progress; [| auto].
    apply (run_bucket_ids_nodup ops (init, b0)). constructor.
  - apply reduction_loop_count.
Qed.

End LedgerBooks.

Section LedgerQueries.
Import BadBank BadBankView.

Lemma is_toxic_spec (self : BadBank.t) (tk : Z) :
  is_toxic self tk = true
  <-> exists kv p, In kv (toxic_assets self) /\ In p (positions (snd kv)) /\ ticket p = tk.
Proof.
  unfold is_toxic. rewrite existsb_exists. split.
  - intros (kv & Hkv & Hp). apply existsb_exists in Hp.
    destruct Hp as (p & Hp & Heq). apply Z.eqb_eq in Heq. eauto.
  - intros (kv & p & Hkv & Hp & Heq). exists kv. split; [exact Hkv |].
    apply existsb_exists. exists p. split; [exact Hp | apply Z.eqb_eq; exact Heq].
Qed.

(** X2. Registering a bucket id the ledger does not hold adds one
    asset; afterwards a ticket is toxic exactly when it was toxic
    before or belongs to one of the registered positions; the pool is
    untouched and the tracked volume grows by the positions' volume. *)
Theorem register_then_toxic (self : BadBank.t) (bid : string)
    (ps : list Position) (now : Q) :
  registered bid (toxic_assets self) = false ->
  let self' := register_toxic_asset self bid ps now in
  assets_count (get_stats self') = S (assets_count (get_stats self))
  /\ registered bid (toxic_assets self') = true
  /\ (forall tk, is_toxic self' tk = true
                 <-> is_toxic self tk = true \/ In tk (map ticket ps))
  /\ tithe_pool (get_stats self') = tithe_pool (get_stats self)
  /\ tracked_volume self' == tracked_volume self + sumQ (map volume ps).
Proof.
  intros Hfresh. cbv zeta. unfold register_toxic_asset. rewrite Hfresh.
  unfold get_stats, tracked_volume, assets_volume. simpl.
  split; [rewrite length_app; simpl; lia |].
  split.
  { unfold registered. rewrite existsb_app. simpl. rewrite String.eqb_refl.
    apply orb_true_iff. right. reflexivity. }
  split.
  { intros tk. rewrite !is_toxic_spec. simpl. split.
    - intros (kv & p & Hkv & Hp & Heq). apply in_app_or in Hkv.
      destruct Hkv as [Hkv | [<- | []]].
      + left. eauto.
      + right. simpl in Hp. apply in_map_iff. eauto.
    - intros [(kv & p & Hkv & Hp & Heq) | Hin].
      + exists kv, p. split; [apply in_or_app; left; exact Hkv | auto].
      + apply in_map_iff in Hin. destruct Hin as (p & Heq & Hp).
        eexists (bid, _), p. split; [apply in_or_app; right; left; reflexivity |].
        simpl. auto. }
  split; [reflexivity |].
  rewrite map_app, sumQ_app.
  assert (Hone : forall x, sumQ [x] == x) by (intros x; unfold sumQ; simpl; lra).
  simpl map. rewrite Hone. reflexivity.
Qed.

Lemma contract_size_cases (loser : Position) :
  (if contains "XAU" (symbol loser) then 100 else 100000) = 100
  \/ (if contains "XAU" (symbol loser) then 100 else 100000) = 100000.
Proof. destruct (contains "XAU" (symbol loser)); auto. Qed.

(** X4. The tithe required for a nibble is never negative; it is 0
    when the closing price (bid for a BUY, ask otherwise) is not worse
    than the open price, and otherwise the loss of 0.01 lots at the
    contract size (100 for XAU symbols, 100000 otherwise). *)
Theorem required_tithe_only_for_losses (loser : Position) (tick : Tick) :
  let close_price := if Z.eqb (type loser) 0 then bid tick else ask tick in
  let gain := if Z.eqb (type loser) 0
              then close_price - price_open loser
              else price_open loser - close_price in
  let contract_size : Q := if contains "XAU" (symbol loser) then 100 else 100000 in
  0 <= required_tithe loser tick
  /\ (0 <= gain -> required_tithe loser tick = 0)
  /\ (gain < 0 -> required_tithe loser tick == - gain * 0.01 * contract_size).
Proof.
  cbv zeta. unfold required_tithe, NIBBLE_SIZE.
  set (gain := if Z.eqb (type loser) 0
               then (if Z.eqb (type loser) 0 then bid tick else ask tick)
                    - price_open loser
               else price_open loser
                    - (if Z.eqb (type loser) 0 then bid tick else ask tick)).
  destruct (contract_size_cases loser) as [-> | ->].
  - destruct (Qle_bool 0 (gain * 0.01 * 100)) eqn:E.
    + apply Qle_bool_iff in E. split; [lra |]. split; [reflexivity | intros; lra].
    + apply Qle_bool_gt in E. split; [apply Qabs_nonneg |].
      split; [intros; lra |]. intros _. rewrite Qabs_neg by lra. lra.
  - destruct (Qle_bool 0 (gain * 0.01 * 100000)) eqn:E.
    + apply Qle_bool_iff in E. split; [lra |]. split; [reflexivity | intros; lra].
    + apply Qle_bool_gt in E. split; [apply Qabs_nonneg |].
      split; [intros; lra |]. intros _. rewrite Qabs_neg by lra. lra.
Qed.

End LedgerQueries.

Lemma register_then_toxic_witness :
  BadBank.registered "EURUSD_9" (BadBank.toxic_assets dust_bank) = false
  /\ BadBankView.assets_count
       (BadBankView.get_stats
          (BadBank.register_toxic_asset dust_bank "EURUSD_9" [gold_long] 1001))
     = 2%nat
  /\ BadBankView.is_toxic
       (BadBank.register_toxic_asset dust_bank "EURUSD_9" [gold_long] 1001) 7 = true.
Proof.
  assert (Hfresh : BadBank.registered "EURUSD_9" (BadBank.toxic_assets dust_bank) = false)
    by (vm_compute; reflexivity).
  split; [exact Hfresh |].
  destruct (register_then_toxic dust_bank "EURUSD_9" [gold_long] 1001 Hfresh)
    as (Hcount & _ & Htoxic & _).
  split; [exact Hcount |].
  apply Htoxic. right. left. reflexivity.
Defined.

Lemma nothing_to_nibble_no_broker_call_witness :
  BadBankView.nothing_to_nibble dust_bank
  /\ BadBank.attempt_debt_reduction dust_bank accepting_broker
     = ({| BadBank.ret := Ret false; BadBank.bank := dust_bank;
           BadBank.trace := [] |}, accepting_broker).
Proof.
  assert (Hdust : BadBankView.nothing_to_nibble dust_bank).
  { repeat constructor. }
  split; [exact Hdust |].
  apply (nothing_to_nibble_no_broker_call dust_bank accepting_broker Hdust).
Defined.

Lemma required_tithe_only_for_losses_witness :
  BadBank.required_tithe gold_long (quote_at 2001 2001.2) = 0
  /\ BadBank.required_tithe gold_long (quote_at 1995 1995.2) == 5.
Proof.
  split.
  - destruct (required_tithe_only_for_losses gold_long (quote_at 2001 2001.2))
      as (_ & Hfree & _).
    apply Hfree. vm_compute. discriminate.
  - destruct (required_tithe_only_for_losses gold_long (quote_at 1995 1995.2))
      as (_ & _ & Hloss).
    rewrite Hloss; [vm_compute; reflexivity | vm_compute; reflexivity].
Defined.

Lemma successful_pass_reduces_tracked_volume_witness :
  BadBankView.tracked_volume
    (BadBank.bank (fst (BadBank.attempt_debt_reduction sample_bank accepting_broker)))
  <= BadBankView.tracked_volume sample_bank - 0.005.
Proof.
  destruct (successful_pass_reduces_tracked_volume sample_ops accepting_broker
              accepting_broker) as [Hless _].
  apply Hless. vm_compute. reflexivity.
Defined.

(** ** Order-flow buffers (src/ai_core/tick_pressure.py) *)

Section OrderFlowBuffers.
Import TickPressure.

Lemma deque_append_length (d : list Q) (x : Q) :
  (length d <= 100)%nat -> (length (deque_append d x) <= 100)%nat.
Proof.
  intros Hd. unfold deque_append.
  destruct (Nat.ltb 100 (length (d ++ [x]))) eqn:E.
  - rewrite length_tl, length_app. simpl. lia.
  - apply Nat.ltb_ge in E. exact E.
Qed.


Lemma classify_capacity (self : t) (last_price b a volume mid prev : Q) :
  (length (buy_volume_buffer self) <= 100)%nat ->
  (length (sell_volume_buffer self) <= 100)%nat ->
  (length (buy_volume_buffer (fst (classify self last_price b a volume mid prev)))
   <= 100)%nat
  /\ (length (sell_volume_buffer (fst (classify self last_price b a volume mid prev)))
      <= 100)%nat.
Proof.
  intros Hb Hs. unfold classify.
  repeat match goal with
         | |- context [if ?c then _ else _] => destruct c
         end; simpl; split; auto using deque_append_length.
Qed.

Lemma order_flow_body_buffers (self : t) (tick : TickDict) :
  (exists lp b a v m p, 
      buy_volume_buffer (fst (order_flow_body self tick))
      = buy_volume_buffer (fst (classify
           match _prev_mid self with Some _ => self | None => set_prev_mid self m end
           lp b a v m p))
      /\ sell_volume_buffer (fst (order_flow_body self tick))
      = sell_volume_buffer (fst (classify
           match _prev_mid self with Some _ => self | None => set_prev_mid self m end
           lp b a v m p))
      /\ default (Num 1) (k_volume tick) = Num v)
  \/ (buy_volume_buffer (fst (order_flow_body self tick)) = buy_volume_buffer self
      /\ sell_volume_buffer (fst (order_flow_body self tick)) = sell_volume_buffer self
      /\ snd (order_flow_body self tick) = Raise).
Proof.
  unfold order_flow_body.
  destruct (default (Num 1) (k_volume tick)) as [volume |]; [| right; auto].
  destruct (default (Num 0) (k_bid tick)) as [b |]; [| right; auto].
  destruct (default (Num 0) (k_ask tick)) as [a |]; [| right; auto].
  destruct (match k_last tick with
            | Some v => v
            | None => Num b
            end) as [lp |];
    [| right; destruct (_prev_mid self); auto].
  left.
  match goal with
  | |- context [classify ?s ?l ?x ?y ?v ?m ?q] =>
      exists l, x, y, v, m, q;
      destruct (classify s l x y v m q) as [self1 side] eqn:Ecl
  end.
  match goal with
  | |- context [if ?c then _ else _] => destruct c
  end; simpl; auto.
Qed.

Lemma analyze_capacity (self : t) (tick : option TickDict) :
  (length (buy_volume_buffer self) <= 100)%nat ->
  (length (sell_volume_buffer self) <= 100)%nat ->
  (length (buy_volume_buffer (fst (analyze_order_flow self tick))) <= 100)%nat
  /\ (length (sell_volume_buffer (fst (analyze_order_flow self tick))) <= 100)%nat.
Proof.
  intros Hb Hs. unfold analyze_order_flow. destruct tick as [tick |]; [| auto].
  assert (Hbody : (length (buy_volume_buffer (fst (order_flow_body self tick))) <= 100)%nat
                  /\ (length (sell_volume_buffer (fst (order_flow_body self tick)))
                      <= 100)%nat).
  { destruct (order_flow_body_buffers self tick)
      as [(lp & b & a & v & m & p & -> & -> & _) | (-> & -> & _)]; [| auto].
    apply classify_capacity; destruct (_prev_mid self); assumption. }
  destruct (order_flow_body self tick) as [self' [r |]]; exact Hbody.
Qed.

(** X6. Starting from a fresh analyzer, whatever ticks are analysed,
    neither volume buffer ever holds more than 100 samples. *)
Theorem buffers_within_capacity (engine : option (Q -> Z -> bool))
    (ticks : list (option TickDict)) :
  (length (buy_volume_buffer (feed (init engine) ticks)) <= 100)%nat
  /\ (length (sell_volume_buffer (feed (init engine) ticks)) <= 100)%nat.
Proof.
  unfold feed.
  assert (Hgen : forall a,
            (length (buy_volume_buffer a) <= 100)%nat ->
            (length (sell_volume_buffer a) <= 100)%nat ->
            (length (buy_volume_buffer
                       (fold_left (fun a tk => fst (analyze_order_flow a tk)) ticks a))
             <= 100)%nat
            /\ (length (sell_volume_buffer
                          (fold_left (fun a tk => fst (analyze_order_flow a tk)) ticks a))
                <= 100)%nat).
  { induction ticks as [| tk ticks IH]; intros a Hb Hs; simpl; [auto |].
    destruct (analyze_capacity a tk Hb Hs) as [Hb' Hs']. apply IH; assumption. }
  apply Hgen; simpl; lia.
Qed.




(** X7. [calculate_vpin] is never negative, and it is at most 1 when
    the buffers hold non-negative volumes only. *)
Theorem vpin_bounded (self : t) :
  0 <= calculate_vpin self
  /\ (buffers_nonneg self -> calculate_vpin self <= 1).
Proof.
  unfold calculate_vpin.
  set (b := sumQ (buy_volume_buffer self)). set (s := sumQ (sell_volume_buffer self)).
  destruct (Qle_bool (b + s) 0) eqn:Et; [split; intros; lra |].
  apply Qle_bool_gt in Et.
  destruct (Nat.ltb _ 15); [split; intros; lra |].
  split.
  - apply Qle_shift_div_l; [exact Et |]. pose proof (Qabs_nonneg (b - s)). lra.
  - intros [Hb Hs]. apply sumQ_nonneg in Hb. apply sumQ_nonneg in Hs.
    fold b in Hb. fold s in Hs.
    apply Qle_shift_div_r; [exact Et |].
    apply Qabs_Qle_condition. split; lra.
Qed.

End OrderFlowBuffers.

(** ** The tick window (src/ai_core/tick_pressure.py) *)

Section TickWindowFacts.
Import TickWindow.

Lemma cleanup_split (w now : Q) (l : list (Q * Q)) :
  exists dropped,
    l = dropped ++ _cleanup w now l
    /\ Forall (fun x => w < now - snd x) dropped.
Proof.
  induction l as [| [p t0] rest IH]; simpl.
  - exists []. split; [reflexivity | constructor].
  - destruct (Qltb w (now - t0)) eqn:E.
    + destruct IH as (dropped & Heq & Hold).
      exists ((p, t0) :: dropped). split.
      * simpl. f_equal. exact Heq.
      * constructor; [apply Qltb_lt; exact E | exact Hold].
    + exists []. split; [reflexivity | constructor].
Qed.

Lemma cleanup_head_fresh (w now : Q) (l : list (Q * Q)) (x : Q * Q)
    (rest : list (Q * Q)) :
  _cleanup w now l = x :: rest -> now - snd x <= w.
Proof.
  induction l as [| [p t0] l IH]; simpl; [discriminate |].
  destruct (Qltb w (now - t0)) eqn:E; [exact IH |].
  intros [= <- <-]. apply Qltb_ge. exact E.
Qed.

Lemma time_ordered_tail (x : Q * Q) (l : list (Q * Q)) :
  time_ordered (x :: l) -> time_ordered l.
Proof. destruct l; simpl; tauto. Qed.

Lemma time_ordered_suffix (l1 l2 : list (Q * Q)) :
  time_ordered (l1 ++ l2) -> time_ordered l2.
Proof.
  induction l1 as [| x l1 IH]; [auto |].
  intros Ho. apply IH. apply time_ordered_tail with (x := x). exact Ho.
Qed.

Lemma time_ordered_head_oldest (x : Q * Q) (l : list (Q * Q)) :
  time_ordered (x :: l) -> Forall (fun y => snd x <= snd y) (x :: l).
Proof.
  revert x. induction l as [| y l IH]; intros x Ho.
  - constructor; [lra | constructor].
  - destruct Ho as [Hxy Ho]. specialize (IH y Ho).
    constructor; [lra |].
    eapply Forall_impl; [exact IH |]. simpl. intros z Hz. lra.
Qed.

Lemma time_ordered_snoc (l : list (Q * Q)) (x : Q * Q) :
  time_ordered l -> Forall (fun y => snd y <= snd x) l -> time_ordered (l ++ [x]).
Proof.
  induction l as [| a l IH]; intros Ho Hle; [exact I |].
  inversion Hle as [| ? ? Ha Hl]; subst.
  destruct l as [| b l].
  - simpl. split; [exact Ha | exact I].
  - destruct Ho as [Hab Ho]. split; [exact Hab |]. apply IH; assumption.
Qed.

(** X9. A tick with a positive bid enters the window at the current
    time and the window is then pruned from the old end: given samples
    in time order, none of them later than the clock, the samples kept
    are a suffix of the old window plus the new sample, still in time
    order, all within [window_seconds] of the clock, and every sample
    dropped was older than that.  A falsy tick, or one whose bid is
    absent or not positive, changes nothing; a bid that is not a number
    raises. *)
Theorem add_tick_keeps_window (self : t) (tick : TickPressure.TickDict)
    (price now : Q) :
  add_tick self None now = Ret self
  /\ (TickPressure.k_bid tick = None -> add_tick self (Some tick) now = Ret self)
  /\ (TickPressure.k_bid tick = Some TickPressure.NotNum ->
      add_tick self (Some tick) now = Raise)
  /\ (TickPressure.k_bid tick = Some (TickPressure.Num price) -> price <= 0 ->
      add_tick self (Some tick) now = Ret self)
  /\ (TickPressure.k_bid tick = Some (TickPressure.Num price) -> 0 < price ->
      time_ordered (ticks self) ->
      Forall (fun x => snd x <= now) (ticks self) ->
      exists self' dropped,
        add_tick self (Some tick) now = Ret self'
        /\ window_seconds self' = window_seconds self
        /\ ticks self ++ [(price, now)] = dropped ++ ticks self'
        /\ Forall (fun x => window_seconds self < now - snd x) dropped
        /\ time_ordered (ticks self')
        /\ Forall (fun x => now - snd x <= window_seconds self /\ snd x <= now)
             (ticks self')).
Proof.
  unfold add_tick.
  split; [reflexivity |].
  split; [intros ->; reflexivity |].
  split; [intros ->; reflexivity |].
  split.
  { intros -> Hle. simpl. apply Qltb_ge in Hle. rewrite Hle. reflexivity. }
  intros -> Hpos Ho Hpast. simpl. apply Qltb_lt in Hpos. rewrite Hpos.
  destruct (cleanup_split (window_seconds self) now (ticks self ++ [(price, now)]))
    as (dropped & Hsplit & Hold).
  eexists _, dropped. split; [reflexivity |]. simpl.
  split; [reflexivity |]. split; [exact Hsplit |]. split; [exact Hold |].
  assert (Hall : time_ordered (ticks self ++ [(price, now)])).
  { apply time_ordered_snoc; assumption. }
  assert (Hpast' : Forall (fun x => snd x <= now) (ticks self ++ [(price, now)])).
  { apply Forall_app. split; [exact Hpast |]. constructor; [simpl; lra | constructor]. }
  rewrite Hsplit in Hall, Hpast'. apply time_ordered_suffix in Hall.
  apply Forall_app in Hpast'. destruct Hpast' as [_ Hpast'].
  split; [exact Hall |].
  destruct (_cleanup (window_seconds self) now (ticks self ++ [(price, now)]))
    as [| x kept] eqn:Ek; [constructor |].
  pose proof (cleanup_head_fresh _ _ _ _ _ Ek) as Hfresh.
  pose proof (time_ordered_head_oldest x kept Hall) as Holdest.
  apply Forall_forall. intros y Hy.
  rewrite Forall_forall in Holdest, Hpast'.
  specialize (Holdest y Hy). specialize (Hpast' y Hy). split; lra.
Qed.

Lemma count_positive (n : nat) : (5 <= n)%nat -> 5 <= inject_Z (Z.of_nat n).
Proof.
  intros Hn. change 5 with (inject_Z 5). rewrite <- Zle_Qle. lia.
Qed.

Lemma floored_duration_positive (d : Q) : 0 < (if Qle_bool d 0 then 0.001 else d).
Proof.
  destruct (Qle_bool d 0) eqn:E; [lra | apply Qle_bool_gt; exact E].
Qed.

Lemma velocity_positive (n : nat) (d : Q) :
  (5 <= n)%nat -> 0 < d -> 0 < inject_Z (Z.of_nat n) / d.
Proof.
  intros Hn Hd. apply Qlt_shift_div_l; [exact Hd |].
  pose proof (count_positive n Hn). lra.
Qed.

(** X10. With fewer than 5 samples [get_pressure_metrics] reports
    INSUFFICIENT_DATA with zero score and velocity.  Otherwise the
    velocity is positive, the dominance is BUY exactly when the score
    is above 15 and SELL exactly when it is below -15, an absorption
    fight is reported only with a score within [-15, 15] and a velocity
    above 10, and for a positive point value the score has the sign of
    the price change over the window.  A zero point value raises. *)
Theorem pressure_metrics_classification (self : t) (point_value : Q) :
  ((length (ticks self) < 5)%nat ->
   get_pressure_metrics self point_value
   = Ret {| pressure_score := 0.0; m_intensity := I_LOW; m_dominance := D_NEUTRAL;
            m_state := INSUFFICIENT_DATA; velocity := 0.0 |})
  /\ ((5 <= length (ticks self))%nat -> point_value == 0 ->
      get_pressure_metrics self point_value = Raise)
  /\ ((5 <= length (ticks self))%nat -> ~ point_value == 0 ->
      exists m,
        get_pressure_metrics self point_value = Ret m
        /\ 0 < velocity m
        /\ (m_dominance m = D_BUY <-> 15.0 < pressure_score m)
        /\ (m_dominance m = D_SELL <-> pressure_score m < -15.0)
        /\ (m_state m = ABSORPTION_FIGHT ->
            10.0 < velocity m /\ -15.0 <= pressure_score m <= 15.0)
        /\ (m_state m = INSUFFICIENT_DATA -> False)
        /\ (0 < point_value ->
            (0 < pressure_score m <-> fst (first_tick self) < fst (last_tick self)))).
Proof.
  unfold get_pressure_metrics.
  destruct (Nat.ltb (length (ticks self)) 5) eqn:En.
  - apply Nat.ltb_lt in En. split; [reflexivity |]. split; intros; lia.
  - apply Nat.ltb_ge in En. split; [intros; lia |].
    split.
    { intros _ Hz. apply Qeq_bool_iff in Hz. rewrite Hz. reflexivity. }
    intros _ Hnz.
    destruct (Qeq_bool point_value 0) eqn:Ez;
      [apply Qeq_bool_iff in Ez; contradiction |].
    set (d := if Qle_bool (snd (last_tick self) - snd (first_tick self)) 0
              then 0.001 else snd (last_tick self) - snd (first_tick self)).
    assert (Hd : 0 < d) by apply floored_duration_positive.
    set (v := inject_Z (Z.of_nat (length (ticks self))) / d).
    assert (Hv : 0 < v) by (apply velocity_positive; assumption).
    set (chg := fst (last_tick self) - fst (first_tick self)).
    set (dp := chg / point_value).
    assert (Hdp : chg == dp * point_value) by (unfold dp; field; exact Hnz).
    assert (Hsign : 0 < point_value -> (0 < dp * v <-> fst (first_tick self) < fst (last_tick self))).
    { intros Hpv. split.
      - intros Hs. assert (0 < dp) by nra. assert (0 < chg) by nra. unfold chg in *. lra.
      - intros Hlt. assert (0 < chg) by (unfold chg; lra). assert (0 < dp) by nra. nra. }
    clearbody v dp.
    destruct (Qltb 50.0 (dp * v)) eqn:E1.
    { apply Qltb_lt in E1. eexists. split; [reflexivity |]. simpl.
      repeat split; try assumption; try discriminate; try lra; intros; try lra; auto. }
    apply Qltb_ge in E1.
    destruct (Qltb 15.0 (dp * v)) eqn:E2.
    { apply Qltb_lt in E2. eexists. split; [reflexivity |]. simpl.
      repeat split; try assumption; try discriminate; try lra; intros; try lra; auto. }
    apply Qltb_ge in E2.
    destruct (Qltb (dp * v) (-50.0)) eqn:E3.
    { apply Qltb_lt in E3. eexists. split; [reflexivity |]. simpl.
      repeat split; try assumption; try discriminate; try lra; intros; try lra; auto. }
    apply Qltb_ge in E3.
    destruct (Qltb (dp * v) (-15.0)) eqn:E4.
    { apply Qltb_lt in E4. eexists. split; [reflexivity |]. simpl.
      repeat split; try assumption; try discriminate; try lra; intros; try lra; auto. }
    apply Qltb_ge in E4.
    destruct (Qltb 10.0 v && Qltb (Qabs dp) 2.0) eqn:E5.
    { apply andb_true_iff in E5. destruct E5 as [E5 _]. apply Qltb_lt in E5.
      eexists. split; [reflexivity |]. simpl.
      repeat split; try assumption; try discriminate; try lra; intros; try lra; auto. }
    destruct (Qltb v 1.0) eqn:E6.
    { eexists. split; [reflexivity |]. simpl.
      repeat split; try assumption; try discriminate; try lra; intros; try lra; auto. }
    eexists. split; [reflexivity |]. simpl.
    repeat split; try assumption; try discriminate; try lra; intros; try lra; auto.
Qed.

(** X11. With at least five samples [calculate_reaction_rate] agrees
    with the velocity of [get_pressure_metrics] when the window spans a
    positive duration; when the duration is not positive the reaction
    rate is 0 while the velocity is the tick count over the 1 ms
    floor.  With fewer than five samples the velocity is 0, whereas the
    reaction rate is already the count over a positive duration from
    two samples on (and 0 below two, or without a positive duration). *)
Theorem reaction_rate_versus_velocity (self : t) (point_value : Q) (m : Metrics) :
  get_pressure_metrics self point_value = Ret m ->
  let duration := snd (last_tick self) - snd (first_tick self) in
  let tick_count := inject_Z (Z.of_nat (length (ticks self))) in
  ((5 <= length (ticks self))%nat ->
   (0 < duration ->
    calculate_reaction_rate self = velocity m
    /\ velocity m = tick_count / duration)
   /\ (duration <= 0 ->
       calculate_reaction_rate self = 0.0
       /\ velocity m = tick_count / 0.001))
  /\ ((length (ticks self) < 5)%nat ->
      velocity m = 0.0
      /\ ((2 <= length (ticks self))%nat -> 0 < duration ->
          calculate_reaction_rate self = tick_count / duration)
      /\ ((length (ticks self) < 2)%nat \/ duration <= 0 ->
          calculate_reaction_rate self = 0.0)).
Proof.
  cbv zeta. unfold get_pressure_metrics, calculate_reaction_rate. intros Hm. split.
  - intros Hn. revert Hm.
    assert (E5 : Nat.ltb (length (ticks self)) 5 = false) by (apply Nat.ltb_ge; lia).
    assert (E2 : Nat.ltb (length (ticks self)) 2 = false) by (apply Nat.ltb_ge; lia).
    rewrite E5, E2.
    destruct (Qeq_bool point_value 0); [discriminate |].
    destruct (Qle_bool (snd (last_tick self) - snd (first_tick self)) 0) eqn:Ed.
    + apply Qle_bool_iff in Ed.
      repeat match goal with
             | |- context [if ?c then _ else _] => destruct c
             end; intros [= <-]; simpl; (split; [intros; lra | auto]).
    + apply Qle_bool_gt in Ed.
      repeat match goal with
             | |- context [if ?c then _ else _] => destruct c
             end; intros [= <-]; simpl; (split; [auto | intros; lra]).
  - intros Hn.
    assert (E5 : Nat.ltb (length (ticks self)) 5 = true) by (apply Nat.ltb_lt; lia).
    rewrite E5 in Hm. injection Hm as <-. simpl.
    split; [reflexivity |]. split.
    + intros H2 Hd.
      assert (E2 : Nat.ltb (length (ticks self)) 2 = false) by (apply Nat.ltb_ge; lia).
      rewrite E2.
      destruct (Qle_bool (snd (last_tick self) - snd (first_tick self)) 0) eqn:Ed;
        [apply Qle_bool_iff in Ed; lra | reflexivity].
    + intros [H2 | Hd].
      * assert (E2 : Nat.ltb (length (ticks self)) 2 = true) by (apply Nat.ltb_lt; lia).
        rewrite E2. reflexivity.
      * destruct (Nat.ltb (length (ticks self)) 2); [reflexivity |].
        apply Qle_bool_iff in Hd. rewrite Hd. reflexivity.
Qed.

End TickWindowFacts.

Lemma vpin_bounded_witness :
  TickPressure.buffers_nonneg fifteen_samples
  /\ 0 <= TickPressure.calculate_vpin fifteen_samples
  /\ TickPressure.calculate_vpin fifteen_samples <= 1.
Proof.
  assert (Hn : TickPressure.buffers_nonneg fifteen_samples).
  { split; vm_compute; repeat constructor; discriminate. }
  destruct (vpin_bounded fifteen_samples) as [Hlow Hhigh].
  split; [exact Hn |]. split; [exact Hlow | exact (Hhigh Hn)].
Defined.


Lemma add_tick_keeps_window_witness :
  (exists self' dropped,
     TickWindow.add_tick short_window (Some (quote_tick 2002)) 1000 = Ret self'
     /\ TickWindow.ticks short_window ++ [(2002, 1000)]
        = dropped ++ TickWindow.ticks self'
     /\ Forall (fun x => 5 < 1000 - snd x) dropped)
  /\ TickWindow.add_tick short_window
       (Some {| TickPressure.k_last := Some (TickPressure.Num 2002);
                TickPressure.k_bid := None;
                TickPressure.k_ask := Some (TickPressure.Num 2002.2);
                TickPressure.k_volume := None |}) 1000 = Ret short_window
  /\ TickWindow.add_tick short_window (Some (quote_tick (-1))) 1000
     = Ret short_window.
Proof.
  split; [| split].
  - destruct (add_tick_keeps_window short_window (quote_tick 2002) 2002 1000)
      as (_ & _ & _ & _ & Hadd).
    destruct Hadd as (self' & dropped & Hret & _ & Hsplit & Hold & _).
    + reflexivity.
    + vm_compute. reflexivity.
    + simpl. split; [vm_compute; discriminate | exact I].
    + repeat constructor; vm_compute; discriminate.
    + exists self', dropped. split; [exact Hret |]. split; [exact Hsplit | exact Hold].
  - destruct (add_tick_keeps_window short_window
                {| TickPressure.k_last := Some (TickPressure.Num 2002);
                   TickPressure.k_bid := None;
                   TickPressure.k_ask := Some (TickPressure.Num 2002.2);
                   TickPressure.k_volume := None |} 0 1000)
      as (_ & Habsent & _).
    apply Habsent. reflexivity.
  - destruct (add_tick_keeps_window short_window (quote_tick (-1)) (-1) 1000)
      as (_ & _ & _ & Hlow & _).
    apply Hlow; [reflexivity | vm_compute; discriminate].
Defined.

Lemma pressure_metrics_classification_witness :
  (exists m, TickWindow.get_pressure_metrics (busy_window 1) 0.01 = Ret m
             /\ TickWindow.m_dominance m = TickWindow.D_BUY)
  /\ TickWindow.get_pressure_metrics (busy_window 1) 0 = Raise
  /\ (exists m, TickWindow.get_pressure_metrics short_window 0.01 = Ret m
                /\ TickWindow.m_state m = TickWindow.INSUFFICIENT_DATA).
Proof.
  split; [| split].
  - destruct (pressure_metrics_classification (busy_window 1) 0.01)
      as (_ & _ & Hfull).
    destruct Hfull as (m & Hret & _ & Hbuy & _);
      [vm_compute; lia | vm_compute; discriminate |].
    exists m. split; [exact Hret |]. apply Hbuy.
    assert (Hm : Ret m = TickWindow.get_pressure_metrics (busy_window 1) 0.01)
      by (symmetry; exact Hret).
    vm_compute in Hm. injection Hm as ->. vm_compute. reflexivity.
  - destruct (pressure_metrics_classification (busy_window 1) 0) as (_ & Hraise & _).
    apply Hraise; [vm_compute; lia | reflexivity].
  - destruct (pressure_metrics_classification short_window 0.01) as (Hfew & _).
    eexists. split; [apply Hfew; vm_compute; lia | reflexivity].
Defined.

Lemma reaction_rate_versus_velocity_witness :
  (TickWindow.calculate_reaction_rate (busy_window 0) = 0.0
   /\ exists m, TickWindow.get_pressure_metrics (busy_window 0) 0.01 = Ret m
                /\ TickWindow.velocity m = inject_Z 5 / 0.001)
  /\ (TickWindow.calculate_reaction_rate short_window = inject_Z 2 / (996 - 990)
      /\ exists m, TickWindow.get_pressure_metrics short_window 0.01 = Ret m
                   /\ TickWindow.velocity m = 0.0).
Proof.
  split.
  - destruct (TickWindow.get_pressure_metrics (busy_window 0) 0.01) as [m |] eqn:Hret;
      [| vm_compute in Hret; discriminate].
    destruct (reaction_rate_versus_velocity (busy_window 0) 0.01 m Hret)
      as [Hfull _].
    destruct Hfull as [_ Hflat]; [vm_compute; lia |].
    destruct Hflat as [Hrate Hvel]; [vm_compute; discriminate |].
    split; [exact Hrate |]. exists m. split; [reflexivity | exact Hvel].
  - destruct (TickWindow.get_pressure_metrics short_window 0.01) as [m |] eqn:Hret;
      [| vm_compute in Hret; discriminate].
    destruct (reaction_rate_versus_velocity short_window 0.01 m Hret)
      as [_ Hfew].
    destruct Hfew as (Hvel & Hrate & _); [vm_compute; lia |].
    split; [| exists m; split; [reflexivity | exact Hvel]].
    apply Hrate; [vm_compute; lia | vm_compute; reflexivity].
Defined.

(** ** Pivots, liquidity map and entry veto (src/ai_core/liquidity_mapper.py) *)

Section LiquidityMapFacts.
Import LiquidityMapper LiquidityMap.

Lemma fold_max_spec (rest : list Q) :
  forall x,
    let m := fold_left (fun acc y => if Qltb acc y then y else acc) rest x in
    x <= m /\ Forall (fun y => y <= m) rest /\ In m (x :: rest).
Proof.
  induction rest as [| y rest IH]; intros x; simpl.
  - split; [lra |]. split; [constructor | auto].
  - destruct (Qltb x y) eqn:E.
    + apply Qltb_lt in E. destruct (IH y) as (H1 & H2 & H3).
      split; [lra |]. split; [constructor; assumption |]. simpl in H3. tauto.
    + apply Qltb_ge in E. destruct (IH x) as (H1 & H2 & H3).
      split; [exact H1 |]. split; [constructor; [lra | exact H2] |].
      simpl in H3. tauto.
Qed.

Lemma fold_min_spec (rest : list Q) :
  forall x,
    let m := fold_left (fun acc y => if Qltb y acc then y else acc) rest x in
    m <= x /\ Forall (fun y => m <= y) rest /\ In m (x :: rest).
Proof.
  induction rest as [| y rest IH]; intros x; simpl.
  - split; [lra |]. split; [constructor | auto].
  - destruct (Qltb y x) eqn:E.
    + apply Qltb_lt in E. destruct (IH y) as (H1 & H2 & H3).
      split; [lra |]. split; [constructor; assumption |]. simpl in H3. tauto.
    + apply Qltb_ge in E. destruct (IH x) as (H1 & H2 & H3).
      split; [exact H1 |]. split; [constructor; [lra | exact H2] |].
      simpl in H3. tauto.
Qed.

Lemma np_max_spec (w : list Q) :
  w <> [] -> Forall (fun y => y <= np_max w) w /\ In (np_max w) w.
Proof.
  destruct w as [| x rest]; [congruence |]. intros _. unfold np_max.
  destruct (fold_max_spec rest x) as (H1 & H2 & H3).
  split; [constructor; assumption | exact H3].
Qed.

Lemma np_min_spec (w : list Q) :
  w <> [] -> Forall (fun y => np_min w <= y) w /\ In (np_min w) w.
Proof.
  destruct w as [| x rest]; [congruence |]. intros _. unfold np_min.
  destruct (fold_min_spec rest x) as (H1 & H2 & H3).
  split; [constructor; assumption | exact H3].
Qed.

(** The window around [i] holds exactly the entries at distance at most
    [lookback] from [i]. *)
Lemma window_elem (arr : list Q) (i lookback : nat) (y : Q) :
  (lookback <= i)%nat ->
  In y (window arr i lookback)
  <-> exists j, (i - lookback <= j <= i + lookback)%nat /\ arr !! j = Some y.
Proof.
  intros Hi. unfold window. rewrite <- list_elem_of_In, list_elem_of_lookup. split.
  - intros (k & Hk). apply lookup_take_Some in Hk. destruct Hk as [Hk Hlt].
    rewrite lookup_drop in Hk. exists (i - lookback + k)%nat. split; [lia | exact Hk].
  - intros (j & Hj & Hy). exists (j - (i - lookback))%nat.
    apply lookup_take_Some. split; [| lia].
    rewrite lookup_drop. replace (i - lookback + (j - (i - lookback)))%nat with j by lia.
    exact Hy.
Qed.

Lemma window_centre (arr : list Q) (i lookback : nat) :
  (lookback <= i)%nat -> (i < length arr)%nat ->
  In (nth i arr 0) (window arr i lookback).
Proof.
  intros Hi Hlen. apply window_elem; [exact Hi |]. exists i. split; [lia |].
  destruct (nth_lookup_or_length arr i 0) as [Hs | Hge]; [exact Hs | lia].
Qed.

Lemma window_dominated (arr : list Q) (i lookback : nat) (v : Q) :
  (lookback <= i)%nat ->
  Forall (fun y => y <= v) (window arr i lookback)
  <-> (forall j, (i - lookback <= j <= i + lookback)%nat -> (j < length arr)%nat ->
       nth j arr 0 <= v).
Proof.
  intros Hi. rewrite List.Forall_forall. split.
  - intros Hall j Hj Hlen. apply Hall. apply window_elem; [exact Hi |].
    exists j. split; [exact Hj |].
    destruct (nth_lookup_or_length arr j 0) as [Hs | Hge]; [exact Hs | lia].
  - intros Hall y Hy. apply window_elem in Hy; [| exact Hi].
    destruct Hy as (j & Hj & Hs).
    rewrite <- (nth_lookup_Some arr j 0 y Hs). apply Hall; [exact Hj |].
    apply lookup_lt_is_Some. eauto.
Qed.

Lemma window_dominating (arr : list Q) (i lookback : nat) (v : Q) :
  (lookback <= i)%nat ->
  Forall (fun y => v <= y) (window arr i lookback)
  <-> (forall j, (i - lookback <= j <= i + lookback)%nat -> (j < length arr)%nat ->
       v <= nth j arr 0).
Proof.
  intros Hi. rewrite List.Forall_forall. split.
  - intros Hall j Hj Hlen. apply Hall. apply window_elem; [exact Hi |].
    exists j. split; [exact Hj |].
    destruct (nth_lookup_or_length arr j 0) as [Hs | Hge]; [exact Hs | lia].
  - intros Hall y Hy. apply window_elem in Hy; [| exact Hi].
    destruct Hy as (j & Hj & Hs).
    rewrite <- (nth_lookup_Some arr j 0 y Hs). apply Hall; [exact Hj |].
    apply lookup_lt_is_Some. eauto.
Qed.

(** The test for a high pivot holds exactly when the entry dominates
    its window. *)
Lemma high_test (arr : list Q) (i lookback : nat) :
  (lookback <= i)%nat -> (i < length arr)%nat ->
  Qeq_bool (nth i arr 0) (np_max (window arr i lookback)) = true
  <-> (forall j, (i - lookback <= j <= i + lookback)%nat -> (j < length arr)%nat ->
       nth j arr 0 <= nth i arr 0).
Proof.
  intros Hi Hlen. pose proof (window_centre arr i lookback Hi Hlen) as Hc.
  assert (Hne : window arr i lookback <> []) by (intros E; rewrite E in Hc; destruct Hc).
  destruct (np_max_spec _ Hne) as [Hall Hin].
  rewrite <- window_dominated by exact Hi. rewrite Qeq_bool_iff. split.
  - intros Heq. eapply List.Forall_impl; [| exact Hall]. simpl. intros y Hy. lra.
  - intros Hdom. rewrite List.Forall_forall in Hall, Hdom.
    specialize (Hall _ Hc). specialize (Hdom _ Hin). lra.
Qed.

Lemma low_test (arr : list Q) (i lookback : nat) :
  (lookback <= i)%nat -> (i < length arr)%nat ->
  Qeq_bool (nth i arr 0) (np_min (window arr i lookback)) = true
  <-> (forall j, (i - lookback <= j <= i + lookback)%nat -> (j < length arr)%nat ->
       nth i arr 0 <= nth j arr 0).
Proof.
  intros Hi Hlen. pose proof (window_centre arr i lookback Hi Hlen) as Hc.
  assert (Hne : window arr i lookback <> []) by (intros E; rewrite E in Hc; destruct Hc).
  destruct (np_min_spec _ Hne) as [Hall Hin].
  rewrite <- window_dominating by exact Hi. rewrite Qeq_bool_iff. split.
  - intros Heq. eapply List.Forall_impl; [| exact Hall]. simpl. intros y Hy. lra.
  - intros Hdom. rewrite List.Forall_forall in Hall, Hdom.
    specialize (Hall _ Hc). specialize (Hdom _ Hin). lra.
Qed.

(** The loop collects, in index order, the entries that pass the tests. *)
Lemma pivot_fold (lookback : nat) (h_arr l_arr : list Q) (idx : list nat) :
  forall acc,
    fold_left (pivot_step lookback h_arr l_arr) idx acc
    = (fst acc ++ map (fun i => nth i h_arr 0)
                    (List.filter (fun i => Qeq_bool (nth i h_arr 0)
                                             (np_max (window h_arr i lookback))) idx),
       snd acc ++ map (fun i => nth i l_arr 0)
                    (List.filter (fun i => Qeq_bool (nth i l_arr 0)
                                             (np_min (window l_arr i lookback))) idx)).
Proof.
  induction idx as [| i idx IH]; intros [highs lows]; simpl.
  - rewrite !app_nil_r. reflexivity.
  - rewrite IH. simpl.
    destruct (Qeq_bool (nth i h_arr 0) (np_max (window h_arr i lookback)));
      destruct (Qeq_bool (nth i l_arr 0) (np_min (window l_arr i lookback)));
      simpl; rewrite <- ?app_assoc; reflexivity.
Qed.

Lemma filter_length_le {A : Type} (f : A -> bool) (l : list A) :
  (length (List.filter f l) <= length l)%nat.
Proof. induction l as [| x l IH]; simpl; [lia |]. destruct (f x); simpl; lia. Qed.

(** X12. [_find_pivots] returns nothing for fewer than
    [2 * lookback + 1] candles.  Otherwise a value is among the highs
    exactly when it is the high of a candle with [lookback] candles on
    either side that is not exceeded by any high within [lookback]
    positions of it, and symmetrically for the lows; there are at most
    [n - 2 * lookback] pivots of either kind. *)
Theorem find_pivots_are_window_extremes (lookback : nat) (candles : list Candle) :
  let h_arr := map high candles in
  let l_arr := map low candles in
  let n := length candles in
  ((n < lookback * 2 + 1)%nat -> _find_pivots lookback candles = ([], []))
  /\ (forall v,
        In v (fst (_find_pivots lookback candles))
        <-> exists i,
              (lookback <= i)%nat /\ (i + lookback < n)%nat /\ v = nth i h_arr 0
              /\ forall j, (i - lookback <= j <= i + lookback)%nat ->
                           nth j h_arr 0 <= nth i h_arr 0)
  /\ (forall v,
        In v (snd (_find_pivots lookback candles))
        <-> exists i,
              (lookback <= i)%nat /\ (i + lookback < n)%nat /\ v = nth i l_arr 0
              /\ forall j, (i - lookback <= j <= i + lookback)%nat ->
                           nth i l_arr 0 <= nth j l_arr 0)
  /\ (length (fst (_find_pivots lookback candles)) <= n - lookback * 2)%nat
  /\ (length (snd (_find_pivots lookback candles)) <= n - lookback * 2)%nat.
Proof.
  cbv zeta. unfold _find_pivots.
  destruct (Nat.ltb (length candles) (lookback * 2 + 1)) eqn:En.
  - apply Nat.ltb_lt in En. split; [reflexivity |]. simpl.
    split; [| split; [| split; lia]].
    + intros v. split; [tauto |]. intros (i & H1 & H2 & _). lia.
    + intros v. split; [tauto |]. intros (i & H1 & H2 & _). lia.
  - apply Nat.ltb_ge in En. split; [intros; lia |].
    rewrite pivot_fold. simpl.
    assert (Hlh : length (map high candles) = length candles) by apply length_map.
    assert (Hll : length (map low candles) = length candles) by apply length_map.
    split; [| split; [| split]].
    + intros v. rewrite in_map_iff. split.
      * intros (i & Hv & Hi). apply filter_In in Hi. destruct Hi as [Hi Ht].
        apply in_seq in Hi. exists i.
        split; [lia |]. split; [lia |]. split; [auto |].
        intros j Hj. assert (H1 : (lookback <= i)%nat) by lia.
        assert (H2 : (i < length (map high candles))%nat) by lia.
        apply (proj1 (high_test (map high candles) i lookback H1 H2) Ht j Hj). lia.
      * intros (i & H1 & H2 & Hv & Hdom). exists i. split; [auto |].
        apply filter_In. split; [apply in_seq; lia |].
        apply high_test; [lia | lia |]. intros j Hj _. apply Hdom. exact Hj.
    + intros v. rewrite in_map_iff. split.
      * intros (i & Hv & Hi). apply filter_In in Hi. destruct Hi as [Hi Ht].
        apply in_seq in Hi. exists i.
        split; [lia |]. split; [lia |]. split; [auto |].
        intros j Hj. assert (H1 : (lookback <= i)%nat) by lia.
        assert (H2 : (i < length (map low candles))%nat) by lia.
        apply (proj1 (low_test (map low candles) i lookback H1 H2) Ht j Hj). lia.
      * intros (i & H1 & H2 & Hv & Hdom). exists i. split; [auto |].
        apply filter_In. split; [apply in_seq; lia |].
        apply low_test; [lia | lia |]. intros j Hj _. apply Hdom. exact Hj.
    + rewrite length_map.
      etransitivity; [apply filter_length_le |]. rewrite length_seq. lia.
    + rewrite length_map.
      etransitivity; [apply filter_length_le |]. rewrite length_seq. lia.
Qed.


Lemma insert_level_length (x : Q) (l : list Q) :
  length (insert_level x l) = S (length l).
Proof.
  induction l as [| y l IH]; simpl; [reflexivity |].
  destruct (Qle_bool x y); simpl; [reflexivity | rewrite IH; reflexivity].
Qed.

Lemma sort_levels_length (levels : list Q) :
  length (sort_levels levels) = length levels.
Proof.
  induction levels as [| x l IH]; [reflexivity |].
  change (sort_levels (x :: l)) with (insert_level x (sort_levels l)).
  rewrite insert_level_length, IH. reflexivity.
Qed.

Lemma strengths_of_groups (is_res : bool) (groups : list (list Q)) :
  fold_right Nat.add 0%nat
    (map strength (map (fun g => _process_cluster g is_res) groups))
  = length (concat groups).
Proof.
  induction groups as [| g gs IH]; simpl; [reflexivity |].
  rewrite IH, length_app. reflexivity.
Qed.

Lemma strengths_bound_count (ws : list Wall) :
  Forall (fun w => (1 <= strength w)%nat) ws ->
  (length ws <= fold_right Nat.add 0%nat (map strength ws))%nat.
Proof. induction 1 as [| w ws Hw _ IH]; simpl; lia. Qed.

(** X13. Clustering loses no pivot: the strengths of the walls add up
    to the number of levels, every wall has strength at least 1, there
    are no more walls than levels, and no levels give no walls. *)
Theorem cluster_levels_conserve_pivots (levels : list Q) (is_resistance : bool) :
  fold_right Nat.add 0%nat (map strength (_cluster_levels levels is_resistance))
  = length levels
  /\ Forall (fun w => (1 <= strength w)%nat) (_cluster_levels levels is_resistance)
  /\ (length (_cluster_levels levels is_resistance) <= length levels)%nat
  /\ (levels = [] -> _cluster_levels levels is_resistance = []).
Proof.
  unfold _cluster_levels. pose proof (sort_levels_length levels) as Hlen.
  destruct (sort_levels levels) as [| l0 rest] eqn:Es.
  - destruct levels; [| discriminate]. simpl. repeat split; auto.
  - destruct (cluster_loop_groups (l0 * 0.0005) is_resistance rest l0 [l0] [])
      as (ext & gs & Hcat & Hall & _ & Hrun);
      [discriminate | reflexivity | exact I |].
    rewrite Hrun. rewrite app_nil_l.
    assert (Hsum : fold_right Nat.add 0%nat
                     (map strength
                        (map (fun g => _process_cluster g is_resistance)
                           (([l0] ++ ext) :: gs)))
                   = length levels).
    { rewrite strengths_of_groups, Hcat. exact Hlen. }
    assert (Hpos : Forall (fun w => (1 <= strength w)%nat)
                     (map (fun g => _process_cluster g is_resistance)
                        (([l0] ++ ext) :: gs))).
    { apply List.Forall_forall. intros w Hw. apply in_map_iff in Hw.
      destruct Hw as (g & <- & Hg). rewrite List.Forall_forall in Hall.
      destruct (Hall g Hg) as [Hne _]. simpl. destruct g; [congruence | simpl; lia]. }
    split; [exact Hsum |]. split; [exact Hpos |].
    split; [| intros ->; discriminate].
    rewrite <- Hsum. apply strengths_bound_count. exact Hpos.
Qed.

Lemma find_too_close (test : Wall -> bool) (walls : list Wall) :
  (exists w, List.find test walls = Some w /\ In w walls /\ test w = true)
  \/ (List.find test walls = None /\ forall w, In w walls -> test w = false).
Proof.
  destruct (List.find test walls) as [w |] eqn:Ef.
  - left. exists w. apply find_some in Ef. tauto.
  - right. split; [reflexivity |]. intros w Hw. exact (find_none _ _ Ef w Hw).
Qed.

Lemma too_close_spec (dist thr : Q) (w : Wall) :
  too_close dist thr w = true <-> 0 < dist /\ dist < thr /\ (2 <= strength w)%nat.
Proof.
  unfold too_close. rewrite !andb_true_iff, !Qltb_lt, Nat.leb_le. tauto.
Qed.

(** X14. [should_avoid_entry] blocks a BUY exactly when some resistance
    wall of strength at least 2 lies strictly above the price by less
    than 0.03% of it, and a SELL exactly when some such support wall
    lies strictly below; the wall reported is one of them.  Any other
    action, and any non-positive price, is never blocked. *)
Theorem should_avoid_entry_blocks_iff (current_price : Q) (action : string)
    (m : LiquidityMapping) :
  let near_above w :=
    0 < price w - current_price /\ price w - current_price < current_price * 0.0003
    /\ (2 <= strength w)%nat in
  let near_below w :=
    0 < current_price - price w /\ current_price - price w < current_price * 0.0003
    /\ (2 <= strength w)%nat in
  (action = "BUY"%string ->
   (fst (should_avoid_entry current_price action m) = true
    <-> exists w, In w (resistances m) /\ near_above w)
   /\ (forall w, snd (should_avoid_entry current_price action m) = Some w ->
       In w (resistances m) /\ near_above w))
  /\ (action = "SELL"%string ->
      (fst (should_avoid_entry current_price action m) = true
       <-> exists w, In w (supports m) /\ near_below w)
      /\ (forall w, snd (should_avoid_entry current_price action m) = Some w ->
          In w (supports m) /\ near_below w))
  /\ (action <> "BUY"%string -> action <> "SELL"%string ->
      should_avoid_entry current_price action m = (false, None))
  /\ (current_price <= 0 ->
      should_avoid_entry current_price action m = (false, None)).
Proof.
  cbv zeta. unfold should_avoid_entry.
  split; [| split; [| split]].
  - intros ->. simpl String.eqb. cbv iota.
    destruct (find_too_close
                (fun w => too_close (price w - current_price) (current_price * 0.0003) w)
                (resistances m)) as [(w & -> & Hin & Ht) | (-> & Hnone)]; simpl.
    + apply too_close_spec in Ht. split.
      * split; [intros _; exists w; auto | reflexivity].
      * intros w' [= <-]. auto.
    + split; [| discriminate]. split; [discriminate |].
      intros (w & Hin & Hnear). apply too_close_spec in Hnear.
      rewrite (Hnone w Hin) in Hnear. discriminate.
  - intros ->. simpl String.eqb. cbv iota.
    destruct (find_too_close
                (fun w => too_close (current_price - price w) (current_price * 0.0003) w)
                (supports m)) as [(w & -> & Hin & Ht) | (-> & Hnone)]; simpl.
    + apply too_close_spec in Ht. split.
      * split; [intros _; exists w; auto | reflexivity].
      * intros w' [= <-]. auto.
    + split; [| discriminate]. split; [discriminate |].
      intros (w & Hin & Hnear). apply too_close_spec in Hnear.
      rewrite (Hnone w Hin) in Hnear. discriminate.
  - intros Hb Hs. apply String.eqb_neq in Hb, Hs. rewrite Hb, Hs. reflexivity.
  - intros Hle.
    assert (Hnever : forall d w, too_close d (current_price * 0.0003) w = false).
    { intros d w. destruct (too_close d (current_price * 0.0003) w) eqn:E;
        [| reflexivity].
      apply too_close_spec in E. lra. }
    assert (Hfind : forall (f : Wall -> Q) ws,
              List.find (fun w => too_close (f w) (current_price * 0.0003) w) ws = None).
    { intros f ws. induction ws as [| w ws IH]; simpl; [reflexivity |].
      rewrite Hnever. exact IH. }
    destruct (String.eqb action "BUY").
    + rewrite (Hfind (fun w => price w - current_price)). reflexivity.
    + destruct (String.eqb action "SELL"); [| reflexivity].
      rewrite (Hfind (fun w => current_price - price w)). reflexivity.
Qed.

(** X15. With fewer than [2 * lookback + 1] candles [map_liquidity]
    has no walls, and [should_avoid_entry] on that map clears every
    entry. *)
Theorem short_history_never_blocks (lookback : nat) (candles : list Candle)
    (current_price entry_price : Q) (action : string) :
  (length candles < lookback * 2 + 1)%nat ->
  map_liquidity lookback candles current_price
  = {| supports := []; resistances := [] |}
  /\ should_avoid_entry entry_price action
       (map_liquidity lookback candles current_price) = (false, None).
Proof.
  intros Hshort.
  assert (Hmap : map_liquidity lookback candles current_price
                 = {| supports := []; resistances := [] |}).
  { unfold map_liquidity. destruct candles as [| c cs]; [reflexivity |].
    unfold _find_pivots. apply Nat.ltb_lt in Hshort. rewrite Hshort. reflexivity. }
  split; [exact Hmap |]. rewrite Hmap. unfold should_avoid_entry. simpl.
  destruct (String.eqb action "BUY"); [reflexivity |].
  destruct (String.eqb action "SELL"); reflexivity.
Qed.

End LiquidityMapFacts.

Lemma find_pivots_are_window_extremes_witness :
  In 3 (fst (LiquidityMap._find_pivots 1 peak_candles))
  /\ LiquidityMap._find_pivots 2 peak_candles = ([], []).
Proof.
  split.
  - destruct (find_pivots_are_window_extremes 1 peak_candles) as (_ & Hhigh & _).
    apply Hhigh. exists 1%nat.
    split; [lia |]. split; [simpl; lia |]. split; [reflexivity |].
    intros j Hj.
    assert (Hcases : j = 0%nat \/ j = 1%nat \/ j = 2%nat) by lia.
    destruct Hcases as [-> | [-> | ->]]; vm_compute; discriminate.
  - destruct (find_pivots_are_window_extremes 2 peak_candles) as (Hshort & _).
    apply Hshort. simpl. lia.
Defined.

Lemma cluster_levels_conserve_pivots_witness :
  LiquidityMapper._cluster_levels [] true = []
  /\ fold_right Nat.add 0%nat
       (map LiquidityMapper.strength
          (LiquidityMapper._cluster_levels [1900; 2000; 2000.98] true)) = 3%nat.
Proof.
  split.
  - destruct (cluster_levels_conserve_pivots [] true) as (_ & _ & _ & Hnone).
    apply Hnone. reflexivity.
  - destruct (cluster_levels_conserve_pivots [1900; 2000; 2000.98] true) as (Hsum & _).
    exact Hsum.
Defined.

Lemma should_avoid_entry_blocks_iff_witness :
  fst (LiquidityMap.should_avoid_entry 2000 "BUY" wall_above) = true
  /\ LiquidityMap.should_avoid_entry 2000 "SELL" wall_above = (false, None)
  /\ LiquidityMap.should_avoid_entry 2000 "HOLD" wall_above = (false, None)
  /\ LiquidityMap.should_avoid_entry (-1) "BUY" wall_above = (false, None).
Proof.
  split; [| split; [| split]].
  - destruct (should_avoid_entry_blocks_iff 2000 "BUY" wall_above) as (Hbuy & _).
    destruct (Hbuy eq_refl) as [Hiff _]. apply Hiff.
    eexists. split; [left; reflexivity |].
    simpl. split; [vm_compute; reflexivity |]. split; [vm_compute; reflexivity | lia].
  - destruct (should_avoid_entry_blocks_iff 2000 "SELL" wall_above) as (_ & Hsell & _).
    destruct (Hsell eq_refl) as [Hiff _].
    destruct (LiquidityMap.should_avoid_entry 2000 "SELL" wall_above) as [[|] w] eqn:E.
    + simpl in Hiff. destruct (proj1 Hiff eq_refl) as (w' & [] & _).
    + vm_compute in E. exact (eq_sym E).
  - destruct (should_avoid_entry_blocks_iff 2000 "HOLD" wall_above) as (_ & _ & Hother & _).
    apply Hother; discriminate.
  - destruct (should_avoid_entry_blocks_iff (-1) "BUY" wall_above) as (_ & _ & _ & Hneg).
    apply Hneg. vm_compute. discriminate.
Defined.

Lemma short_history_never_blocks_witness :
  LiquidityMap.should_avoid_entry 2000 "BUY"
    (LiquidityMap.map_liquidity 2 peak_candles 2000) = (false, None).
Proof.
  apply (short_history_never_blocks 2 peak_candles 2000 2000 "BUY"). simpl. lia.
Defined.

(** ** The retry utility (src/risk_manager.py) *)

Section RetryFacts.
Import RiskTools.
Context {R : Type} (retcode_of : R -> option Z)
  (operation : nat -> outcome (bool * option R)) (clock : nat -> Q)
  (max_attempts : nat)
  (initial_delay backoff_multiplier max_total_time start_time : Q).

Lemma retry_post_intro (oc : outcome (bool * option R)) (called : nat)
    (slept : list Q) :
  (called <= max_attempts)%nat ->
  (length slept <= called)%nat ->
  (length slept <= max_attempts - 1)%nat ->
  slept = map (delay_at initial_delay backoff_multiplier) (seq 0 (length slept)) ->
  Forall (fun d => 0 <= d) slept ->
  (forall res, oc = Ret (true, res) ->
     (1 <= called)%nat /\ operation called = Ret (true, res)) ->
  (forall k, (1 <= k < called)%nat -> retryable R retcode_of (operation k)) ->
  (forall k, (1 <= k <= called)%nat -> clock k - start_time <= max_total_time) ->
  (oc = Raise -> delay_at initial_delay backoff_multiplier (length slept) < 0) ->
  (length slept = called \/ S (length slept) = called) ->
  (length slept = called -> (1 <= max_attempts)%nat ->
   oc = Ret (false, None) /\ max_total_time < clock (S called) - start_time) ->
  retry_post R retcode_of operation clock max_attempts initial_delay
    backoff_multiplier max_total_time start_time (mkRetryRun oc called slept).
Proof. unfold retry_post. simpl. tauto. Qed.

Lemma retry_loop_post (remaining : nat) :
  forall (called : nat) (delay : Q) (slept : list Q),
  (remaining + called = max_attempts)%nat ->
  (called <= max_attempts - 1)%nat ->
  length slept = called ->
  delay = delay_at initial_delay backoff_multiplier called ->
  slept = map (delay_at initial_delay backoff_multiplier) (seq 0 called) ->
  Forall (fun d => 0 <= d) slept ->
  (forall k, (1 <= k < S called)%nat -> retryable R retcode_of (operation k)) ->
  (forall k, (1 <= k < S called)%nat -> clock k - start_time <= max_total_time) ->
  retry_post R retcode_of operation clock max_attempts initial_delay
    backoff_multiplier max_total_time start_time
    (retry_loop R retcode_of operation clock max_attempts backoff_multiplier
       max_total_time start_time remaining (S called) delay called slept).
Proof.
  induction remaining as [| rem IH];
    intros called delay slept Hrem Hroom Hlen Hdelay Hslept Hpos Hfail Hclock.
  - simpl. apply retry_post_intro.
    + lia.
    + lia.
    + lia.
    + rewrite Hlen. exact Hslept.
    + exact Hpos.
    + discriminate.
    + intros k Hk. apply Hfail. lia.
    + intros k Hk. apply Hclock. lia.
    + discriminate.
    + left. exact Hlen.
    + intros _ Hone. lia.
  - simpl.
    destruct (Qltb max_total_time (clock (S called) - start_time)) eqn:Etime.
    { apply retry_post_intro.
      - lia.
      - lia.
      - lia.
      - rewrite Hlen. exact Hslept.
      - exact Hpos.
      - discriminate.
      - intros k Hk. apply Hfail. lia.
      - intros k Hk. apply Hclock. lia.
      - discriminate.
      - left. exact Hlen.
      - intros _ _. split; [reflexivity | apply Qltb_lt; exact Etime]. }
    apply Qltb_ge in Etime.
    assert (Hclock' : forall k, (1 <= k <= S called)%nat ->
                                clock k - start_time <= max_total_time).
    { intros k Hk. destruct (Nat.eq_dec k (S called)) as [-> | Hne];
        [exact Etime | apply Hclock; lia]. }
    assert (Hstop : forall oc,
              (forall res, oc = Ret (true, res) ->
                           operation (S called) = Ret (true, res)) ->
              (oc = Raise -> delay < 0) ->
              retry_post R retcode_of operation clock max_attempts initial_delay
                backoff_multiplier max_total_time start_time
                (mkRetryRun oc (S called) slept)).
    { intros oc Hoc Hraise. apply retry_post_intro.
      - lia.
      - lia.
      - lia.
      - rewrite Hlen. exact Hslept.
      - exact Hpos.
      - intros res Hres. split; [lia | auto].
      - intros k Hk. apply Hfail. lia.
      - exact Hclock'.
      - intros Hr. rewrite Hlen, <- Hdelay. auto.
      - right. rewrite Hlen. reflexivity.
      - intros Heq. lia. }
    assert (Hback : Nat.leb max_attempts (S called) = false ->
              retryable R retcode_of (operation (S called)) ->
              retry_post R retcode_of operation clock max_attempts initial_delay
                backoff_multiplier max_total_time start_time
                (if Qltb delay 0 then mkRetryRun Raise (S called) slept
                 else retry_loop R retcode_of operation clock max_attempts
                        backoff_multiplier max_total_time start_time rem
                        (S (S called)) (delay * backoff_multiplier)
                        (S called) (slept ++ [delay]))).
    { intros Hlast Hnot. apply Nat.leb_gt in Hlast.
      destruct (Qltb delay 0) eqn:Ed.
      - apply Qltb_lt in Ed. apply Hstop; [discriminate | intros _; exact Ed].
      - apply Qltb_ge in Ed. apply IH.
        + lia.
        + lia.
        + rewrite length_app. simpl. lia.
        + simpl. rewrite Hdelay. reflexivity.
        + rewrite seq_S, map_app. simpl. rewrite <- Hslept, Hdelay. reflexivity.
        + apply Forall_app. split; [exact Hpos | constructor; [exact Ed | constructor]].
        + intros k Hk.
          destruct (Nat.eq_dec k (S called)) as [-> | Hne]; [exact Hnot |].
          apply Hfail. lia.
        + intros k Hk. apply Hclock'. lia. }
    destruct (operation (S called)) as [[[|] result] |] eqn:Eop.
    + apply Hstop; [| discriminate]. intros res [= <-]. reflexivity.
    + destruct result as [r |].
      * destruct (retcode_of r) as [rc |] eqn:Erc.
        -- destruct (Z.eqb rc 10036) eqn:Ecode;
             [apply Hstop; discriminate |].
           apply Z.eqb_neq in Ecode.
           destruct (Nat.leb max_attempts (S called)) eqn:El;
             [apply Hstop; discriminate | apply Hback; [reflexivity |]].
           simpl. rewrite Erc. congruence.
        -- destruct (Nat.leb max_attempts (S called)) eqn:El;
             [apply Hstop; discriminate | apply Hback; [reflexivity |]].
           simpl. rewrite Erc. discriminate.
      * destruct (Nat.leb max_attempts (S called)) eqn:El;
          [apply Hstop; discriminate | apply Hback; [reflexivity | exact I]].
    + destruct (Nat.leb max_attempts (S called)) eqn:El;
        [apply Hstop; discriminate | apply Hback; [reflexivity | exact I]].
Qed.

Lemma retry_with_backoff_post :
  retry_post R retcode_of operation clock max_attempts initial_delay
    backoff_multiplier max_total_time start_time
    (retry_with_backoff R retcode_of operation clock max_attempts initial_delay
       backoff_multiplier max_total_time start_time).
Proof.
  unfold retry_with_backoff.
  apply (retry_loop_post max_attempts 0%nat initial_delay []).
  - lia.
  - lia.
  - reflexivity.
  - reflexivity.
  - reflexivity.
  - constructor.
  - intros k Hk. lia.
  - intros k Hk. lia.
Qed.

(** X16. [retry_with_backoff] calls the operation at most
    [max_attempts] times and sleeps at most [max_attempts - 1] times;
    the delays slept are [initial_delay] times successive powers of
    [backoff_multiplier], none of them negative.  There is one sleep
    between consecutive calls, and one more after the last call only
    when the time budget was found spent on waking up: the result is
    then [(False, None)]. *)
Theorem retry_with_backoff_bounded :
  let r := retry_with_backoff R retcode_of operation clock max_attempts
             initial_delay backoff_multiplier max_total_time start_time in
  (calls r <= max_attempts)%nat
  /\ (length (sleeps r) <= calls r)%nat
  /\ (length (sleeps r) <= max_attempts - 1)%nat
  /\ sleeps r = map (delay_at initial_delay backoff_multiplier)
                  (seq 0 (length (sleeps r)))
  /\ Forall (fun d => 0 <= d) (sleeps r)
  /\ (length (sleeps r) = calls r \/ S (length (sleeps r)) = calls r)
  /\ (length (sleeps r) = calls r -> (1 <= max_attempts)%nat ->
      outcome_of r = Ret (false, None)
      /\ max_total_time < clock (S (calls r)) - start_time)
  /\ (max_attempts = 0%nat -> r = mkRetryRun (Ret (false, None)) 0 []).
Proof.
  cbv zeta.
  destruct retry_with_backoff_post
    as (H1 & H2 & H3 & H4 & H5 & _ & _ & _ & _ & H10 & H11).
  repeat (split; [assumption |]).
  intros Hzero. unfold retry_with_backoff. rewrite Hzero. reflexivity.
Qed.

(** X17. [retry_with_backoff] never calls the operation again after a
    success or a result with return code 10036, nor once the time
    budget is spent: every call but the last raised or failed with
    another code, and every call was made within the budget.  A
    success handed back is what the last call returned.  The utility
    lets an exception through only when the delay it is about to sleep
    is negative. *)
Theorem retry_with_backoff_stops :
  let r := retry_with_backoff R retcode_of operation clock max_attempts
             initial_delay backoff_multiplier max_total_time start_time in
  (forall res, outcome_of r = Ret (true, res) ->
     (1 <= calls r)%nat /\ operation (calls r) = Ret (true, res))
  /\ (forall k, (1 <= k < calls r)%nat -> retryable R retcode_of (operation k))
  /\ (forall k, (1 <= k <= calls r)%nat -> clock k - start_time <= max_total_time)
  /\ (outcome_of r = Raise ->
      delay_at initial_delay backoff_multiplier (length (sleeps r)) < 0).
Proof.
  cbv zeta.
  destruct retry_with_backoff_post as (_ & _ & _ & _ & _ & H6 & H7 & H8 & H9 & _).
  auto.
Qed.

End RetryFacts.

(** ** The admission gate and zone parameters (src/risk_manager.py) *)

Section GateFacts.
Import RiskManager RiskTools.

Lemma pymax_spec (a b : Q) : a <= pymax a b /\ b <= pymax a b
  /\ (pymax a b = a \/ pymax a b = b).
Proof.
  unfold pymax. destruct (Qltb a b) eqn:E.
  - apply Qltb_lt in E. repeat split; try lra. auto.
  - apply Qltb_ge in E. repeat split; try lra. auto.
Qed.

Lemma pymin_spec (a b : Q) : pymin a b <= a /\ pymin a b <= b
  /\ (pymin a b = a \/ pymin a b = b).
Proof.
  unfold pymin. destruct (Qltb b a) eqn:E.
  - apply Qltb_lt in E. repeat split; try lra. auto.
  - apply Qltb_ge in E. repeat split; try lra. auto.
Qed.

Lemma half_above_one (atr : Q) : 1.0 < atr / 2.0 <-> 2 < atr.
Proof.
  split.
  - intros H.
    destruct (Qlt_le_dec 2 atr) as [Hlt | Hle]; [exact Hlt |].
    exfalso. assert (atr / 2.0 <= 1.0) by (apply Qle_shift_div_r; lra). lra.
  - intros H. apply Qlt_shift_div_l; lra.
Qed.

Lemma zone_mult_spec (c : AdaptiveRisk) (atr : Q) :
  1 <= snd (_calculate_adaptive_factors c atr)
  /\ (atr <= 2 -> snd (_calculate_adaptive_factors c atr) == 1)
  /\ (2 < atr -> snd (_calculate_adaptive_factors c atr) == atr / 2).
Proof.
  unfold _calculate_adaptive_factors.
  destruct (Qle_bool atr 0) eqn:E0; cbv zeta; cbn [snd].
  - apply Qle_bool_iff in E0. repeat split; intros; lra.
  - assert (Hr : atr / 2.0 == atr / 2) by (field).
    destruct (Qltb 1.0 (atr / 2.0)) eqn:E1.
    + apply Qltb_lt in E1. pose proof (proj1 (half_above_one atr) E1) as Hgt.
      destruct (pymax_spec 1.0 (atr / 2.0)) as (Hlow & Hup & [Hp | Hp]).
      * rewrite Hp in Hup. lra.
      * rewrite Hp. split; [lra |]. split; [intros; lra | intros _; exact Hr].
    + apply Qltb_ge in E1.
      assert (Hle : atr <= 2).
      { destruct (Qlt_le_dec 2 atr) as [Hlt | Hle]; [| exact Hle].
        apply half_above_one in Hlt. lra. }
      repeat split; intros; lra.
Qed.

(** X18. The zone multiplier of [_calculate_adaptive_factors] is never
    below 1: it is 1 up to an ATR of 2 and half the ATR above, hence
    monotone in the ATR; the cooldown is one of the three configured
    values or 15, and the base value for a non-positive ATR. *)
Theorem adaptive_factors_shape (c : AdaptiveRisk) (atr atr' : Q) :
  let cooldown := fst (_calculate_adaptive_factors c atr) in
  let zone_mult := snd (_calculate_adaptive_factors c atr) in
  1 <= zone_mult
  /\ (atr <= 2 -> zone_mult == 1)
  /\ (2 < atr -> zone_mult == atr / 2)
  /\ (atr <= atr' -> zone_mult <= snd (_calculate_adaptive_factors c atr'))
  /\ (cooldown = COOLDOWN_BASE c \/ cooldown = COOLDOWN_MIN c
      \/ cooldown = COOLDOWN_MAX c \/ cooldown = 15.0)
  /\ (atr <= 0 -> cooldown = COOLDOWN_BASE c).
Proof.
  cbv zeta.
  pose proof (zone_mult_spec c atr) as (H1 & H2 & H3).
  pose proof (zone_mult_spec c atr') as (H1' & H2' & H3').
  split; [exact H1 |]. split; [exact H2 |]. split; [exact H3 |].
  split; [| split].
  - intros Hle. destruct (Qlt_le_dec 2 atr) as [Hgt | Hsmall].
    + rewrite H3 by exact Hgt. rewrite H3' by lra.
      apply Qle_shift_div_l; [lra |].
      assert (Heq : atr / 2 * 2 == atr) by field. lra.
    + rewrite H2 by exact Hsmall. exact H1'.
  - unfold _calculate_adaptive_factors.
    destruct (Qle_bool atr 0); cbv zeta; cbn [fst]; [auto |].
    repeat match goal with |- context [if ?b then _ else _] => destruct b end; auto.
  - intros Hle. unfold _calculate_adaptive_factors. apply Qle_bool_iff in Hle.
    rewrite Hle. reflexivity.
Qed.

(** The base zone width by group size. *)
Lemma base_zone_cases (n : nat) :
  (if Nat.eqb n 2 then 30.0 else if Nat.leb 3 n then 50.0 else 20.0)
  = (match n with
     | 2%nat => 30.0
     | S (S (S _)) => 50.0
     | _ => 20.0
     end).
Proof. destruct n as [| [| [| n]]]; reflexivity. Qed.

(** X19. [calculate_zone_parameters] raises without an ATR.  With a
    non-negative ATR and point the take-profit width is never below the
    zone width.  In a calm market (ATR at most 2.2 and at most 20 pips)
    the zone is exactly 20, 30 or 50 pips for 1, 2 or at least 3
    positions, and the take-profit width equals it. *)
Theorem zone_parameters_shape (c : AdaptiveRisk) (positions : list Position)
    (point : Q) (atr_val : option Q) :
  let sym := match positions with p :: _ => symbol p | [] => ""%string end in
  let pip_multiplier : Q :=
    if contains "XAU" sym || contains "GOLD" sym || contains "JPY" sym
    then 100 else 10000 in
  let base_pips : Q :=
    match length positions with
    | 2%nat => 30.0
    | S (S (S _)) => 50.0
    | _ => 20.0
    end in
  (atr_val = None -> calculate_zone_parameters c positions point atr_val = Raise)
  /\ (forall atr, atr_val = Some atr ->
        exists zone tp,
          calculate_zone_parameters c positions point atr_val = Ret (zone, tp)
          /\ (0 <= atr -> 0 <= point -> zone <= tp)
          /\ (0 <= atr -> atr <= 2.2 -> atr * pip_multiplier <= 20 ->
              zone == base_pips * point /\ tp == zone)).
Proof.
  cbv zeta. split; [intros ->; reflexivity |].
  intros atr ->. unfold calculate_zone_parameters. cbv zeta.
  rewrite base_zone_cases.
  set (base := match length positions with
               | 2%nat => 30.0
               | S (S (S _)) => 50.0
               | _ => 20.0
               end).
  set (pm := if contains "XAU" _ || contains "GOLD" _ || contains "JPY" _
             then 100 else 10000).
  assert (Hpm : 0 < pm) by (unfold pm; destruct (_ || _); lra).
  eexists _, _. split; [reflexivity |]. split.
  - intros Ha Hp.
    assert (0 <= atr * pm) by nra.
    destruct (Qltb 20.0 (atr * pm)); [| lra].
    assert (0 <= atr * pm * 0.10) by lra.
    match goal with |- ?z * point <= (?z + ?pad) * point => assert (0 <= pad * point) by nra end.
    lra.
  - intros Ha Hcalm Hpips.
    destruct (zone_mult_spec c (atr_or_zero (Some atr))) as (Hm1 & Hm2 & Hm3).
    simpl atr_or_zero in *.
    assert (Emult : Qltb 1.1 (snd (_calculate_adaptive_factors c atr)) = false).
    { apply Qltb_ge. destruct (Qlt_le_dec 2 atr) as [Hgt | Hle].
      - rewrite Hm3 by exact Hgt. apply Qle_shift_div_r; lra.
      - rewrite Hm2 by exact Hle. lra. }
    rewrite Emult.
    assert (E50 : Qltb 50.0 (atr * pm) = false) by (apply Qltb_ge; lra).
    assert (E20 : Qltb 20.0 (atr * pm) = false) by (apply Qltb_ge; lra).
    rewrite E50, E20. split; [reflexivity | ring].
Qed.

Lemma insert_by_time_In (p x : Position) (l : list Position) :
  In x (insert_by_time p l) <-> x = p \/ In x l.
Proof.
  induction l as [| q l IH]; simpl.
  - intuition.
  - destruct (Qle_bool (time p) (time q)); simpl; [intuition |].
    rewrite IH. intuition.
Qed.

Lemma sorted_by_time_In (x : Position) (l : list Position) :
  In x (sorted_by_time l) <-> In x l.
Proof.
  induction l as [| p l IH]; [reflexivity |].
  change (sorted_by_time (p :: l)) with (insert_by_time p (sorted_by_time l)).
  rewrite insert_by_time_In, IH. simpl. intuition.
Qed.

Lemma insert_by_time_sorted (p : Position) (l : list Position) :
  StronglySorted (fun a b => time a <= time b) l ->
  StronglySorted (fun a b => time a <= time b) (insert_by_time p l).
Proof.
  induction 1 as [| q l Hs IH Hall]; simpl.
  - constructor; constructor.
  - destruct (Qle_bool (time p) (time q)) eqn:E.
    + apply Qle_bool_iff in E. constructor; [constructor; assumption |].
      constructor; [exact E |].
      eapply Forall_impl; [exact Hall |]. simpl. intros x Hx. lra.
    + apply Qle_bool_gt in E. constructor; [exact IH |].
      apply List.Forall_forall. intros x Hx.
      apply insert_by_time_In in Hx. destruct Hx as [-> | Hx]; [lra |].
      exact (proj1 (List.Forall_forall _ _) Hall x Hx).
Qed.

Lemma sorted_by_time_sorted (l : list Position) :
  StronglySorted (fun a b => time a <= time b) (sorted_by_time l).
Proof.
  induction l as [| p l IH]; [constructor |].
  change (sorted_by_time (p :: l)) with (insert_by_time p (sorted_by_time l)).
  apply insert_by_time_sorted, IH.
Qed.

Lemma last_In (l : list Position) (d : Position) : l <> [] -> In (List.last l d) l.
Proof.
  induction l as [| a [| b l] IH]; intros Hne; [congruence | left; reflexivity |].
  right. apply IH. discriminate.
Qed.

Lemma sorted_last_latest (l : list Position) (d x : Position) :
  StronglySorted (fun a b => time a <= time b) l ->
  In x l -> time x <= time (List.last l d).
Proof.
  induction 1 as [| a l Hs IH Hall]; intros Hx; [destruct Hx |].
  destruct l as [| b l]; [destruct Hx as [-> | []]; simpl; lra |].
  change (List.last (a :: b :: l) d) with (List.last (b :: l) d).
  destruct Hx as [-> | Hx]; [| exact (IH Hx)].
  refine (proj1 (List.Forall_forall _ _) Hall _ _). apply last_In. discriminate.
Qed.

(** The newest position of a group, as the gate finds it. *)
Lemma last_sorted_latest (positions : list Position) (d x : Position) :
  In x positions -> time x <= time (List.last (sorted_by_time positions) d).
Proof.
  intros Hx. apply sorted_last_latest; [apply sorted_by_time_sorted |].
  apply sorted_by_time_In, Hx.
Qed.

Lemma get_hedge_state_frame (self : t) (symbol : string) :
  config (fst (_get_hedge_state self symbol)) = config self
  /\ _global_position_cap (fst (_get_hedge_state self symbol))
     = _global_position_cap self.
Proof. unfold _get_hedge_state. destruct (_ !! _); split; reflexivity. Qed.

Lemma is_spread_healthy_frame (self : t) (cs now : Q) :
  config (fst (is_spread_healthy self cs now)) = config self
  /\ _global_position_cap (fst (is_spread_healthy self cs now))
     = _global_position_cap self
  /\ _hedge_states (fst (is_spread_healthy self cs now)) = _hedge_states self.
Proof.
  unfold is_spread_healthy. destruct (spread_history self); [repeat split |].
  destruct (Qltb 1.0 _); destruct (Qltb _ cs); repeat split.
Qed.

(** X20. When the gate accepts, the group is non-empty and below its
    hedge limit, the broker's position list was obtained and is below
    the global cap (so [get_emergency_status] is off for it), every
    position of the group, not only the newest, is at least
    [min_age_seconds] old, the price has moved at least the floor
    distance (2.0 for metals, 0.002 otherwise) from the newest
    position's open price, and the symbol's cooldown has elapsed. *)
Theorem gate_accept_requires (env : Env) (self : t) (symbol : string)
    (positions : list Position) (tick : Tick) (point : Q)
    (atr_val : option Q) (max_hedges_override : option Z) (self' : t) :
  validate_hedge_conditions env self symbol positions tick point atr_val
    max_hedges_override = (self', Ret Accept) ->
  positions <> []
  /\ (Z.of_nat (length positions)
      < default (max_hedges (config self)) max_hedges_override)%Z
  /\ (exists all_positions,
        get_positions env = Ret (Some all_positions)
        /\ get_emergency_status self (Z.of_nat (length all_positions)) = false)
  /\ (exists server_time,
        get_tick_time env = Ret server_time
        /\ forall p, In p positions ->
             min_age_seconds (config self)
             <= default (t_default env) server_time - time p)
  /\ (exists last_pos,
        In last_pos positions
        /\ (forall p, In p positions -> time p <= time last_pos)
        /\ (if is_metal symbol then 2.0 else 0.0020)
           <= Qabs ((if Z.eqb (type last_pos) 0 then bid tick else ask tick)
                    - price_open last_pos))
  /\ fst (_calculate_adaptive_factors (consts env) (atr_or_zero atr_val))
     <= t_cooldown env
        - last_hedge_time (default HedgeState_default (_hedge_states self !! symbol)).
Proof.
  unfold validate_hedge_conditions.
  destruct positions as [| p0 rest]; [discriminate |].
  set (positions := p0 :: rest).
  destruct (_get_hedge_state self symbol) as [s1 state] eqn:Estate.
  pose proof (get_hedge_state_frame self symbol) as (Hc1 & Hg1).
  rewrite Estate in Hc1, Hg1. simpl in Hc1, Hg1.
  assert (Hst : state = default HedgeState_default (_hedge_states self !! symbol)).
  { unfold _get_hedge_state in Estate. destruct (_hedge_states self !! symbol);
      inversion Estate; reflexivity. }
  assert (Hframe : exists s2 healthy,
            (if Qltb 0 (spread tick)
             then is_spread_healthy s1 (spread tick) (t_spread env)
             else (s1, true)) = (s2, healthy)
            /\ config s2 = config self
            /\ _global_position_cap s2 = _global_position_cap self).
  { destruct (Qltb 0 (spread tick)).
    - pose proof (is_spread_healthy_frame s1 (spread tick) (t_spread env)) as (Hc & Hg & _).
      destruct (is_spread_healthy s1 (spread tick) (t_spread env)) as [s2 h].
      exists s2, h. simpl in Hc, Hg. repeat split; congruence.
    - exists s1, true. repeat split; assumption. }
  destruct Hframe as (s2 & healthy & -> & Hc2 & Hg2).
  destruct healthy; simpl negb; cbv iota; [| discriminate].
  rewrite Hc2, Hg2.
  destruct (Z.leb _ (Z.of_nat (length positions))) eqn:Elim; [discriminate |].
  destruct (get_positions env) as [[all_positions |] |] eqn:Eall; try discriminate.
  destruct (Z.leb (_global_position_cap self) _) eqn:Ecap; [discriminate |].
  destruct (get_tick_time env) as [server_time |] eqn:Etime; [| discriminate].
  cbv zeta.
  destruct (Qltb (_ - time _) (min_age_seconds (config self))) eqn:Eage; [discriminate |].
  destruct (Qltb (Qabs _) (pymax _ _)) eqn:Edist; [discriminate |].
  destruct (Qltb (t_cooldown env - _) _) eqn:Ecool; [discriminate |].
  intros _.
  apply Qltb_ge in Eage, Edist, Ecool. apply Z.leb_gt in Elim.
  split; [discriminate |]. split; [exact Elim |].
  split; [exists all_positions; split; [reflexivity | exact Ecap] |].
  split.
  { exists server_time. split; [reflexivity |]. intros p Hp.
    pose proof (last_sorted_latest positions p0 p Hp). lra. }
  split.
  { exists (List.last (sorted_by_time positions) p0). split.
    - apply sorted_by_time_In, last_In.
      intros E. apply (f_equal (@length _)) in E.
      assert (Hin : In p0 (sorted_by_time positions))
        by (apply sorted_by_time_In; left; reflexivity).
      rewrite (proj1 (length_zero_iff_nil _) E) in Hin. destruct Hin.
    - split; [intros p Hp; apply last_sorted_latest, Hp |].
      destruct (pymax_spec (if is_metal symbol then 2.0 else 0.0020)
                  ((match atr_val with
                    | Some a => if Qltb 0 a then a else 2.0
                    | None => 2.0
                    end) * 0.25)) as (Hfloor & _).
      lra. }
  rewrite <- Hst. exact Ecool.
Qed.

End GateFacts.

(** ** What a zone-recovery call changes and sends (src/risk_manager.py) *)

Section ZoneRecoveryFrame.
Import RiskManager RiskTools RiskView.

Lemma frame_get_hedge_state (self : t) (symbol : string) :
  frame_of symbol (fst (_get_hedge_state self symbol)) = frame_of symbol self
  /\ hedge_view (fst (_get_hedge_state self symbol)) symbol = hedge_view self symbol
  /\ snd (_get_hedge_state self symbol) = hedge_view self symbol.
Proof.
  unfold _get_hedge_state, hedge_view, frame_of.
  destruct (_hedge_states self !! symbol) as [st |] eqn:E; simpl.
  - rewrite E. auto.
  - rewrite delete_insert_eq, lookup_insert_eq. auto.
Qed.

Lemma frame_is_spread_healthy (self : t) (symbol : string) (cs now : Q) :
  frame_of symbol (fst (is_spread_healthy self cs now)) = frame_of symbol self
  /\ _hedge_states (fst (is_spread_healthy self cs now)) = _hedge_states self.
Proof.
  unfold is_spread_healthy. destruct (spread_history self); [split; reflexivity |].
  repeat match goal with |- context [if ?c then _ else _] => destruct c end;
    split; reflexivity.
Qed.

Lemma frame_freshness_gate (env : Env) (self : t) (symbol : string) (tick : Tick) :
  frame_of symbol (fst (freshness_gate env self tick)) = frame_of symbol self
  /\ _hedge_states (fst (freshness_gate env self tick)) = _hedge_states self.
Proof.
  unfold freshness_gate. destruct (enable_freshness env); [| split; reflexivity].
  destruct (fresh_tick_max_age env); simpl;
    match goal with |- context [if ?c then _ else _] => destruct c end;
    split; reflexivity.
Qed.

Lemma frame_validate (env : Env) (self : t) (symbol : string)
    (positions : list Position) (tick : Tick) (point : Q)
    (atr_val : option Q) (ov : option Z) :
  frame_of symbol
    (fst (validate_hedge_conditions env self symbol positions tick point atr_val ov))
  = frame_of symbol self
  /\ hedge_view
       (fst (validate_hedge_conditions env self symbol positions tick point atr_val ov))
       symbol
     = hedge_view self symbol.
Proof.
  unfold validate_hedge_conditions. destruct positions as [| p0 ps]; [split; reflexivity |].
  pose proof (frame_get_hedge_state self symbol) as (F1 & V1 & _).
  destruct (_get_hedge_state self symbol) as [self1 state]. simpl in F1, V1.
  assert (H2 : frame_of symbol
                 (fst (if Qltb 0 (spread tick)
                       then is_spread_healthy self1 (spread tick) (t_spread env)
                       else (self1, true))) = frame_of symbol self
               /\ hedge_view
                 (fst (if Qltb 0 (spread tick)
                       then is_spread_healthy self1 (spread tick) (t_spread env)
                       else (self1, true))) symbol = hedge_view self symbol).
  { destruct (Qltb 0 (spread tick)); [| auto].
    destruct (frame_is_spread_healthy self1 symbol (spread tick) (t_spread env))
      as (F & S).
    split; [congruence |]. unfold hedge_view in *. rewrite S. exact V1. }
  destruct (if Qltb 0 (spread tick)
            then is_spread_healthy self1 (spread tick) (t_spread env)
            else (self1, true)) as [self2 healthy]. simpl in H2.
  repeat match goal with
         | |- context [if ?c then _ else _] => destruct c
         | |- context [match ?x with Ret _ => _ | Raise => _ end] => destruct x
         | |- context [match ?x with Some _ => _ | None => _ end] => destruct x
         end; exact H2.
Qed.

Lemma frame_update_volatility_scale (env : Env) (self : t) (symbol : string) (ratio : Q) :
  frame_of symbol (fst (update_volatility_scale env self symbol ratio))
  = frame_of symbol self
  /\ counters (hedge_view (fst (update_volatility_scale env self symbol ratio)) symbol)
     = counters (hedge_view self symbol).
Proof.
  unfold update_volatility_scale, frame_of, hedge_view. simpl.
  rewrite delete_insert_eq, lookup_insert_eq. split; [reflexivity |].
  destruct (Qle_bool 2.5 ratio); [reflexivity |].
  destruct (Qle_bool ratio 2.0); reflexivity.
Qed.

Lemma frame_pop_pending (self : t) (symbol : string) :
  frame_of symbol (pop_pending self symbol) = frame_of symbol self
  /\ _hedge_states (pop_pending self symbol) = _hedge_states self.
Proof.
  unfold frame_of, pop_pending. simpl. rewrite delete_delete_eq. auto.
Qed.

Lemma frame_set_pending (self : t) (symbol : string) (now : Q) :
  frame_of symbol (set_pending self (<[symbol := now]> (_pending_hedges self)))
  = frame_of symbol self.
Proof. unfold frame_of. simpl. rewrite delete_insert_eq. reflexivity. Qed.

Lemma frame_commit_hedge (self : t) (symbol : string) (now : Q) :
  frame_of symbol (commit_hedge self symbol now) = frame_of symbol self
  /\ counters (hedge_view (commit_hedge self symbol now) symbol)
     = (now, (active_hedges (hedge_view self symbol) + 1)%Z,
        zone_width_points (hedge_view self symbol),
        tp_width_points (hedge_view self symbol)).
Proof.
  unfold commit_hedge, frame_of, hedge_view. simpl.
  rewrite delete_insert_eq, lookup_insert_eq. split; reflexivity.
Qed.


Lemma counters_quiet (env : Env) (self s : t) (symbol : string)
    (rt : outcome bool) (tr : gmap Z TradeMetadata) :
  frame_of symbol s = frame_of symbol self ->
  counters (hedge_view s symbol) = counters (hedge_view self symbol) ->
  counters_post env self symbol {| ret := rt; rm := s; trades := tr; orders := [] |}.
Proof.
  intros F C. unfold counters_post. simpl. split; [exact F |].
  split; [left; exact C |]. intros _ Hne. congruence.
Qed.

Lemma counters_quiet_pop (env : Env) (self s : t) (symbol : string)
    (rt : outcome bool) (tr : gmap Z TradeMetadata) :
  frame_of symbol s = frame_of symbol self ->
  counters (hedge_view s symbol) = counters (hedge_view self symbol) ->
  counters_post env self symbol
    {| ret := rt; rm := pop_pending s symbol; trades := tr; orders := [] |}.
Proof.
  intros F C. apply counters_quiet.
  - rewrite <- F. apply frame_pop_pending.
  - rewrite <- C. reflexivity.
Qed.

Ltac leave_counters :=
  solve [apply counters_quiet_pop; assumption | apply counters_quiet; assumption].

Lemma submit_order_counters (env : Env) (self : t) (trades0 : gmap Z TradeMetadata)
    (symbol : string) (bucket : BucketId) (first_ticket : Z) (tm : TradeMetadata)
    (hedge_level : Z) (a : action) (target_price hedge_lot : Q)
    (strict_entry : bool) (zone_width_points point : Q) :
  counters_post env self symbol
    (submit_order env self trades0 symbol bucket first_ticket tm hedge_level a
       target_price hedge_lot strict_entry zone_width_points point).
Proof.
  unfold submit_order.
  destruct (Qeq_bool point 0); [apply counters_quiet; reflexivity |].
  cbv zeta.
  destruct (execute_order env _) as [[new_ticket |] |] eqn:Eorder.
  - destruct (Z.eqb new_ticket 0) eqn:Ez.
    + unfold counters_post. simpl. split; [apply frame_pop_pending |].
      split; [left; reflexivity |]. intros Hr. discriminate.
    + apply Z.eqb_neq in Ez.
      destruct (record_hedge env bucket a hedge_lot target_price).
      * destruct (frame_commit_hedge self symbol (t_hedge env)) as (F & C).
        assert (Hc : forall rt s tr, order_confirmed
                  {| ret := rt; rm := s; trades := tr;
                     orders := [({| o_symbol := symbol; o_order_type := a;
                                    o_price := target_price; o_volume := hedge_lot;
                                    o_strict_entry := strict_entry;
                                    o_zone := Qtrunc (zone_width_points / point) |},
                                 Ret (Some new_ticket))] |}).
        { intros. eexists _, new_ticket. split; [reflexivity | exact Ez]. }
        destruct (add_position_to_bucket env bucket new_ticket);
          unfold counters_post; simpl; (split; [exact F |]);
          (split; [right; split; [apply Hc | exact C] | intros _ _; exact C]).
      * unfold counters_post. simpl. split; [reflexivity |].
        split; [left; reflexivity |]. intros Hr. discriminate.
  - unfold counters_post. simpl. split; [apply frame_pop_pending |].
    split; [left; reflexivity |]. intros Hr. discriminate.
  - unfold counters_post. simpl. split; [reflexivity |].
    split; [left; reflexivity |]. intros Hr. discriminate.
Qed.

Lemma counters_post_trans (env : Env) (self s : t) (symbol : string) (r : Run) :
  frame_of symbol s = frame_of symbol self ->
  counters (hedge_view s symbol) = counters (hedge_view self symbol) ->
  counters_post env s symbol r -> counters_post env self symbol r.
Proof.
  intros F C. unfold counters_post. cbv zeta. rewrite F, C.
  assert (Ha : active_hedges (hedge_view s symbol) = active_hedges (hedge_view self symbol))
    by (unfold counters in C; congruence).
  assert (Hz : zone_width_points (hedge_view s symbol)
               = zone_width_points (hedge_view self symbol))
    by (unfold counters in C; congruence).
  assert (Ht : tp_width_points (hedge_view s symbol)
               = tp_width_points (hedge_view self symbol))
    by (unfold counters in C; congruence).
  rewrite Ha, Hz, Ht. auto.
Qed.

Lemma zone_recovery_body_counters (env : Env) (self : t)
    (trades0 : gmap Z TradeMetadata)
    (symbol : string) (positions : list Position) (first_pos : Position)
    (tick : Tick) (point : Q) (strict_entry : bool) (atr_val : option Q)
    (volatility_ratio : Q) (rsi_value : option Q)
    (pressure_metrics : option PressureMetrics) :
  counters_post env self symbol
    (zone_recovery_body env self trades0 symbol positions first_pos tick point
       strict_entry atr_val volatility_ratio rsi_value pressure_metrics).
Proof.
  unfold zone_recovery_body. cbv zeta.
  destruct (frame_get_hedge_state self symbol) as (F1 & V1 & _).
  assert (C1 : counters (hedge_view (fst (_get_hedge_state self symbol)) symbol)
               = counters (hedge_view self symbol)) by (rewrite V1; reflexivity).
  clear V1. revert F1 C1.
  generalize (fst (_get_hedge_state self symbol)). intros self1 F1 C1.
  match goal with
  | |- context [if negb ?c then _ else _] => destruct c
  end; simpl negb; cbv iota; try leave_counters.
  destruct (calculate_zone_parameters (consts env) positions point atr_val)
    as [[zw tp] |]; try leave_counters.
  destruct (pressure_veto pressure_metrics zw) as [zw' |]; try leave_counters.
  destruct (frame_update_volatility_scale env self1 symbol volatility_ratio) as (F2 & C2).
  rewrite F1 in F2. rewrite C1 in C2.
  destruct (update_volatility_scale env self1 symbol volatility_ratio) as [self2 scale].
  simpl fst in *.
  destruct (zone_levels first_pos _ _ _) as [lower upper].
  destruct (trigger first_pos (length positions) tick lower upper (point * 0.1))
    as [[next_action target_price] |]; try leave_counters.
  destruct (elastic_wait next_action rsi_value); try leave_counters.
  destruct (Z.eqb _ (hedge_type next_action)); try leave_counters.
  destruct (analyze_hedge_decision env positions target_price (drawdown_pct env))
    as [decision |]; try leave_counters.
  destruct (should_hedge decision); simpl negb; cbv iota; try leave_counters.
  match goal with
  | |- context [if Qltb ?x 0.01 then _ else _] => destruct (Qltb x 0.01)
  end; try leave_counters.
  apply (counters_post_trans env self self2); [exact F2 | exact C2 |].
  apply submit_order_counters.
Qed.

Lemma execute_counters (env : Env) (self : t) (trades0 : gmap Z TradeMetadata)
    (symbol : string) (positions : list Position) (tick : Tick) (point : Q)
    (strict_entry : bool) (atr_val : option Q) (volatility_ratio : Q)
    (rsi_value : option Q) (pressure_metrics : option PressureMetrics)
    (max_hedges_override : option Z) :
  counters_post env self symbol
    (execute_zone_recovery env self trades0 symbol positions tick point strict_entry
       atr_val volatility_ratio rsi_value pressure_metrics max_hedges_override).
Proof.
  unfold execute_zone_recovery. cbv zeta.
  destruct (Qltb _ 10.0); [apply counters_quiet; reflexivity |].
  pose proof (frame_set_pending self symbol (t_mark env)) as F0.
  assert (C0 : counters (hedge_view
                 (set_pending self (<[symbol := t_mark env]> (_pending_hedges self)))
                 symbol) = counters (hedge_view self symbol)) by reflexivity.
  revert F0 C0.
  generalize (set_pending self (<[symbol := t_mark env]> (_pending_hedges self))).
  intros self0 F0 C0.
  match goal with
  | |- context [if ?c then _ else _] => destruct c
  end; try leave_counters.
  destruct (frame_freshness_gate env self0 symbol tick) as (F1 & S1).
  assert (C1 : counters (hedge_view (fst (freshness_gate env self0 tick)) symbol)
               = counters (hedge_view self symbol))
    by (unfold hedge_view in *; rewrite S1; exact C0).
  rewrite F0 in F1. clear S1.
  destruct (freshness_gate env self0 tick) as [self1 [[|] |]]; simpl fst in *;
    try leave_counters.
  destruct (is_trade_allowed env) as [[|] |]; try leave_counters.
  destruct (sorted_by_time positions) as [| first_pos others] eqn:Esorted;
    try leave_counters.
  destruct (can_hedge_bucket env (symbol, ticket first_pos)) as [[|] |];
    try leave_counters.
  destruct (frame_validate env self1 symbol positions tick point atr_val
              max_hedges_override) as (F2 & V2).
  rewrite F1 in F2.
  assert (C2 : counters (hedge_view
                 (fst (validate_hedge_conditions env self1 symbol positions tick
                         point atr_val max_hedges_override)) symbol)
               = counters (hedge_view self symbol)) by (rewrite V2; exact C1).
  clear V2.
  destruct (validate_hedge_conditions env self1 symbol positions tick point atr_val
              max_hedges_override) as [self2 [[| why] |]]; simpl fst in *;
    try leave_counters.
  pose proof (zone_recovery_body_counters env self2 trades0 symbol positions first_pos
                tick point strict_entry atr_val volatility_ratio rsi_value
                pressure_metrics) as Hbody.
  apply (counters_post_trans env self self2) in Hbody; [| exact F2 | exact C2].
  destruct (zone_recovery_body env self2 trades0 symbol positions first_pos tick
              point strict_entry atr_val volatility_ratio rsi_value pressure_metrics)
    as [rt rm1 tr1 os1].
  simpl. destruct rt as [b |]; [exact Hbody |].
  unfold counters_post in *. cbv zeta in *. simpl in *.
  destruct Hbody as (F & C & _).
  split; [rewrite <- F; apply frame_pop_pending |].
  split; [| intros Hr; discriminate].
  destruct C as [C | (Hc & C)]; [left; exact C |].
  right. split; [| exact C].
  destruct Hc as (req & tk & Ho & Hne). exists req, tk. simpl in *. auto.
Qed.











Lemma risk_status_view (self : t) (symbol : string) (now : Q) :
  snd (get_risk_status self symbol now)
  = {| rs_symbol := symbol;
       rs_active_hedges := active_hedges (hedge_view self symbol);
       rs_last_hedge_time := last_hedge_time (hedge_view self symbol);
       rs_time_since_last_hedge := now - last_hedge_time (hedge_view self symbol);
       rs_zone_width_pips := zone_width_points (hedge_view self symbol);
       rs_tp_width_pips := tp_width_points (hedge_view self symbol) |}.
Proof.
  unfold get_risk_status.
  destruct (frame_get_hedge_state self symbol) as (_ & _ & Hst).
  destruct (_get_hedge_state self symbol) as [s st]. simpl in *. rewrite Hst.
  reflexivity.
Qed.

(** X21. Whatever [math.log] returns, the volatility scale written for
    a ratio of at least 2.5 lies in [1, 1.25] and sets high-volatility
    mode; a ratio of at most 2.0 resets the scale to 1.0 and clears the
    mode; in between the stored scale is read back unchanged.  A stored
    scale within [1, 1.25] therefore stays there, and the value handed
    back is the one left in the symbol's state. *)
Theorem volatility_scale_clamped (env : Env) (self : t) (symbol : string)
    (volatility_ratio : Q) :
  let res := update_volatility_scale env self symbol volatility_ratio in
  let stored := hedge_view self symbol in
  let state := hedge_view (fst res) symbol in
  volatility_scale state = snd res
  /\ (2.5 <= volatility_ratio ->
      1 <= snd res /\ snd res <= 1.25 /\ high_vol_mode state = true)
  /\ (volatility_ratio <= 2.0 -> snd res = 1.0 /\ high_vol_mode state = false)
  /\ (2.0 < volatility_ratio -> volatility_ratio < 2.5 ->
      snd res = volatility_scale stored
      /\ high_vol_mode state = high_vol_mode stored)
  /\ (1 <= volatility_scale stored -> volatility_scale stored <= 1.25 ->
      1 <= snd res /\ snd res <= 1.25).
Proof.
  cbv zeta. unfold update_volatility_scale, hedge_view. simpl.
  rewrite lookup_insert_eq. simpl.
  set (st := default HedgeState_default (_hedge_states self !! symbol)).
  set (log_scale := 1.0 + math_log env (pymax volatility_ratio 2.0 / 2.0) * 0.5).
  assert (Hclamp : 1 <= pymax 1.0 (pymin log_scale 1.25)
                   /\ pymax 1.0 (pymin log_scale 1.25) <= 1.25).
  { destruct (pymax_spec 1.0 (pymin log_scale 1.25)) as (H1 & _ & [Hp | Hp]);
      destruct (pymin_spec log_scale 1.25) as (_ & H2 & _).
    - rewrite Hp. split; lra.
    - rewrite Hp in *. split; lra. }
  destruct (Qle_bool 2.5 volatility_ratio) eqn:Ehi.
  - apply Qle_bool_iff in Ehi. simpl.
    split; [reflexivity |]. split; [intros _; tauto |].
    split; [intros Hle; lra |]. split; [intros H1 H2; lra | intros _ _; exact Hclamp].
  - apply Qle_bool_gt in Ehi.
    destruct (Qle_bool volatility_ratio 2.0) eqn:Elo.
    + apply Qle_bool_iff in Elo. simpl.
      split; [reflexivity |]. split; [intros Hge; lra |].
      split; [auto |]. split; [intros H1 H2; lra | intros _ _; lra].
    + apply Qle_bool_gt in Elo.
      split; [reflexivity |]. split; [intros Hge; lra |].
      split; [intros Hle; lra |]. split; [auto | auto].
Qed.


(** X23. [execute_zone_recovery] leaves the configuration, the global
    cap and the spread multiplier alone, as well as the hedge state and
    pending marker of every other symbol and the trade metadata of every
    ticket outside the evaluated group. *)
Theorem zone_recovery_isolated (env : Env) (self : t)
    (trades0 : gmap Z TradeMetadata) (symbol : string)
    (positions : list Position) (tick : Tick) (point : Q) (strict_entry : bool)
    (atr_val : option Q) (volatility_ratio : Q) (rsi_value : option Q)
    (pressure_metrics : option PressureMetrics) (max_hedges_override : option Z) :
  let r := execute_zone_recovery env self trades0 symbol positions tick point
             strict_entry atr_val volatility_ratio rsi_value pressure_metrics
             max_hedges_override in
  config (rm r) = config self
  /\ _global_position_cap (rm r) = _global_position_cap self
  /\ max_spread_multiplier (rm r) = max_spread_multiplier self
  /\ (forall other, other <> symbol ->
        _hedge_states (rm r) !! other = _hedge_states self !! other
        /\ _pending_hedges (rm r) !! other = _pending_hedges self !! other)
  /\ (forall k, (forall p, In p positions -> ticket p <> k) ->
        trades r !! k = trades0 !! k).
Proof.
  cbv zeta.
  destruct (execute_counters env self trades0 symbol positions tick point strict_entry
              atr_val volatility_ratio rsi_value pressure_metrics max_hedges_override)
    as (F & _).
  unfold frame_of in F. injection F as Hc Hg Hm Hs Hp.
  split; [exact Hc |]. split; [exact Hg |]. split; [exact Hm |]. split.
  - intros other Hne. split.
    + rewrite <- (lookup_delete_ne (_hedge_states (rm _)) symbol other) by congruence.
      rewrite Hs. apply lookup_delete_ne. congruence.
    + rewrite <- (lookup_delete_ne (_pending_hedges (rm _)) symbol other) by congruence.
      rewrite Hp. apply lookup_delete_ne. congruence.
  - intros k Hk.
    destruct (execute_trades env self trades0 symbol positions tick point strict_entry
                atr_val volatility_ratio rsi_value pressure_metrics
                max_hedges_override)
      as [Ht | (_ & first_pos & others & Hsorted & Ht)]; rewrite Ht; [reflexivity |].
    unfold advanced_trades. cbv zeta. apply lookup_insert_ne.
    apply Hk, sorted_by_time_In. rewrite Hsorted. left. reflexivity.
Qed.

(** X24. As [get_risk_status] reports them, a call of
    [execute_zone_recovery] either leaves the symbol's hedge count and
    last hedge time as they were, or raises the count by exactly one
    and stamps the time of the hedge, which happens only for a
    confirmed order and always when the call returns [True] after
    sending one.  The reported zone and take-profit widths never
    change. *)
Theorem hedge_counters_follow_orders (env : Env) (self : t)
    (trades0 : gmap Z TradeMetadata) (symbol : string)
    (positions : list Position) (tick : Tick) (point : Q) (strict_entry : bool)
    (atr_val : option Q) (volatility_ratio : Q) (rsi_value : option Q)
    (pressure_metrics : option PressureMetrics) (max_hedges_override : option Z)
    (now : Q) :
  let r := execute_zone_recovery env self trades0 symbol positions tick point
             strict_entry atr_val volatility_ratio rsi_value pressure_metrics
             max_hedges_override in
  let before := snd (get_risk_status self symbol now) in
  let after := snd (get_risk_status (rm r) symbol now) in
  rs_zone_width_pips after = rs_zone_width_pips before
  /\ rs_tp_width_pips after = rs_tp_width_pips before
  /\ ((rs_active_hedges after = rs_active_hedges before
       /\ rs_last_hedge_time after = rs_last_hedge_time before)
      \/ (order_confirmed r
          /\ rs_active_hedges after = (rs_active_hedges before + 1)%Z
          /\ rs_last_hedge_time after = t_hedge env))
  /\ (ret r = Ret true -> orders r <> [] ->
      rs_active_hedges after = (rs_active_hedges before + 1)%Z
      /\ rs_time_since_last_hedge after = now - t_hedge env).
Proof.
  cbv zeta. rewrite !risk_status_view. simpl.
  destruct (execute_counters env self trades0 symbol positions tick point strict_entry
              atr_val volatility_ratio rsi_value pressure_metrics max_hedges_override)
    as (_ & C & Htrue).
  cbv zeta in *. unfold counters in *.
  split; [destruct C as [C | (_ & C)]; congruence |].
  split; [destruct C as [C | (_ & C)]; congruence |].
  split.
  - destruct C as [C | (Hc & C)]; [left; split; congruence |].
    right. split; [exact Hc |]. split; congruence.
  - intros Hr Ho. specialize (Htrue Hr Ho). split; congruence.
Qed.

(** X25. After a call that returned [True] having sent an order, the
    next evaluation of the same symbol entered less than 10 seconds
    after the marker was set is turned away by the debounce check:
    it returns [False], sends nothing and changes nothing. *)
Theorem placed_order_debounces_next (env env2 : Env) (self : t)
    (trades0 : gmap Z TradeMetadata) (symbol : string)
    (positions positions2 : list Position) (tick tick2 : Tick) (point point2 : Q)
    (strict_entry strict_entry2 : bool) (atr_val atr_val2 : option Q)
    (volatility_ratio volatility_ratio2 : Q) (rsi_value rsi_value2 : option Q)
    (pressure_metrics pressure_metrics2 : option PressureMetrics)
    (max_hedges_override max_hedges_override2 : option Z) :
  let r := execute_zone_recovery env self trades0 symbol positions tick point
             strict_entry atr_val volatility_ratio rsi_value pressure_metrics
             max_hedges_override in
  ret r = Ret true -> orders r <> [] ->
  t_entry env2 - t_mark env < 10.0 ->
  execute_zone_recovery env2 (rm r) (trades r) symbol positions2 tick2 point2
    strict_entry2 atr_val2 volatility_ratio2 rsi_value2 pressure_metrics2
    max_hedges_override2
  = {| ret := Ret false; rm := rm r; trades := trades r; orders := [] |}.
Proof.
  cbv zeta. intros Hret Hsent Hsoon.
  destruct (Qltb (t_entry env - default 0 (_pending_hedges self !! symbol)) 10.0) eqn:Hd.
  - rewrite execute_debounced in Hret by exact Hd. discriminate.
  - pose proof (execute_post env self trades0 symbol positions tick point
                  strict_entry atr_val volatility_ratio rsi_value pressure_metrics
                  max_hedges_override Hd) as Hpost.
    unfold exec_post in Hpost. cbv zeta in Hpost. rewrite Hret in Hpost.
    destruct Hpost as [(_ & _ & Ho) | (Hp & _)]; [contradiction |].
    apply execute_debounced. rewrite Hp, lookup_insert_eq. simpl.
    apply Qltb_lt. exact Hsoon.
Qed.

End ZoneRecoveryFrame.

Lemma retry_with_backoff_bounded_witness :
  RiskTools.sleeps flaky_run = [0.5; 0.5 * 2.0]
  /\ S (length (RiskTools.sleeps flaky_run)) = RiskTools.calls flaky_run
  /\ RiskTools.outcome_of starved_run = Ret (false, None)
  /\ 10.0 < slow_clock (S (RiskTools.calls starved_run)) - 0
  /\ RiskTools.retry_with_backoff Z Some flaky_operation second_clock 0 0.5 2.0
       10.0 0 = RiskTools.mkRetryRun (Ret (false, None)) 0 [].
Proof.
  destruct (retry_with_backoff_bounded Some flaky_operation second_clock 3 0.5 2.0
              10.0 0) as (_ & _ & _ & Hdelays & _ & Hcount & _).
  destruct (retry_with_backoff_bounded Some (fun _ => Ret (false, None)) slow_clock 3
              0.5 2.0 10.0 0) as (_ & _ & _ & _ & _ & _ & Hspent & _).
  destruct (retry_with_backoff_bounded Some flaky_operation second_clock 0 0.5 2.0
              10.0 0) as (_ & _ & _ & _ & _ & _ & _ & Hzero).
  fold flaky_run in Hdelays, Hcount. fold starved_run in Hspent.
  split.
  { rewrite Hdelays.
    assert (Hlen : length (RiskTools.sleeps flaky_run) = 2%nat)
      by (vm_compute; reflexivity).
    rewrite Hlen. reflexivity. }
  split.
  { destruct Hcount as [Heq | Hnext]; [| exact Hnext].
    vm_compute in Heq. discriminate. }
  destruct Hspent as (Hout & Hclock); [vm_compute; reflexivity | lia |].
  split; [exact Hout |]. split; [exact Hclock |].
  apply Hzero. reflexivity.
Defined.

Lemma retry_with_backoff_stops_witness :
  (1 <= RiskTools.calls flaky_run)%nat
  /\ flaky_operation (RiskTools.calls flaky_run) = Ret (true, Some 0%Z)
  /\ RiskTools.retryable Z Some (flaky_operation 2)
  /\ second_clock 3 - 0 <= 10.0
  /\ RiskTools.delay_at (-1) 2.0 (length (RiskTools.sleeps hasty_run)) < 0.
Proof.
  destruct (retry_with_backoff_stops Some flaky_operation second_clock 3 0.5 2.0
              10.0 0) as (Hs & Hr & Hc & _).
  destruct (retry_with_backoff_stops Some (fun _ => Raise) second_clock 2 (-1) 2.0
              10.0 0) as (_ & _ & _ & Hraise).
  destruct (Hs (Some 0%Z)) as [Hone Hlast]; [vm_compute; reflexivity |].
  split; [exact Hone |]. split; [exact Hlast |].
  split; [apply Hr; vm_compute; lia |].
  split; [apply Hc; vm_compute; lia |].
  apply Hraise. vm_compute. reflexivity.
Defined.

Lemma adaptive_factors_shape_witness :
  snd (RiskManager._calculate_adaptive_factors sample_consts 1) == 1
  /\ snd (RiskManager._calculate_adaptive_factors sample_consts 4) == 4 / 2
  /\ snd (RiskManager._calculate_adaptive_factors sample_consts 1)
     <= snd (RiskManager._calculate_adaptive_factors sample_consts 4)
  /\ fst (RiskManager._calculate_adaptive_factors sample_consts (-1)) = 15.
Proof.
  destruct (adaptive_factors_shape sample_consts 1 4) as (_ & Hflat & _ & Hmono & _).
  destruct (adaptive_factors_shape sample_consts 4 4) as (_ & _ & Hhalf & _).
  destruct (adaptive_factors_shape sample_consts (-1) 4) as (_ & _ & _ & _ & _ & Hbase).
  split; [apply Hflat; vm_compute; discriminate |].
  split; [apply Hhalf; vm_compute; reflexivity |].
  split; [apply Hmono; vm_compute; discriminate |].
  apply Hbase. vm_compute. discriminate.
Defined.

Lemma zone_parameters_shape_witness :
  RiskManager.calculate_zone_parameters sample_consts [gold_long] 0.01 None = Raise
  /\ exists zone tp,
       RiskManager.calculate_zone_parameters sample_consts [gold_long] 0.01 (Some 0.1)
       = Ret (zone, tp)
       /\ zone <= tp /\ zone == 20.0 * 0.01 /\ tp == zone.
Proof.
  destruct (zone_parameters_shape sample_consts [gold_long] 0.01 None) as (Hnone & _).
  destruct (zone_parameters_shape sample_consts [gold_long] 0.01 (Some 0.1))
    as (_ & Hsome).
  split; [apply Hnone; reflexivity |].
  destruct (Hsome 0.1 eq_refl) as (zone & tp & Hret & Hle & Hcalm).
  exists zone, tp. split; [exact Hret |].
  split; [apply Hle; vm_compute; discriminate |].
  apply Hcalm; vm_compute; discriminate.
Defined.

Lemma gate_accept_requires_witness :
  snd sample_gate = Ret RiskManager.Accept
  /\ RiskTools.get_emergency_status (RiskManager.init sample_config) 1 = false
  /\ 3.0 <= 1000 - time gold_long.
Proof.
  assert (Hgate : RiskManager.validate_hedge_conditions (sample_env (Ret None))
                    (RiskManager.init sample_config) "XAUUSD" [gold_long] gold_tick
                    0.01 (Some 2.0) None
                  = (fst sample_gate, Ret RiskManager.Accept))
    by (vm_compute; reflexivity).
  destruct (gate_accept_requires _ _ _ _ _ _ _ _ _ Hgate)
    as (_ & _ & (all_positions & Hall & Hcap) & (server_time & Htime & Hage) & _).
  split; [vm_compute; reflexivity |].
  injection Hall as <-. injection Htime as <-.
  split; [exact Hcap |].
  apply (Hage gold_long). left. reflexivity.
Defined.

Lemma volatility_scale_clamped_witness :
  let res := RiskManager.update_volatility_scale (sample_env (Ret None))
               (RiskManager.init sample_config) "XAUUSD" 3 in
  1 <= snd res /\ snd res <= 1.25
  /\ RiskManager.high_vol_mode (RiskView.hedge_view (fst res) "XAUUSD") = true
  /\ snd (RiskManager.update_volatility_scale (sample_env (Ret None)) (fst res)
            "XAUUSD" 2.2) = snd res
  /\ snd (RiskManager.update_volatility_scale (sample_env (Ret None)) (fst res)
            "XAUUSD" 1) = 1.0.
Proof.
  cbv zeta.
  destruct (volatility_scale_clamped (sample_env (Ret None))
              (RiskManager.init sample_config) "XAUUSD" 3)
    as (Hback & Hhigh & _).
  destruct Hhigh as (Hlow & Hup & Hmode); [vm_compute; discriminate |].
  destruct (volatility_scale_clamped (sample_env (Ret None))
              (fst (RiskManager.update_volatility_scale (sample_env (Ret None))
                      (RiskManager.init sample_config) "XAUUSD" 3))
              "XAUUSD" 2.2) as (_ & _ & _ & Hkeep & _).
  destruct (volatility_scale_clamped (sample_env (Ret None))
              (fst (RiskManager.update_volatility_scale (sample_env (Ret None))
                      (RiskManager.init sample_config) "XAUUSD" 3))
              "XAUUSD" 1) as (_ & _ & Hreset & _).
  split; [exact Hlow |]. split; [exact Hup |]. split; [exact Hmode |].
  split.
  - destruct Hkeep as [Hk _]; [vm_compute; reflexivity | vm_compute; reflexivity |].
    rewrite Hk. exact Hback.
  - destruct Hreset as [Hr _]; [vm_compute; discriminate | exact Hr].
Defined.


Lemma zone_recovery_isolated_witness :
  let r := RiskManager.execute_zone_recovery (sample_env (Ret (Some 8%Z)))
             busy_manager ∅ "XAUUSD" [gold_long] gold_tick 0.01 true (Some 2.0) 1.0
             (Some 50)
             (Some {| RiskManager.vpin := 0.1; RiskManager.reynolds_number := 0 |})
             None in
  RiskManager._pending_hedges (RiskManager.rm r) !! "EURUSD" = Some 995
  /\ RiskManager._hedge_states (RiskManager.rm r) !! "EURUSD"
     = Some RiskManager.HedgeState_default
  /\ RiskManager.trades r !! 9%Z = None.
Proof.
  cbv zeta.
  destruct (zone_recovery_isolated (sample_env (Ret (Some 8%Z))) busy_manager ∅
              "XAUUSD" [gold_long] gold_tick 0.01 true (Some 2.0) 1.0 (Some 50)
              (Some {| RiskManager.vpin := 0.1; RiskManager.reynolds_number := 0 |})
              None) as (_ & _ & _ & Hother & Htrades).
  destruct (Hother "EURUSD") as (Hs & Hp); [discriminate |].
  split; [rewrite Hp; reflexivity |]. split; [rewrite Hs; reflexivity |].
  rewrite Htrades; [reflexivity |].
  intros p [<- | []]. discriminate.
Defined.

Lemma hedge_counters_follow_orders_witness :
  let after := snd (RiskTools.get_risk_status
                      (RiskManager.rm (sample_run (Ret (Some 8%Z)))) "XAUUSD" 1005) in
  RiskTools.rs_active_hedges after = 1%Z
  /\ RiskTools.rs_time_since_last_hedge after = 1005 - 1001.
Proof.
  cbv zeta.
  destruct (hedge_counters_follow_orders (sample_env (Ret (Some 8%Z)))
              (RiskManager.init sample_config) ∅ "XAUUSD" [gold_long] gold_tick 0.01
              true (Some 2.0) 1.0 (Some 50)
              (Some {| RiskManager.vpin := 0.1; RiskManager.reynolds_number := 0 |})
              None 1005) as (_ & _ & _ & Hplaced).
  destruct Hplaced as (Hcount & Hsince);
    [vm_compute; reflexivity | vm_compute; discriminate |].
  split; [exact Hcount | exact Hsince].
Defined.

Lemma placed_order_debounces_next_witness :
  sample_rerun
  = {| RiskManager.ret := Ret false;
       RiskManager.rm := RiskManager.rm (sample_run (Ret (Some 8%Z)));
       RiskManager.trades := RiskManager.trades (sample_run (Ret (Some 8%Z)));
       RiskManager.orders := [] |}.
Proof.
  apply (placed_order_debounces_next (sample_env (Ret (Some 8%Z)))
           (sample_env (Ret (Some 8%Z))) (RiskManager.init sample_config) ∅ "XAUUSD"
           [gold_long] [gold_long] gold_tick gold_tick 0.01 0.01 true true
           (Some 2.0) (Some 2.0) 1.0 1.0 (Some 50) (Some 50)
           (Some {| RiskManager.vpin := 0.1; RiskManager.reynolds_number := 0 |})
           (Some {| RiskManager.vpin := 0.1; RiskManager.reynolds_number := 0 |})
           None None).
  - vm_compute. reflexivity.
  - vm_compute. discriminate.
  - vm_compute. reflexivity.
Defined.

(** ** The combined analysis (src/ai_core/tick_pressure.py) *)

Section CombinedFacts.
Import CombinedAnalysis.
Variable np_std : list Q -> Q.




(** X27. In the dict [get_combined_analysis] returns, the VPIN is that
    of the buffers after the tick was classified, [is_toxic] holds
    exactly when that VPIN is above 0.4 (which needs at least 15
    samples), the regime is TURBULENT exactly for a Reynolds number
    above 500, and the force is imbalance times velocity, which
    vanishes with fewer than five samples in the window.  The Reynolds
    number is 0, and the regime LAMINAR, for an empty window, and also
    for a quote with both sides positive and the ask not above the bid
    when the point value is positive. *)
Theorem combined_analysis_consistent (window : TickWindow.t)
    (self self' : TickPressure.t) (tick : tick_arg) (point_value : Q)
    (c : Combined) :
  get_combined_analysis np_std window self tick point_value = (self', Ret c) ->
  vpin c = TickPressure.calculate_vpin self'
  /\ (is_toxic c = true <-> 0.4 < vpin c)
  /\ (is_toxic c = true ->
      (15 <= length (TickPressure.buy_volume_buffer self')
             + length (TickPressure.sell_volume_buffer self'))%nat)
  /\ (c_regime c = TURBULENT <-> 500 < reynolds_number c)
  /\ navier_stokes_force c
     = TickPressure.order_flow_imbalance (order_flow c)
       * TickWindow.velocity (pressure c)
  /\ ((length (TickWindow.ticks window) < 5)%nat -> navier_stokes_force c == 0)
  /\ (TickWindow.ticks window = [] ->
      reynolds_number c = 0.0 /\ c_regime c = LAMINAR)
  /\ (forall ask bid,
        get_quote tick = Ret (TickPressure.Num ask, TickPressure.Num bid) ->
        0 < ask -> 0 < bid -> ask <= bid -> 0 < point_value ->
        reynolds_number c = 0.0 /\ c_regime c = LAMINAR).
Proof.
  unfold get_combined_analysis.
  destruct (TickWindow.get_pressure_metrics window point_value) as [metrics |] eqn:Epress;
    [| discriminate].
  destruct (TickPressure.analyze_order_flow self (as_truthy tick)) as [s1 flow].
  destruct (get_quote tick) as [[ask0 bid0] |] eqn:Equote; [| discriminate].
  destruct (spread_of ask0 bid0) as [spread |] eqn:Espread; [| discriminate].
  destruct (Qeq_bool point_value 0) eqn:Epv; [discriminate |].
  destruct (calculate_reynolds_number np_std window (spread / point_value) point_value)
    as [re |] eqn:Ere; [| discriminate].
  intros H. injection H as <- <-. simpl.
  split; [reflexivity |]. split; [apply Qltb_lt |]. split.
  { intros Htoxic. apply Qltb_lt in Htoxic.
    unfold TickPressure.calculate_vpin in Htoxic. cbv zeta in Htoxic.
    destruct (Qle_bool _ 0); [lra |].
    destruct (Nat.ltb _ 15) eqn:El; [lra |]. apply Nat.ltb_ge in El. exact El. }
  split.
  { destruct (Qltb 500 re) eqn:E.
    - apply Qltb_lt in E. tauto.
    - apply Qltb_ge in E. split; [discriminate | intros Hlt; lra]. }
  split; [reflexivity |]. split.
  { intros Hfew. unfold TickWindow.get_pressure_metrics in Epress.
    apply Nat.ltb_lt in Hfew. rewrite Hfew in Epress. injection Epress as <-.
    unfold TickWindow.calculate_navier_stokes_pressure. simpl. ring. }
  split.
  { intros Hempty. unfold calculate_reynolds_number in Ere. rewrite Hempty in Ere.
    rewrite orb_true_r in Ere. injection Ere as <-. split; reflexivity. }
  intros ask bid [= -> ->] Hask Hbid Hcross Hpv.
  unfold spread_of in Espread.
  apply Qltb_lt in Hask, Hbid. rewrite Hask, Hbid in Espread. injection Espread as <-.
  assert (Hsp : Qle_bool ((ask - bid) / point_value) 0 = true).
  { apply Qle_bool_iff. apply Qle_shift_div_r; [exact Hpv | lra]. }
  unfold calculate_reynolds_number in Ere. rewrite Hsp in Ere. simpl in Ere.
  injection Ere as <-. split; reflexivity.
Qed.

End CombinedFacts.


Lemma combined_analysis_consistent_witness :
  (exists self' c,
     CombinedAnalysis.get_combined_analysis flat_std short_window fifteen_samples
       (CombinedAnalysis.TDict trade_at_ask) 0.01 = (self', Ret c)
     /\ CombinedAnalysis.is_toxic c = true
     /\ 0.4 < CombinedAnalysis.vpin c
     /\ (15 <= length (TickPressure.buy_volume_buffer self')
               + length (TickPressure.sell_volume_buffer self'))%nat
     /\ CombinedAnalysis.navier_stokes_force c == 0)
  /\ (exists self' c,
        CombinedAnalysis.get_combined_analysis flat_std (busy_window 1)
          (TickPressure.init None) (CombinedAnalysis.TDict crossed_tick) 0.01
        = (self', Ret c)
        /\ CombinedAnalysis.reynolds_number c = 0.0
        /\ CombinedAnalysis.c_regime c = CombinedAnalysis.LAMINAR).
Proof.
  split.
  - destruct (CombinedAnalysis.get_combined_analysis flat_std short_window
                fifteen_samples (CombinedAnalysis.TDict trade_at_ask) 0.01)
      as [self' [c |]] eqn:Hrun; [| vm_compute in Hrun; discriminate].
    destruct (combined_analysis_consistent flat_std short_window fifteen_samples self'
                (CombinedAnalysis.TDict trade_at_ask) 0.01 c Hrun)
      as (_ & Hiff & Htoxic & _ & _ & Hfew & _).
    assert (Hflag : CombinedAnalysis.is_toxic c = true).
    { vm_compute in Hrun. injection Hrun as _ <-. reflexivity. }
    exists self', c. split; [reflexivity |]. split; [exact Hflag |].
    split; [apply Hiff; exact Hflag |]. split; [exact (Htoxic Hflag) |].
    apply Hfew. vm_compute. lia.
  - destruct (CombinedAnalysis.get_combined_analysis flat_std (busy_window 1)
                (TickPressure.init None) (CombinedAnalysis.TDict crossed_tick) 0.01)
      as [self' [c |]] eqn:Hrun; [| vm_compute in Hrun; discriminate].
    destruct (combined_analysis_consistent flat_std (busy_window 1)
                (TickPressure.init None) self' (CombinedAnalysis.TDict crossed_tick)
                0.01 c Hrun) as (_ & _ & _ & _ & _ & _ & _ & Hcross).
    exists self', c. split; [reflexivity |].
    apply (Hcross 1 2); [reflexivity | | | |]; vm_compute; first [reflexivity | discriminate].
Defined.
